(** * RMSC screening pipeline: Layer 1, Layer 2 and the merge stage

    A shallow embedding of the screening scripts
    [02_layer1_exclusion.py], [03_layer2_inclusion.py] and
    [04_merge_results.py], with the properties of their retry loops, of the
    flattening of judge results into spreadsheet columns, of the batch
    loops over the dataframe and of the merge decision table. *)

From stdpp Require Import gmap strings list fin_maps pretty.
From Stdlib Require Import ZArith String Ascii Lia.

Local Open Scope string_scope.
Local Open Scope list_scope.

(** ** Python values *)

(** The values that flow through the scripts: what [json.loads] yields for
    a model answer, what a dataframe cell holds after [pd.read_csv], and
    the result dicts the screeners build.  A dict is an association list
    in insertion order, as Python keeps it; its keys are strings (JSON
    objects and the scripts' own dict literals have no other keys).
    [VNaN] is the float the CSV reader puts in an empty field; other
    floats are left out, no modelled path computes with them. *)
#[warnings="-register-all"]
Inductive pyval : Type :=
| VNone
| VBool (b : bool)
| VInt (z : Z)
| VNaN
| VStr (s : string)
| VList (l : list pyval)
| VDict (d : list (string * pyval)).

Abbreviation pydict := (list (string * pyval)).

(** Exceptions that the modelled statements can raise, with the text
    [str(e)] gives in CPython. *)
Inductive exn : Type :=
| KeyError (key : string)
| AttributeError (tyname attr : string)
| TypeError (msg : string)
| ValueError (msg : string)
| ZeroDivisionError (msg : string)
| IndexError (msg : string)
| SystemExit (code : Z)
| VendorError (msg : string).

Definition exn_str (e : exn) : string :=
  match e with
  | KeyError k => "'" +:+ k +:+ "'"
  | AttributeError ty a =>
      "'" +:+ ty +:+ "' object has no attribute '" +:+ a +:+ "'"
  | TypeError m | ValueError m | ZeroDivisionError m | IndexError m | VendorError m => m
  | SystemExit code => pretty code
  end.

(** A computation that returns or raises. *)
Inductive pyres (A : Type) : Type :=
| Ok (a : A)
| Raise (e : exn).
Arguments Ok {A} a.
Arguments Raise {A} e.

Definition pybind {A B} (m : pyres A) (k : A -> pyres B) : pyres B :=
  match m with
  | Ok a => k a
  | Raise e => Raise e
  end.

Notation "'do!' x <- m ; k" := (pybind m (fun x => k))
  (at level 10, x name, m at level 100, k at level 200, only parsing).

(** What [except Exception] catches: every exception of the scripts but
    [SystemExit], which derives from [BaseException] alone (as does the
    keyboard interrupt, which is not modelled). *)
Definition is_exception (e : exn) : bool :=
  match e with
  | SystemExit _ => false
  | _ => true
  end.

(** [try: body except Exception as e: handler]: an exception that is no
    [Exception] passes through. *)
Definition try_except {A} (body : pyres A) (handler : exn -> pyres A) : pyres A :=
  match body with
  | Ok a => Ok a
  | Raise e => if is_exception e then handler e else Raise e
  end.

Module Py.

Definition type_name (v : pyval) : string :=
  match v with
  | VNone => "NoneType"
  | VBool _ => "bool"
  | VInt _ => "int"
  | VNaN => "float"
  | VStr _ => "str"
  | VList _ => "list"
  | VDict _ => "dict"
  end.

(** [d.get(k)] on the association list. *)
Fixpoint dict_get (d : pydict) (k : string) : option pyval :=
  match d with
  | [] => None
  | (k', v) :: d' => if String.eqb k' k then Some v else dict_get d' k
  end.

(** [d[k] = v]: overwrite in place, or append a new key. *)
Fixpoint dict_set (d : pydict) (k : string) (v : pyval) : pydict :=
  match d with
  | [] => [(k, v)]
  | (k', v') :: d' =>
      if String.eqb k' k then (k', v) :: d' else (k', v') :: dict_set d' k v
  end.

Definition dict_keys (d : pydict) : list string := map fst d.

(** [k in d]. *)
Definition dict_has (d : pydict) (k : string) : bool :=
  match dict_get d k with Some _ => true | None => false end.

(** A dict literal: later duplicates of a key overwrite earlier ones. *)
Definition dict_lit (items : list (string * pyval)) : pydict :=
  fold_left (fun d kv => dict_set d (fst kv) (snd kv)) items [].

(** [d[k]], a [KeyError] when the key is missing. *)
Definition dict_index (d : pydict) (k : string) : pyres pyval :=
  match dict_get d k with
  | Some v => Ok v
  | None => Raise (KeyError k)
  end.

(** [v.get(k, dflt)] on any value: only dicts have the method. *)
Definition get (v : pyval) (k : string) (dflt : pyval) : pyres pyval :=
  match v with
  | VDict d => Ok (default dflt (dict_get d k))
  | _ => Raise (AttributeError (type_name v) "get")
  end.

(** Truth value, as [if v:] and [a and b] test it. *)
Definition truthy (v : pyval) : bool :=
  match v with
  | VNone => false
  | VBool b => b
  | VInt z => negb (z =? 0)%Z
  | VNaN => true
  | VStr s => negb (String.eqb s "")
  | VList l => match l with [] => false | _ => true end
  | VDict d => match d with [] => false | _ => true end
  end.

(** [a == b].  NaN equals nothing, a bool equals the int it stands for,
    lists compare element by element, dicts key by key whatever the
    order. *)
Fixpoint eq (a b : pyval) {struct a} : bool :=
  match a, b with
  | VNone, VNone => true
  | VBool x, VBool y => Bool.eqb x y
  | VBool x, VInt y => (Z.b2z x =? y)%Z
  | VInt x, VBool y => (x =? Z.b2z y)%Z
  | VInt x, VInt y => (x =? y)%Z
  | VStr x, VStr y => String.eqb x y
  | VList xs, VList ys =>
      (fix go (xs ys : list pyval) {struct xs} : bool :=
         match xs, ys with
         | [], [] => true
         | x :: xs', y :: ys' => eq x y && go xs' ys'
         | _, _ => false
         end) xs ys
  | VDict d1, VDict d2 =>
      Nat.eqb (List.length d1) (List.length d2) &&
      (fix go (d : pydict) {struct d} : bool :=
         match d with
         | [] => true
         | (k, v) :: d' =>
             match dict_get d2 k with
             | Some v2 => eq v v2
             | None => false
             end && go d'
         end) d1
  | _, _ => false
  end.

(** [s1 in s2] for strings: substring search. *)
Fixpoint is_prefix (p s : string) : bool :=
  match p, s with
  | EmptyString, _ => true
  | String a p', String b s' => Ascii.eqb a b && is_prefix p' s'
  | String _ _, EmptyString => false
  end.

Fixpoint substring_of (p s : string) : bool :=
  is_prefix p s ||
  match s with
  | EmptyString => false
  | String _ s' => substring_of p s'
  end.

(** [k in v]: key membership for a dict, element membership for a list,
    substring for a str; numbers, bools and None are not containers. *)
Definition contains (v : pyval) (k : string) : pyres bool :=
  match v with
  | VDict d => Ok (dict_has d k)
  | VList l => Ok (existsb (fun x => eq (VStr k) x) l)
  | VStr s => Ok (substring_of k s)
  | _ => Raise (TypeError ("argument of type '" +:+ type_name v +:+ "' is not iterable"))
  end.

(** A Python [str] is kept as its UTF-8 encoding: a character is a lead
    byte together with the continuation bytes (128..191) that follow
    it. *)
Definition is_continuation (a : ascii) : bool :=
  let n := nat_of_ascii a in
  (Nat.leb 128 n && Nat.leb n 191)%bool.

(** [s[:n]]: the first [n] characters, each with all of its bytes. *)
Fixpoint str_take (n : nat) (s : string) : string :=
  match s with
  | EmptyString => EmptyString
  | String a s' =>
      if is_continuation a then String a (str_take n s')
      else match n with
           | O => EmptyString
           | S n' => String a (str_take n' s')
           end
  end.

(** [list(s)]: the characters of [s]. *)
Fixpoint str_chars (s : string) : list string :=
  match s with
  | EmptyString => []
  | String a s' =>
      match s' with
      | String b _ =>
          if is_continuation b then
            match str_chars s' with
            | c :: cs => String a c :: cs
            | [] => [String a EmptyString]
            end
          else String a EmptyString :: str_chars s'
      | EmptyString => [String a EmptyString]
      end
  end.

(** [s.lower()] on ASCII letters; the other bytes stay.  The scripts
    lower the tags, which are ASCII, and the answer they compare with
    "y", to which no letter outside ASCII is lowered. *)
Definition lower_ascii (a : ascii) : ascii :=
  let n := nat_of_ascii a in
  if (Nat.leb 65 n && Nat.leb n 90)%bool then ascii_of_nat (n + 32) else a.

Fixpoint str_lower (s : string) : string :=
  match s with
  | EmptyString => EmptyString
  | String a s' => String (lower_ascii a) (str_lower s')
  end.

(** [s.replace(c, "")] for a one-character [c]. *)
Fixpoint str_remove (c : ascii) (s : string) : string :=
  match s with
  | EmptyString => EmptyString
  | String a s' =>
      if Ascii.eqb a c then str_remove c s' else String a (str_remove c s')
  end.

(** Whitespace as [str.strip()] sees it.  In ASCII: space, tab, newline,
    vertical tab, form feed, carriage return and the four separators
    28..31. *)
Definition is_space (a : ascii) : bool :=
  let n := nat_of_ascii a in
  (Nat.eqb n 32 || (Nat.leb 9 n && Nat.leb n 13) || (Nat.leb 28 n && Nat.leb n 31))%bool.

(** Beyond ASCII, by their UTF-8 bytes: U+0085 and U+00A0 (C2 85,
    C2 A0), U+1680 (E1 9A 80), U+2000..U+200A (E2 80 80..8A), U+2028,
    U+2029 and U+202F (E2 80 A8, A9 and AF), U+205F (E2 81 9F) and
    U+3000 (E3 80 80). *)
Definition is_space2 (a b : ascii) : bool :=
  let x := nat_of_ascii a in
  let y := nat_of_ascii b in
  (Nat.eqb x 194 && (Nat.eqb y 133 || Nat.eqb y 160))%bool.

Definition is_space3 (a b c : ascii) : bool :=
  let x := nat_of_ascii a in
  let y := nat_of_ascii b in
  let z := nat_of_ascii c in
  ((Nat.eqb x 225 && Nat.eqb y 154 && Nat.eqb z 128)
   || (Nat.eqb x 226 && Nat.eqb y 128
       && ((Nat.leb 128 z && Nat.leb z 138) || Nat.eqb z 168 || Nat.eqb z 169
           || Nat.eqb z 175))
   || (Nat.eqb x 226 && Nat.eqb y 129 && Nat.eqb z 159)
   || (Nat.eqb x 227 && Nat.eqb y 128 && Nat.eqb z 128))%bool.

(** [not s.strip()]: the string is empty or all whitespace. *)
Fixpoint is_blank (s : string) : bool :=
  match s with
  | EmptyString => true
  | String a s1 =>
      if is_space a then is_blank s1
      else
        match s1 with
        | String b s2 =>
            if is_space2 a b then is_blank s2
            else
              match s2 with
              | String c s3 => is_space3 a b c && is_blank s3
              | EmptyString => false
              end
        | EmptyString => false
        end
  end.

(** [",".join(parts)]. *)
Fixpoint str_join (sep : string) (parts : list string) : string :=
  match parts with
  | [] => ""
  | [p] => p
  | p :: rest => p +:+ sep +:+ str_join sep rest
  end.

End Py.

(** ** External collaborators *)

(** What the scripts take from libraries and from the environment, kept
    abstract: the JSON reader with its regular-expression fallbacks
    ([parse_json_response], which yields [None] when nothing parses), the
    two prompt templates of [prompts.py] as functions of title and
    abstract, [str()] of a list or dict, and the clock behind
    [datetime.now().isoformat()], indexed by the row being stamped. *)
Class Externals : Type := {
  parse_json_response : string -> pyval;
  LAYER1_EXCLUSION_PROMPT : string -> string -> string;
  LAYER2_INCLUSION_PROMPT : string -> string -> string;
  container_repr : pyval -> string;
  now_isoformat : nat -> string
}.

(** ** The vendors *)

(** A Gemini response: its text and, when the attribute is there, the
    usage metadata, whose counters may themselves be missing. *)
Record usage_metadata : Type := {
  prompt_token_count : option Z;
  candidates_token_count : option Z;
  total_token_count : option Z
}.

Record gemini_response : Type := {
  gemini_text : string;
  gemini_usage : option usage_metadata
}.

(** A Claude message: token usage and content blocks. *)
Inductive content_block : Type :=
| ThinkingBlock (thinking : string)
| TextBlock (text : string)
| OtherBlock.

Record claude_message : Type := {
  usage_input_tokens : Z;
  usage_output_tokens : Z;
  content : list content_block
}.

(** One vendor call either raises or returns a response. *)
Inductive outcome (R : Type) : Type :=
| CallRaises (e : exn)
| CallReturns (r : R).
Arguments CallRaises {R} e.
Arguments CallReturns {R} r.

(** A vendor is an oracle: the prompt and the number of the attempt within
    one screening call decide the outcome. *)
Definition gemini_model : Type := string -> nat -> outcome gemini_response.
Definition claude_client : Type := string -> nat -> outcome claude_message.

Definition call {R} (o : outcome R) : pyres R :=
  match o with
  | CallRaises e => Raise e
  | CallReturns r => Ok r
  end.

(** A call that raises, if it raises, an [Exception]; a vendor all of
    whose calls are so.  An SDK raises its own errors, which derive from
    [Exception]; [SystemExit] is raised by [sys.exit] alone. *)
Definition raises_exception {R} (o : outcome R) : Prop :=
  match o with
  | CallRaises e => is_exception e = true
  | CallReturns _ => True
  end.

Definition well_behaved {R} (vendor : string -> nat -> outcome R) : Prop :=
  forall prompt attempt, raises_exception (vendor prompt attempt).

(** What one pass through a [for] body does next. *)
Inductive loop_step : Type :=
| Return (d : pydict)
| Continue.

Definition INCLUSION_TAGS : pydict :=
  Py.dict_lit
    [ ("INC-1", VStr "RCT or matched comparative study");
      ("INC-2", VStr "HOPE or NMP intervention");
      ("INC-3", VStr "SCS comparator");
      ("INC-4", VStr "Adult liver transplantation");
      ("INC-5", VStr "ECD or DCD donor") ].

Definition inc_tags : list string := ["INC-1"; "INC-2"; "INC-3"; "INC-4"; "INC-5"].

(** [for x in xs: acc = f(acc, x)] where [f] may raise. *)
Fixpoint for_each {A S} (xs : list A) (acc : S) (f : S -> A -> pyres S) : pyres S :=
  match xs with
  | [] => Ok acc
  | x :: xs' => do! acc' <- f acc x; for_each xs' acc' f
  end.

Section Prompts.
Context `{Externals}.

Definition fill_abstract (abstract : string) : string :=
  if (negb (Py.truthy (VStr abstract)) || Py.is_blank abstract)%bool
  then "[No abstract available]" else abstract.

Definition format_layer1_prompt (title abstract : string) : string :=
  LAYER1_EXCLUSION_PROMPT title (fill_abstract abstract).

Definition format_layer2_prompt (title abstract : string) : string :=
  LAYER2_INCLUSION_PROMPT title (fill_abstract abstract).
End Prompts.

(** The three counters read off a Gemini response. *)
Definition gemini_tokens (r : gemini_response) : Z * Z * Z :=
  match gemini_usage r with
  | None => (0, 0, 0)%Z
  | Some um =>
      let input_tokens := default 0%Z (prompt_token_count um) in
      let output_tokens := default 0%Z (candidates_token_count um) in
      let total_tokens := default (input_tokens + output_tokens)%Z (total_token_count um) in
      (input_tokens, output_tokens, total_tokens)
  end.

(** [parsed and "decision" in parsed]. *)
Definition has_decision (parsed : pyval) : pyres bool :=
  if Py.truthy parsed then Py.contains parsed "decision" else Ok false.

(** ** Layer 1 screener ([02_layer1_exclusion.py]) *)

Module Layer1.
Section WithExternals.
Context `{Externals}.

(** The body of the [try] at one attempt.  Token logging (the only use
    of [record_id]) and the sleeps between attempts change nothing that
    is returned and are left out. *)
Definition try_body (max_retries : Z) (attempt : nat)
    (o : outcome gemini_response) : pyres loop_step :=
  do! response <- call o;
  let response_text := gemini_text response in
  let '(input_tokens, output_tokens, total_tokens) := gemini_tokens response in
  let parsed := parse_json_response response_text in
  do! ok <- has_decision parsed;
  if ok then
    do! decision <- Py.get parsed "decision" (VStr "pass");
    do! exclusion_tags <- Py.get parsed "exclusion_tags" (VList []);
    do! evidence <- Py.get parsed "evidence" VNone;
    do! reasoning <- Py.get parsed "reasoning" VNone;
    Ok (Return (Py.dict_lit
      [ ("decision", decision);
        ("exclusion_tags", exclusion_tags);
        ("evidence", evidence);
        ("reasoning", reasoning);
        ("error", VNone);
        ("raw_response", VStr (Py.str_take 500 response_text));
        ("input_tokens", VInt input_tokens);
        ("output_tokens", VInt output_tokens);
        ("total_tokens", VInt total_tokens) ]))
  else if (Z.of_nat attempt <? max_retries - 1)%Z then Ok Continue
  else
    Ok (Return (Py.dict_lit
      [ ("decision", VStr "pass");
        ("exclusion_tags", VList []);
        ("evidence", VNone);
        ("reasoning", VStr "JSON parsing failed");
        ("error", VStr ("Invalid JSON: " +:+ Py.str_take 200 response_text));
        ("raw_response", VStr (Py.str_take 500 response_text)) ])).

(** The [except Exception as e] clause. *)
Definition handler (max_retries : Z) (attempt : nat) (e : exn) : pyres loop_step :=
  if (Z.of_nat attempt <? max_retries - 1)%Z then Ok Continue
  else
    Ok (Return (Py.dict_lit
      [ ("decision", VStr "pass");
        ("exclusion_tags", VList []);
        ("evidence", VNone);
        ("reasoning", VNone);
        ("error", VStr (exn_str e));
        ("raw_response", VNone) ])).

Definition max_retries_exceeded : pydict :=
  Py.dict_lit
    [ ("decision", VStr "pass");
      ("exclusion_tags", VList []);
      ("evidence", VNone);
      ("reasoning", VNone);
      ("error", VStr "Max retries exceeded");
      ("raw_response", VNone) ].

(** The [for attempt in range(max_retries)] loop; the second component
    counts the calls of [model.generate_content]. *)
Fixpoint retry_loop (model : gemini_model) (prompt : string) (max_retries : Z)
    (attempts : list nat) (calls : nat) : pyres pydict * nat :=
  match attempts with
  | [] => (Ok max_retries_exceeded, calls)
  | attempt :: rest =>
      match try_except (try_body max_retries attempt (model prompt attempt))
                       (handler max_retries attempt) with
      | Ok (Return d) => (Ok d, S calls)
      | Ok Continue => retry_loop model prompt max_retries rest (S calls)
      | Raise e => (Raise e, S calls)
      end
  end.

Definition screen_record_layer1 (model : gemini_model) (title abstract : string)
    (record_id : option string) (max_retries : Z) : pyres pydict * nat :=
  let prompt := format_layer1_prompt title abstract in
  retry_loop model prompt max_retries (seq 0 (Z.to_nat max_retries)) 0.

End WithExternals.
End Layer1.

(** ** Layer 2 judges ([03_layer2_inclusion.py]) *)

Module Layer2.
Section WithExternals.
Context `{Externals}.

(** One entry of [inclusion_check]. *)
Definition extract_tag (inc_check : pyval) (acc : pydict) (tag : string) : pyres pydict :=
  do! tag_data <- Py.get inc_check tag (VDict []);
  do! status <- Py.get tag_data "status" (VStr "unclear");
  do! evidence <- Py.get tag_data "evidence" VNone;
  Ok (Py.dict_set acc tag
        (VDict (Py.dict_lit [("status", status); ("evidence", evidence)]))).

(** [extract_inclusion_result]: the nested dict under "inclusion_check"
    is filled tag by tag; an exception on the way leaves no result. *)
Definition extract_inclusion_result (parsed : pyval) : pyres pydict :=
  do! decision <- Py.get parsed "decision" (VStr "include");
  do! confidence <- Py.get parsed "confidence" (VStr "low");
  do! reasoning <- Py.get parsed "reasoning" VNone;
  let result := Py.dict_lit
    [ ("decision", decision);
      ("confidence", confidence);
      ("reasoning", reasoning);
      ("inclusion_check", VDict []);
      ("error", VNone) ] in
  do! inc_check <- Py.get parsed "inclusion_check" (VDict []);
  do! checks <- for_each inc_tags [] (extract_tag inc_check);
  Ok (Py.dict_set result "inclusion_check" (VDict checks)).

(** [{tag: {"status": "unclear", "evidence": None} for tag in INCLUSION_TAGS}]. *)
Definition unclear_checks : pydict :=
  Py.dict_lit
    (map (fun tag => (tag, VDict (Py.dict_lit [("status", VStr "unclear"); ("evidence", VNone)])))
         (Py.dict_keys INCLUSION_TAGS)).

(** The dict returned from the [except] clause on the last attempt. *)
Definition error_result (e : exn) : pydict :=
  Py.dict_lit
    [ ("decision", VStr "include");
      ("confidence", VStr "low");
      ("reasoning", VNone);
      ("inclusion_check", VDict unclear_checks);
      ("error", VStr (exn_str e));
      ("raw_response", VNone) ].

(** The dict returned after the loop. *)
Definition max_retries_result : pydict :=
  Py.dict_lit
    [ ("decision", VStr "include");
      ("confidence", VStr "low");
      ("reasoning", VStr "Parsing failed");
      ("inclusion_check", VDict unclear_checks);
      ("error", VStr "Max retries");
      ("raw_response", VNone) ].

(** Both judges share the [except] clause. *)
Definition handler (max_retries : Z) (attempt : nat) (e : exn) : pyres loop_step :=
  if (Z.of_nat attempt <? max_retries - 1)%Z then Ok Continue
  else Ok (Return (error_result e)).

(** [try] body of [screen_with_gemini_pro].  After an answer without a
    usable decision the body either sleeps and continues or falls off
    its end; both lead to the next iteration. *)
Definition gemini_try_body (o : outcome gemini_response) : pyres loop_step :=
  do! response <- call o;
  let '(input_tokens, output_tokens, total_tokens) := gemini_tokens response in
  let parsed := parse_json_response (gemini_text response) in
  do! ok <- has_decision parsed;
  if ok then
    do! result <- extract_inclusion_result parsed;
    let result := Py.dict_set result "raw_response" (VStr (Py.str_take 500 (gemini_text response))) in
    let result := Py.dict_set result "input_tokens" (VInt input_tokens) in
    let result := Py.dict_set result "output_tokens" (VInt output_tokens) in
    let result := Py.dict_set result "total_tokens" (VInt total_tokens) in
    Ok (Return result)
  else Ok Continue.

(** The loop over the content blocks of a Claude message: the last text
    block and the last thinking block win. *)
Definition scan_blocks (blocks : list content_block) : string * string :=
  fold_left
    (fun '(response_text, thinking_text) block =>
       match block with
       | ThinkingBlock t => (response_text, t)
       | TextBlock t => (t, thinking_text)
       | OtherBlock => (response_text, thinking_text)
       end)
    blocks ("", "").

(** [try] body of [screen_with_claude]. *)
Definition claude_try_body (o : outcome claude_message) : pyres loop_step :=
  do! message <- call o;
  let input_tokens := usage_input_tokens message in
  let output_tokens := usage_output_tokens message in
  let '(response_text, thinking_text) := scan_blocks (content message) in
  let parsed := parse_json_response response_text in
  do! ok <- has_decision parsed;
  if ok then
    do! result <- extract_inclusion_result parsed;
    let result := Py.dict_set result "raw_response" (VStr (Py.str_take 500 response_text)) in
    let result := Py.dict_set result "thinking"
      (VStr (if Py.truthy (VStr thinking_text) then Py.str_take 1000 thinking_text else "")) in
    let result := Py.dict_set result "input_tokens" (VInt input_tokens) in
    let result := Py.dict_set result "output_tokens" (VInt output_tokens) in
    let result := Py.dict_set result "total_tokens" (VInt (input_tokens + output_tokens)) in
    Ok (Return result)
  else Ok Continue.

(** The retry loop of either judge; the second component counts the
    vendor calls. *)
Fixpoint retry_loop {R} (try_body : outcome R -> pyres loop_step)
    (vendor : nat -> outcome R) (max_retries : Z)
    (attempts : list nat) (calls : nat) : pyres pydict * nat :=
  match attempts with
  | [] => (Ok max_retries_result, calls)
  | attempt :: rest =>
      match try_except (try_body (vendor attempt)) (handler max_retries attempt) with
      | Ok (Return d) => (Ok d, S calls)
      | Ok Continue => retry_loop try_body vendor max_retries rest (S calls)
      | Raise e => (Raise e, S calls)
      end
  end.

Definition screen_with_gemini_pro (model : gemini_model) (title abstract : string)
    (record_id : option string) (max_retries : Z) : pyres pydict * nat :=
  let prompt := format_layer2_prompt title abstract in
  retry_loop gemini_try_body (model prompt) max_retries (seq 0 (Z.to_nat max_retries)) 0.

Definition screen_with_claude (client : claude_client) (title abstract : string)
    (record_id : option string) (max_retries : Z) : pyres pydict * nat :=
  let prompt := format_layer2_prompt title abstract in
  retry_loop claude_try_body (client prompt) max_retries (seq 0 (Z.to_nat max_retries)) 0.

(** [flatten_result]: seven scalar columns, then two per tag. *)
Definition tag_key (tag : string) : string :=
  Py.str_remove "-"%char (Py.str_lower tag).

Definition flatten_tag (result : pydict) (prefix : string)
    (flat : pydict) (tag : string) : pyres pydict :=
  do! checks <- Py.dict_index result "inclusion_check";
  do! inc_data <- Py.get checks tag (VDict []);
  do! status <- Py.get inc_data "status" (VStr "unclear");
  let flat := Py.dict_set flat (prefix +:+ "_" +:+ tag_key tag +:+ "_status") status in
  do! evidence <- Py.get inc_data "evidence" VNone;
  Ok (Py.dict_set flat (prefix +:+ "_" +:+ tag_key tag +:+ "_evidence") evidence).

Definition flatten_result (result : pydict) (prefix : string) : pyres pydict :=
  do! decision <- Py.dict_index result "decision";
  do! confidence <- Py.dict_index result "confidence";
  do! reasoning <- Py.dict_index result "reasoning";
  let flat := Py.dict_lit
    [ (prefix +:+ "_decision", decision);
      (prefix +:+ "_confidence", confidence);
      (prefix +:+ "_reasoning", reasoning);
      (prefix +:+ "_error", default VNone (Py.dict_get result "error"));
      (prefix +:+ "_input_tokens", default (VInt 0) (Py.dict_get result "input_tokens"));
      (prefix +:+ "_output_tokens", default (VInt 0) (Py.dict_get result "output_tokens"));
      (prefix +:+ "_total_tokens", default (VInt 0) (Py.dict_get result "total_tokens")) ] in
  for_each inc_tags flat (flatten_tag result prefix).

End WithExternals.
End Layer2.

(** ** Dataframes *)

(** A dataframe with the default integer index: the column names in
    order and one map from column to cell per row. *)
Record DataFrame : Type := {
  columns : list string;
  rows : list (gmap string pyval)
}.

(** A run of a stage: the dataframe being filled, every frame handed to
    [df.to_csv(output_csv)] so far (oldest first), and the rows handed to
    [executor.submit], the only way a vendor is ever called. *)
Record run : Type := {
  frame : DataFrame;
  saved : list DataFrame;
  submitted : list nat
}.

(** State and exceptions together: a raise keeps the state reached.
    [st_try] is [try_except] for steps of a run. *)
Definition M (A : Type) : Type := run -> pyres A * run.

Definition st_ret {A} (a : A) : M A := fun st => (Ok a, st).

Definition st_bind {A B} (m : M A) (k : A -> M B) : M B :=
  fun st =>
    match m st with
    | (Ok a, st') => k a st'
    | (Raise e, st') => (Raise e, st')
    end.

Notation "'run!' x <- m ; k" := (st_bind m (fun x => k))
  (at level 10, x name, m at level 100, k at level 200, only parsing).

Definition st_lift {A} (r : pyres A) : M A := fun st => (r, st).

Definition st_try {A} (body : M A) (handler : exn -> M A) : M A :=
  fun st =>
    match body st with
    | (Ok a, st') => (Ok a, st')
    | (Raise e, st') => if is_exception e then handler e st' else (Raise e, st')
    end.

Fixpoint st_for {A} (xs : list A) (body : A -> M unit) : M unit :=
  match xs with
  | [] => st_ret tt
  | x :: xs' => run! _ <- body x; st_for xs' body
  end.

Module Pd.

(** [col in df.columns]. *)
Definition has_column (df : DataFrame) (col : string) : bool :=
  bool_decide (col ∈ columns df).

(** [df[col] = v] with a scalar [v]: the column is created or
    overwritten in every row. *)
Definition set_column (df : DataFrame) (col : string) (v : pyval) : DataFrame :=
  {| columns := if has_column df col then columns df else columns df ++ [col];
     rows := (fun r => <[col := v]> r) <$> rows df |}.

(** [df.at[idx, key] = value] for a row [idx] of the frame: a column not
    yet there is created first, NaN in every row.  Both stages index
    only rows they have just read with [df.iloc[idx]], so the write is
    always within the frame. *)
Definition at_set (df : DataFrame) (idx : nat) (key : string) (value : pyval) : DataFrame :=
  let df' := if has_column df key then df else set_column df key VNaN in
  {| columns := columns df';
     rows := alter (fun r => <[key := value]> r) idx (rows df') |}.

(** [df.iloc[idx]]. *)
Definition iloc (df : DataFrame) (idx : nat) : pyres (gmap string pyval) :=
  match rows df !! idx with
  | Some r => Ok r
  | None => Raise (IndexError "single positional indexer is out-of-bounds")
  end.

(** [row.get(key, dflt)]. *)
Definition row_get (r : gmap string pyval) (key : string) (dflt : pyval) : pyval :=
  default dflt (r !! key).

(** [pd.notna(v)]. *)
Definition notna (v : pyval) : bool :=
  match v with
  | VNone | VNaN => false
  | _ => true
  end.

Definition isna (v : pyval) : bool := negb (notna v).

(** The cell of a row under a column, NaN where the row has none. *)
Definition cell (r : gmap string pyval) (col : string) : pyval :=
  default VNaN (r !! col).

(** [df[df[col] == s].index.tolist()]. *)
Definition where_eq (df : DataFrame) (col s : string) : list nat :=
  List.filter (fun i => match rows df !! i with
                        | Some r => Py.eq (cell r col) (VStr s)
                        | None => false
                        end)
              (seq 0 (List.length (rows df))).

(** [df[col].notna().sum()]. *)
Definition count_notna (df : DataFrame) (col : string) : nat :=
  List.length (List.filter (fun r => notna (cell r col)) (rows df)).

End Pd.

(** [df.at[idx, key] = value], [df.to_csv(output_csv)] and
    [executor.submit] as steps of a run. *)
Definition at_set (idx : nat) (key : string) (value : pyval) : M unit :=
  fun st => (Ok tt, {| frame := Pd.at_set (frame st) idx key value;
                       saved := saved st; submitted := submitted st |}).

Definition to_csv : M unit :=
  fun st => (Ok tt, {| frame := frame st;
                       saved := saved st ++ [frame st]; submitted := submitted st |}).

Definition submit (idx : nat) : M unit :=
  fun st => (Ok tt, {| frame := frame st;
                       saved := saved st; submitted := submitted st ++ [idx] |}).

Definition get_frame : M DataFrame := fun st => (Ok (frame st), st).

(** [df[col]]: the cells of a column; a frame without it raises. *)
Definition column (df : DataFrame) (col : string) : pyres (list pyval) :=
  if Pd.has_column df col then Ok ((fun r => Pd.cell r col) <$> rows df)
  else Raise (KeyError col).

Section Str.
Context `{Externals}.

(** [str(v)]. *)
Definition py_str (v : pyval) : string :=
  match v with
  | VNone => "None"
  | VBool true => "True"
  | VBool false => "False"
  | VInt z => pretty z
  | VNaN => "nan"
  | VStr s => s
  | VList _ | VDict _ => container_repr v
  end.
End Str.

(** [sep.join(v)]: [v] must be an iterable of strings. *)
Definition py_join (sep : string) (v : pyval) : pyres string :=
  let fix strs (i : nat) (l : list pyval) : pyres (list string) :=
    match l with
    | [] => Ok []
    | VStr s :: l' => do! rest <- strs (S i) l'; Ok (s :: rest)
    | x :: _ =>
        Raise (TypeError ("sequence item " +:+ pretty i +:+ ": expected str instance, "
                          +:+ Py.type_name x +:+ " found"))
    end in
  match v with
  | VList l => do! parts <- strs 0 l; Ok (Py.str_join sep parts)
  | VDict d => Ok (Py.str_join sep (Py.dict_keys d))
  | VStr s => Ok (Py.str_join sep (Py.str_chars s))
  | _ => Raise (TypeError "can only join an iterable")
  end.

(** [range(start, stop, step)] for a positive step. *)
Definition py_range (start stop step : nat) : list nat :=
  (fun k => start + k * step) <$> seq 0 ((stop - start + step - 1) / step).

(** [l[s:]] with Python's reading of a negative start. *)
Definition slice_from {A} (l : list A) (s : Z) : list A :=
  if (s <? 0)%Z then drop (Z.to_nat (Z.of_nat (List.length l) + s)) l
  else drop (Z.to_nat s) l.

(** [for col in cols: if col not in df.columns: df[col] = None]. *)
Definition init_columns (cols : list string) (df : DataFrame) : DataFrame :=
  fold_left (fun df col => if Pd.has_column df col then df else Pd.set_column df col VNone)
            cols df.

(** A [for] loop whose body may append to a list it builds. *)
Fixpoint st_gather {A B} (xs : list A) (body : A -> M (list B)) : M (list B) :=
  match xs with
  | [] => st_ret []
  | x :: xs' =>
      run! ys <- body x;
      run! rest <- st_gather xs' body;
      st_ret (ys ++ rest)
  end.

(** ** Layer 1 stage: [process_screening] *)

Section ProcessScreening.
Context `{Externals}.

Definition L1_new_columns : list string :=
  [ "L1_decision"; "L1_exclusion_tags"; "L1_evidence"; "L1_reasoning"; "L1_error";
    "L1_timestamp"; "L1_input_tokens"; "L1_output_tokens"; "L1_total_tokens" ].

(** The statements under [try] that write one result into the frame. *)
Definition store_result (idx : nat) (result : pydict) : M unit :=
  run! decision <- st_lift (Py.dict_index result "decision");
  run! _ <- at_set idx "L1_decision" decision;
  run! tags <- st_lift (Py.dict_index result "exclusion_tags");
  run! joined <- st_lift (if Py.truthy tags then py_join "," tags else Ok "");
  run! _ <- at_set idx "L1_exclusion_tags" (VStr joined);
  run! evidence <- st_lift (Py.dict_index result "evidence");
  run! _ <- at_set idx "L1_evidence" evidence;
  run! reasoning <- st_lift (Py.dict_index result "reasoning");
  run! _ <- at_set idx "L1_reasoning" reasoning;
  run! error <- st_lift (Py.dict_index result "error");
  run! _ <- at_set idx "L1_error" error;
  run! _ <- at_set idx "L1_timestamp" (VStr (now_isoformat idx));
  run! _ <- at_set idx "L1_input_tokens" (default (VInt 0) (Py.dict_get result "input_tokens"));
  run! _ <- at_set idx "L1_output_tokens" (default (VInt 0) (Py.dict_get result "output_tokens"));
  at_set idx "L1_total_tokens" (default (VInt 0) (Py.dict_get result "total_tokens")).

(** [future.result()] and the stores, with the [except Exception] that
    records the message instead. *)
Definition collect (entry : nat * pyres pydict) : M unit :=
  let '(idx, future) := entry in
  st_try (run! result <- st_lift future; store_result idx result)
         (fun e => at_set idx "L1_error" (VStr (exn_str e))).

(** One pass of the submitting loop: a blank title is settled on the
    spot, any other row is handed to the pool. *)
Definition submit_row (model : nat -> gemini_model) (idx : nat)
    : M (list (nat * pyres pydict)) :=
  run! df <- get_frame;
  run! row <- st_lift (Pd.iloc df idx);
  let title := py_str (Pd.row_get row "title" (VStr "")) in
  let abstract := py_str (Pd.row_get row "abstract" (VStr "")) in
  let record_id := py_str (Pd.row_get row "record_id" (VInt (Z.of_nat idx))) in
  if Py.is_blank title then
    run! _ <- at_set idx "L1_decision" (VStr "pass");
    run! _ <- at_set idx "L1_reasoning" (VStr "No title available");
    run! _ <- at_set idx "L1_timestamp" (VStr (now_isoformat idx));
    st_ret []
  else
    run! _ <- submit idx;
    st_ret [(idx, fst (Layer1.screen_record_layer1 (model idx) title abstract
                         (Some record_id) 3))].

Definition process_batch (model : nat -> gemini_model) (total_records batch_size : nat)
    (batch_start : nat) : M unit :=
  let batch_end := Nat.min (batch_start + batch_size) total_records in
  let batch_indices := seq batch_start (batch_end - batch_start) in
  run! futures <- st_gather batch_indices (submit_row model);
  run! _ <- st_for futures collect;
  to_csv.

(** Where to start and on which frame: [--resume N] wins; otherwise
    progress found in the output file is offered to the user, whose
    answer decides. *)
Definition starting_point (df : DataFrame) (existing : option DataFrame)
    (answer : string) (resume_from : option nat) : DataFrame * nat :=
  match resume_from with
  | Some n => (df, n)
  | None =>
      match existing with
      | Some existing_df =>
          if Pd.has_column existing_df "L1_decision" then
            let processed := Pd.count_notna existing_df "L1_decision" in
            if (0 <? processed)%nat then
              if String.eqb (Py.str_lower answer) "y" then (existing_df, processed)
              else (df, 0)
            else (df, 0)
          else (df, 0)
      | None => (df, 0)
      end
  end.

(** The counts recomputed when the run does not start at the first row:
    they read two columns of the frame. *)
Definition recount (df : DataFrame) (start_idx : nat) : pyres unit :=
  if (0 <? start_idx)%nat then
    do! _ <- column df "L1_decision";
    do! _ <- column df "L1_error";
    Ok tt
  else Ok tt.

(** The percentages of the summary divide the counts by the number of
    records.  On a run from the first row the counts are Python ints,
    and dividing by zero raises; after [recount] they are numpy
    integers, whose division by zero yields nan with a warning. *)
Definition summary_percentages (total_records start_idx : nat) : pyres unit :=
  if ((total_records =? 0)%nat && (start_idx =? 0)%nat)%bool then
    Raise (ZeroDivisionError "division by zero")
  else Ok tt.

(** [process_screening].  [input_df] is what [pd.read_csv(input_csv)]
    yields, [existing] what [pd.read_csv(output_csv)] yields when that
    file exists, [answer] what the user types when asked; the vendor
    oracle is told the row it is called for.  The keyboard interrupt is
    not modelled.  The function is followed up to the summary it
    prints after the final save: the token report, the cost files and the
    exclusion breakdown that come after it are not modelled, and [Ok tt]
    stands for reaching them. *)
Definition process_screening (input_df : DataFrame) (existing : option DataFrame)
    (answer : string) (model : nat -> gemini_model) (batch_size : nat)
    (resume_from : option nat) : pyres unit * run :=
  let total_records := List.length (rows input_df) in
  let df := init_columns L1_new_columns input_df in
  let '(df, start_idx) := starting_point df existing answer resume_from in
  (run! _ <- st_lift (recount df start_idx);
   run! _ <- (if (batch_size =? 0)%nat then
                st_lift (Raise (ValueError "range() arg 3 must not be zero"))
              else
                st_for (py_range start_idx total_records batch_size)
                       (process_batch model total_records batch_size));
   run! _ <- to_csv;
   st_lift (summary_percentages total_records start_idx))
  {| frame := df; saved := []; submitted := [] |}.

End ProcessScreening.

(** ** Layer 2 stage: [process_layer2] *)

Section ProcessLayer2.
Context `{Externals}.

Definition L2_columns (prefix : string) : list string :=
  [ prefix +:+ "_decision"; prefix +:+ "_confidence"; prefix +:+ "_reasoning";
    prefix +:+ "_error";
    prefix +:+ "_inc1_status"; prefix +:+ "_inc1_evidence";
    prefix +:+ "_inc2_status"; prefix +:+ "_inc2_evidence";
    prefix +:+ "_inc3_status"; prefix +:+ "_inc3_evidence";
    prefix +:+ "_inc4_status"; prefix +:+ "_inc4_evidence";
    prefix +:+ "_inc5_status"; prefix +:+ "_inc5_evidence" ].

Definition L2_agreement_columns : list string :=
  [ "L2_models_agree"; "needs_human_review"; "L2_timestamp" ].

(** [process_single_record], run by a worker: it reads its row and asks
    both judges; an exception of a judge would surface at
    [future.result()]. *)
Definition process_single_record (df : DataFrame) (gemini : nat -> gemini_model)
    (claude : nat -> claude_client) (idx : nat) : pyres (nat * pydict * pydict) :=
  do! row <- Pd.iloc df idx;
  let title := py_str (Pd.row_get row "title" (VStr "")) in
  let abstract := py_str (Pd.row_get row "abstract" (VStr "")) in
  let record_id := py_str (Pd.row_get row "record_id" (VInt (Z.of_nat idx))) in
  do! pro_result <- fst (Layer2.screen_with_gemini_pro (gemini idx) title abstract
                           (Some record_id) 3);
  do! sonnet_result <- fst (Layer2.screen_with_claude (claude idx) title abstract
                              (Some record_id) 3);
  Ok (idx, pro_result, sonnet_result).

(** [models_agree] and [needs_review] of one record. *)
Definition models_agree (pro_decision sonnet_decision : pyval) : bool :=
  Py.eq pro_decision sonnet_decision.

Definition needs_review (pro_decision sonnet_decision : pyval) : bool :=
  negb (models_agree pro_decision sonnet_decision)
  || Py.eq pro_decision (VStr "include")
  || Py.eq sonnet_decision (VStr "include").

(** The body of the collecting loop for one completed future. *)
Definition store_results (r : nat * pydict * pydict) : M unit :=
  let '(idx, pro_result, sonnet_result) := r in
  run! pro_flat <- st_lift (Layer2.flatten_result pro_result "L2_pro");
  run! sonnet_flat <- st_lift (Layer2.flatten_result sonnet_result "L2_sonnet");
  run! _ <- st_for pro_flat (fun '(key, value) => at_set idx key value);
  run! _ <- st_for sonnet_flat (fun '(key, value) => at_set idx key value);
  run! pro_decision <- st_lift (Py.dict_index pro_result "decision");
  run! sonnet_decision <- st_lift (Py.dict_index sonnet_result "decision");
  run! _ <- at_set idx "L2_models_agree" (VBool (models_agree pro_decision sonnet_decision));
  run! _ <- at_set idx "needs_human_review" (VBool (needs_review pro_decision sonnet_decision));
  at_set idx "L2_timestamp" (VStr (now_isoformat idx)).

(** One batch: every row of the batch is submitted, the results are
    stored in the order in which the futures complete, then the frame
    is saved.  The workers read only their own row's title, abstract
    and record id, which no store touches. *)
Definition process_batch2 (gemini : nat -> gemini_model) (claude : nat -> claude_client)
    (as_completed : list nat -> list nat) (batch_parallel_size : nat)
    (indices_to_process : list nat) (batch_num : nat) : M unit :=
  let batch_start := batch_num * batch_parallel_size in
  let batch_end := Nat.min (batch_start + batch_parallel_size) (List.length indices_to_process) in
  let batch_indices := take (batch_end - batch_start) (drop batch_start indices_to_process) in
  run! df <- get_frame;
  run! _ <- st_for batch_indices submit;
  run! _ <- st_for (as_completed batch_indices)
              (fun idx =>
                 run! r <- st_lift (process_single_record df gemini claude idx);
                 store_results r);
  to_csv.

(** [process_layer2].  [input_df] is what [pd.read_csv(input_csv)]
    yields; [as_completed] gives the order in which the futures of a
    batch complete.  The summary and the cost reports after the final
    save, and the keyboard interrupt, are not modelled. *)
Definition process_layer2 (input_df : DataFrame) (gemini : nat -> gemini_model)
    (claude : nat -> claude_client) (batch_parallel_size : nat)
    (resume_from : option Z) (as_completed : list nat -> list nat)
    : pyres unit * run :=
  let st0 := {| frame := input_df; saved := []; submitted := [] |} in
  if Pd.has_column input_df "L1_decision" then
    let pass_indices := Pd.where_eq input_df "L1_decision" "pass" in
    let df := init_columns (L2_columns "L2_pro" ++ L2_columns "L2_sonnet") input_df in
    let df := init_columns L2_agreement_columns df in
    let start_idx := default 0%Z resume_from in
    let indices_to_process := slice_from pass_indices start_idx in
    (if (batch_parallel_size =? 0)%nat then
       st_lift (Raise (ZeroDivisionError "integer division or modulo by zero"))
     else
       let num_batches :=
         (List.length indices_to_process + batch_parallel_size - 1) / batch_parallel_size in
       run! _ <- st_for (seq 0 num_batches)
                   (process_batch2 gemini claude as_completed batch_parallel_size
                                   indices_to_process);
       to_csv)
    {| frame := df; saved := []; submitted := [] |}
  else (Raise (SystemExit 1), st0).

End ProcessLayer2.

(** ** Merge stage: [determine_final_decision] ([04_merge_results.py]) *)

Section Merge.
Context `{Externals}.

Definition determine_final_decision (row : gmap string pyval) : pydict :=
  let result := Py.dict_lit
    [ ("auto_decision", VNone);
      ("review_priority", VStr "none");
      ("review_reason", VNone) ] in
  if Py.eq (Pd.row_get row "L1_decision" VNone) (VStr "exclude") then
    let result := Py.dict_set result "auto_decision" (VStr "exclude") in
    Py.dict_set result "review_priority" (VStr "none")
  else
    let pro_decision := Pd.row_get row "L2_pro_decision" VNone in
    let opus_decision := Pd.row_get row "L2_opus_decision" VNone in
    if Py.eq pro_decision opus_decision then
      if Py.eq pro_decision (VStr "include") then
        let result := Py.dict_set result "auto_decision" (VStr "include") in
        let result := Py.dict_set result "review_priority" (VStr "high") in
        Py.dict_set result "review_reason" (VStr "Both models include - verify")
      else
        let result := Py.dict_set result "auto_decision" (VStr "exclude") in
        let result := Py.dict_set result "review_priority" (VStr "low") in
        Py.dict_set result "review_reason" (VStr "Both models exclude")
    else
      let result := Py.dict_set result "auto_decision" (VStr "uncertain") in
      let result := Py.dict_set result "review_priority" (VStr "high") in
      Py.dict_set result "review_reason"
        (VStr ("Disagreement: Pro=" +:+ py_str pro_decision +:+ ", Opus=" +:+ py_str opus_decision)).

End Merge.

(** ** Specification vocabulary *)

(** The columns [flatten_result] writes, without their prefix. *)
Definition flat_columns : list string :=
  [ "_decision"; "_confidence"; "_reasoning"; "_error";
    "_input_tokens"; "_output_tokens"; "_total_tokens";
    "_inc1_status"; "_inc1_evidence"; "_inc2_status"; "_inc2_evidence";
    "_inc3_status"; "_inc3_evidence"; "_inc4_status"; "_inc4_evidence";
    "_inc5_status"; "_inc5_evidence" ].

Definition fixed_columns (prefix : string) : list string :=
  (fun c => prefix +:+ c) <$> flat_columns.

(** A judge result that [flatten_result] can read: the three scalar
    fields are there and "inclusion_check" is a dict whose entries for the
    five tags, where present, are dicts. *)
Definition shaped (d : pydict) : Prop :=
  is_Some (Py.dict_get d "decision") ∧
  is_Some (Py.dict_get d "confidence") ∧
  is_Some (Py.dict_get d "reasoning") ∧
  ∃ checks, Py.dict_get d "inclusion_check" = Some (VDict checks) ∧
    ∀ tag v, Py.dict_get checks tag = Some v → ∃ e, v = VDict e.

(** The dict a judge answer holds under "inclusion_check", and under one
    of its tags; empty where the answer has none. *)
Definition checks_of (parsed : pydict) : pydict :=
  match Py.dict_get parsed "inclusion_check" with
  | Some (VDict ic) => ic
  | _ => []
  end.

Definition entry_of (parsed : pydict) (tag : string) : pydict :=
  match Py.dict_get (checks_of parsed) tag with
  | Some (VDict e) => e
  | _ => []
  end.

(** The shapes [extract_inclusion_result] reads without raising:
    "inclusion_check", when present, is a dict, and so is each of its five
    tag entries that is present. *)
Definition checks_well_typed (parsed : pydict) : Prop :=
  (∀ v, Py.dict_get parsed "inclusion_check" = Some v → ∃ ic, v = VDict ic) ∧
  (∀ tag v, tag ∈ inc_tags → Py.dict_get (checks_of parsed) tag = Some v → ∃ e, v = VDict e).

Section Failing.
Context `{Externals}.

(** A failed attempt, as the retry loops see it: the call raised an
    [Exception], or the answer did not parse. *)
Definition gemini_fails (o : outcome gemini_response) : Prop :=
  match o with
  | CallRaises e => is_exception e = true
  | CallReturns r => parse_json_response (gemini_text r) = VNone
  end.

Definition claude_fails (o : outcome claude_message) : Prop :=
  match o with
  | CallRaises e => is_exception e = true
  | CallReturns m => parse_json_response (fst (Layer2.scan_blocks (content m))) = VNone
  end.
End Failing.



(** No row has a cell outside the frame's columns. *)
Definition row_within (cols : list string) (r : gmap string pyval) : bool :=
  forallb (fun kv => bool_decide (fst kv ∈ cols)) (map_to_list r).

Definition well_formed (df : DataFrame) : bool :=
  forallb (row_within (columns df)) (rows df).

(** Every value of the dict is itself a dict. *)
Definition all_dicts (d : pydict) : Prop :=
  ∀ k v, Py.dict_get d k = Some v → ∃ e, v = VDict e.

(** The two keys every caller of a screener reads. *)
Definition result_keys (d : pydict) : Prop :=
  Py.dict_has d "decision" = true ∧ Py.dict_has d "error" = true.

(** What a judge hands back. *)
Definition judged (d : pydict) : Prop := shaped d ∧ result_keys d.



(** Status and evidence that [flatten_result] reads under one tag. *)
Definition status_of (checks : pydict) (tag : string) : pyval :=
  match Py.dict_get checks tag with
  | Some (VDict e) => default (VStr "unclear") (Py.dict_get e "status")
  | _ => VStr "unclear"
  end.

Definition evidence_of (checks : pydict) (tag : string) : pyval :=
  match Py.dict_get checks tag with
  | Some (VDict e) => default VNone (Py.dict_get e "evidence")
  | _ => VNone
  end.

(** Keys under a common prefix. *)
Definition prefix_keys (p : string) (d : pydict) : pydict :=
  (fun kv => (p +:+ fst kv, snd kv)) <$> d.

(** Row [idx] of [df] still shows row [r0] of a frame with columns
    [cols0]: the cells under those columns are the same, and any cell
    under another column is empty. *)
Definition untouched (cols0 : list string) (r0 : gmap string pyval) (idx : nat)
    (df : DataFrame) : Prop :=
  (∀ c, c ∈ cols0 → c ∈ columns df) ∧
  ∃ r, rows df !! idx = Some r ∧
       (∀ c, c ∈ cols0 → r !! c = r0 !! c) ∧
       (∀ c v, c ∉ cols0 → r !! c = Some v → Pd.isna v = true).

(** [m] keeps [I] whatever happens, and when it returns, its value
    satisfies [post]. *)
Definition keeps {A} (I : run → Prop) (m : M A) (post : A → Prop) : Prop :=
  ∀ st, I st → I (snd (m st)) ∧ ∀ a, fst (m st) = Ok a → post a.




(** The invariant of a run built from a property of frames: the frame in
    hand has it, and so has every frame saved so far. *)
Definition always (J : DataFrame → Prop) (st : run) : Prop :=
  J (frame st) ∧ Forall J (saved st).

(** The invariant of a resumed Layer 1 run: the frames keep [J], and no
    row below [start] is submitted. *)
Definition resumed_inv (J : DataFrame → Prop) (start : nat) (st : run) : Prop :=
  always J st ∧ Forall (fun j => (start ≤ j)%nat) (submitted st).

(** The cells of [items] written into row [idx], one [df.at] each. *)
Definition set_items (idx : nat) (items : pydict) (df : DataFrame) : DataFrame :=
  fold_left (fun df kv => Pd.at_set df idx (fst kv) (snd kv)) items df.

Definition insert_items (items : pydict) (r : gmap string pyval) : gmap string pyval :=
  fold_left (fun r kv => <[fst kv := snd kv]> r) items r.

Section Stored.
Context `{Externals}.

(** The frame after [store_results]. *)
Definition stored (idx : nat) (pro_flat sonnet_flat : pydict)
    (pro_decision sonnet_decision : pyval) (df : DataFrame) : DataFrame :=
  Pd.at_set
    (Pd.at_set
       (Pd.at_set (set_items idx sonnet_flat (set_items idx pro_flat df))
                  idx "L2_models_agree" (VBool (models_agree pro_decision sonnet_decision)))
       idx "needs_human_review" (VBool (needs_review pro_decision sonnet_decision)))
    idx "L2_timestamp" (VStr (now_isoformat idx)).
End Stored.

(** A step that neither submits nor saves nor changes the number of rows. *)
Definition same_shape (st st' : run) : Prop :=
  submitted st' = submitted st ∧ saved st' = saved st ∧
  List.length (rows (frame st')) = List.length (rows (frame st)).

(** The rows of batch [batch_num] of Layer 2. *)
Definition batch_of (batch_parallel_size : nat) (indices : list nat) (batch_num : nat)
    : list nat :=
  take (Nat.min (batch_num * batch_parallel_size + batch_parallel_size)
                (List.length indices) - batch_num * batch_parallel_size)
       (drop (batch_num * batch_parallel_size) indices).

(** ** Sample inputs *)

(** A reader that knows a handful of judge answers, standing for
    [json.loads] on them. *)
Definition sample_parse (s : string) : pyval :=
  if String.eqb s "answer: include" then
    VDict [("decision", VStr "include"); ("confidence", VStr "high");
           ("reasoning", VStr "matched cohort, HOPE vs SCS")]
  else if String.eqb s "answer: exclude" then
    VDict [("decision", VStr "exclude"); ("confidence", VStr "high");
           ("reasoning", VStr "animal study")]
  else if String.eqb s "answer: pass" then
    VDict [("decision", VStr "pass"); ("exclusion_tags", VList []);
           ("evidence", VStr ""); ("reasoning", VStr "no criterion met")]
  else if String.eqb s "answer: maybe" then
    VDict [("decision", VStr "maybe"); ("confidence", VStr "low")]
  else VNone.

Definition sample_externals : Externals :=
  {| parse_json_response := sample_parse;
     LAYER1_EXCLUSION_PROMPT := fun title abstract => "L1|" +:+ title +:+ "|" +:+ abstract;
     LAYER2_INCLUSION_PROMPT := fun title abstract => "L2|" +:+ title +:+ "|" +:+ abstract;
     container_repr := fun _ => "[...]";
     now_isoformat := fun idx => "2025-01-01T00:00:" +:+ pretty idx |}.

Definition gemini_answers (text : string) : gemini_model :=
  fun _ _ => CallReturns {| gemini_text := text; gemini_usage := None |}.

Definition claude_answers (text : string) : claude_client :=
  fun _ _ => CallReturns {| usage_input_tokens := 900; usage_output_tokens := 300;
                            content := [ThinkingBlock "weighing the criteria"; TextBlock text] |}.

(** A judge answer whose "inclusion_check" is JSON null. *)
Definition null_checks_answer : pyval :=
  VDict [("decision", VStr "include"); ("inclusion_check", VNone)].

(** A well-typed judge answer with one tag filled in. *)
Definition partial_answer : pydict :=
  [ ("decision", VStr "exclude");
    ("inclusion_check",
     VDict [("INC-1", VDict [("status", VStr "no"); ("evidence", VStr "single arm")]);
            ("INC-3", VDict [("evidence", VStr "no comparator")])]) ].

(** Frames: the records the parser wrote, as the CSV reader returns
    them (an empty field is NaN), and a Layer 1 output. *)
Definition sample_records : DataFrame :=
  {| columns := ["record_id"; "title"; "abstract"];
     rows :=
       [ list_to_map [("record_id", VStr "R1"); ("title", VStr "Porcine liver perfusion model");
                      ("abstract", VStr "Livers of ten pigs were perfused.")];
         list_to_map [("record_id", VStr "R2"); ("title", VStr "HOPE versus cold storage");
                      ("abstract", VNaN)] ] |}.

Definition untitled_records : DataFrame :=
  {| columns := ["record_id"; "title"; "abstract"];
     rows :=
       [ list_to_map [("record_id", VStr "R7"); ("title", VNaN);
                      ("abstract", VStr "Ten rats underwent liver perfusion.")] ] |}.

Definition sample_layer1_frame : DataFrame :=
  {| columns := ["record_id"; "title"; "abstract"; "L1_decision"];
     rows :=
       [ list_to_map [("record_id", VStr "R1"); ("title", VStr "HOPE versus cold storage");
                      ("abstract", VStr "A matched cohort of DCD grafts.");
                      ("L1_decision", VStr "pass")];
         list_to_map [("record_id", VStr "R2"); ("title", VStr "Porcine liver perfusion model");
                      ("abstract", VNaN); ("L1_decision", VStr "exclude")];
         list_to_map [("record_id", VStr "R3"); ("title", VStr "NMP of ECD livers");
                      ("abstract", VStr "A randomised trial."); ("L1_decision", VStr "pass")] ] |}.

(** The cell of a frame at row [idx] under [col]. *)
Definition frame_cell (df : DataFrame) (idx : nat) (col : string) : option pyval :=
  match rows df !! idx with
  | Some r => r !! col
  | None => None
  end.

(** The row a frame saved last shows at [idx], and one of its cells. *)
Definition final_row (st : run) (idx : nat) : option (gmap string pyval) :=
  match last (saved st) with
  | Some df => rows df !! idx
  | None => None
  end.

Definition final_cell (st : run) (idx : nat) (col : string) : option pyval :=
  match final_row st idx with
  | Some r => r !! col
  | None => None
  end.

(** A Layer 1 vendor that excludes the first record and passes the rest. *)
Definition sample_flash (idx : nat) : gemini_model :=
  gemini_answers (if (idx =? 0)%nat then "answer: exclude" else "answer: pass").

(** A vendor that fails once by raising and then answers with text that
    does not parse. *)
Definition flaky_gemini : gemini_model :=
  fun _ attempt =>
    if (attempt =? 0)%nat then CallRaises (VendorError "429 Too Many Requests")
    else CallReturns {| gemini_text := "I cannot answer that."; gemini_usage := None |}.

Definition flaky_claude : claude_client :=
  fun _ attempt =>
    if (attempt =? 0)%nat then
      CallReturns {| usage_input_tokens := 900; usage_output_tokens := 12;
                     content := [TextBlock "Sorry, something went wrong."] |}
    else CallRaises (VendorError "529 Overloaded").

(** * The runs as a whole, the merge stage, the retry and the token logger *)

(** ** Results that [flatten_result] can read *)

Definition flattenable (result : pydict) : Prop :=
  is_Some (Py.dict_get result "decision") ∧
  is_Some (Py.dict_get result "confidence") ∧
  is_Some (Py.dict_get result "reasoning") ∧
  ∃ checks, Py.dict_get result "inclusion_check" = Some (VDict checks) ∧
    ∀ tag v, tag ∈ inc_tags → Py.dict_get checks tag = Some v → ∃ e, v = VDict e.

(** ** Triples for the runs *)



(** ** Layer 1: what a whole run owes each row *)

(** What the stages read from row [idx] of [df]: the cells under
    "title", "abstract" and "record_id". *)
Definition read_cells (df : DataFrame) (idx : nat)
    : option (option pyval * option pyval * option pyval) :=
  (fun r => (r !! "title", r !! "abstract", r !! "record_id")) <$> rows df !! idx.

Section Layer1Spec.
Context `{Externals}.










End Layer1Spec.

(** ** Layer 2: what a whole run owes each row *)

Section Layer2Spec.
Context `{Externals}.

(** The cells Layer 2 owes a row for the results of its two judges: the
    flattened columns of either result and the two flags. *)
Definition layer2_cells (pro_result sonnet_result : pydict) : pyres pydict :=
  do! pro_flat <- Layer2.flatten_result pro_result "L2_pro";
  do! sonnet_flat <- Layer2.flatten_result sonnet_result "L2_sonnet";
  do! pro_decision <- Py.dict_index pro_result "decision";
  do! sonnet_decision <- Py.dict_index sonnet_result "decision";
  Ok (pro_flat ++ sonnet_flat ++
      [ ("L2_models_agree", VBool (models_agree pro_decision sonnet_decision));
        ("needs_human_review", VBool (needs_review pro_decision sonnet_decision)) ]).

(** Row [idx] of [df] holds what the two judges answered for row [idx]
    of [df0]. *)
Definition layer2_row (df0 : DataFrame) (gemini : nat → gemini_model)
    (claude : nat → claude_client) (idx : nat) (df : DataFrame) : Prop :=
  ∃ pro_result sonnet_result cells,
    process_single_record df0 gemini claude idx = Ok (idx, pro_result, sonnet_result)
    ∧ layer2_cells pro_result sonnet_result = Ok cells
    ∧ Forall (fun kv => fst kv ∈ columns df ∧ frame_cell df idx (fst kv) = Some (snd kv))
             cells.

(** The state of a Layer 2 run over a frame that started as [df0]. *)
Definition l2_state (df0 : DataFrame) (gemini : nat → gemini_model)
    (claude : nat → claude_client) (n : nat) (D : nat → Prop) (st : run) : Prop :=
  List.length (rows (frame st)) = n ∧
  (∀ j, read_cells (frame st) j = read_cells df0 j) ∧
  ∀ j, D j → layer2_row df0 gemini claude j (frame st).

End Layer2Spec.

(** ** Cells a stage leaves alone *)

(** The columns Layer 2 writes: the flattened columns of either judge and
    the three agreement columns. *)
Definition L2_written_columns : list string :=
  fixed_columns "L2_pro" ++ fixed_columns "L2_sonnet" ++ L2_agreement_columns.

(** [df] is [df0] with cells changed, and columns added, under [names]
    only. *)
Definition cells_kept (names : list string) (df0 df : DataFrame) : Prop :=
  List.length (rows df) = List.length (rows df0) ∧
  (∀ c, c ∈ columns df0 → c ∈ columns df) ∧
  (∀ c, c ∈ columns df → c ∈ columns df0 ∨ c ∈ names) ∧
  ∀ j c, c ∉ names → frame_cell df j c = frame_cell df0 j c.

(** ** Merge stage: [generate_summary], [export_for_review] and [main] *)

(** [cells == s], [a & b] and [mask.sum()] on boolean series. *)
Definition eq_str (cells : list pyval) (s : string) : list bool :=
  (fun v => Py.eq v (VStr s)) <$> cells.

Definition band (a b : list bool) : list bool := zip_with andb a b.

Definition bsum (mask : list bool) : Z := Z.of_nat (List.length (List.filter id mask)).

(** [df[col] = values], one value per row. *)
Definition assign_column (df : DataFrame) (col : string) (values : list pyval) : DataFrame :=
  {| columns := if Pd.has_column df col then columns df else columns df ++ [col];
     rows := zip_with (fun r v => <[col := v]> r) (rows df) values |}.

(** [pd.DataFrame(dicts).columns]: the keys in the order in which they
    first appear. *)
Definition dicts_columns (dicts : list pydict) : list string :=
  fold_left (fun cols d =>
               fold_left (fun cols k => if bool_decide (k ∈ cols) then cols else cols ++ [k])
                         (Py.dict_keys d) cols)
            dicts [].

(** [df[mask]] and [df[cols]]. *)
Definition select_rows (df : DataFrame) (mask : list bool) : DataFrame :=
  {| columns := columns df;
     rows := fst <$> List.filter snd (zip (rows df) mask) |}.

Definition project (df : DataFrame) (cols : list string) : DataFrame :=
  {| columns := cols;
     rows := (fun r => filter (fun kv => kv.1 ∈ cols) r) <$> rows df |}.

(** The numbers [generate_summary] puts into its report.  The text
    around them, the percentages derived from them and the breakdown of
    exclusion tags are left out. *)
Record summary : Type := {
  total : Z;
  l1_exclude : Z;
  l1_pass : Z;
  l2_records : Z;
  l2_both_include : Z;
  l2_both_exclude : Z;
  l2_disagree : Z;
  final_include : Z;
  final_exclude : Z;
  final_uncertain : Z
}.

Definition generate_summary (df : DataFrame) : pyres summary :=
  let total := Z.of_nat (List.length (rows df)) in
  do! l1 <- column df "L1_decision";
  let l1_exclude := bsum (eq_str l1 "exclude") in
  let l1_pass := bsum (eq_str l1 "pass") in
  let l2_mask := eq_str l1 "pass" in
  let l2_records := bsum l2_mask in
  do! l2 <-
    (if (0 <? l2_records)%Z then
       do! pro <- column df "L2_pro_decision";
       do! opus <- column df "L2_opus_decision";
       let l2_both_include :=
         bsum (band (band (eq_str pro "include") (eq_str opus "include")) l2_mask) in
       let l2_both_exclude :=
         bsum (band (band (eq_str pro "exclude") (eq_str opus "exclude")) l2_mask) in
       Ok (l2_both_include, l2_both_exclude,
           (l2_records - l2_both_include - l2_both_exclude)%Z)
     else Ok (0, 0, 0)%Z);
  let '(l2_both_include, l2_both_exclude, l2_disagree) := l2 in
  do! auto <- column df "auto_decision";
  Ok {| total := total;
        l1_exclude := l1_exclude;
        l1_pass := l1_pass;
        l2_records := l2_records;
        l2_both_include := l2_both_include;
        l2_both_exclude := l2_both_exclude;
        l2_disagree := l2_disagree;
        final_include := bsum (eq_str auto "include");
        final_exclude := bsum (eq_str auto "exclude");
        final_uncertain := bsum (eq_str auto "uncertain") |}.

(** The files the merge stage writes, in the order in which it writes
    them. *)
Inductive written : Type :=
| FullResults (df : DataFrame)
| SummaryFile (s : summary)
| HighPriority (df : DataFrame)
| LowPrioritySample (df : DataFrame).

Definition high_priority_columns : list string :=
  [ "record_id"; "pmid"; "title"; "abstract"; "year"; "journal";
    "L1_decision"; "L1_exclusion_tags";
    "L2_pro_decision"; "L2_pro_confidence"; "L2_pro_reasoning";
    "L2_opus_decision"; "L2_opus_confidence"; "L2_opus_reasoning";
    "auto_decision"; "review_reason" ].

Definition low_priority_columns : list string :=
  [ "record_id"; "pmid"; "title"; "abstract";
    "L2_pro_decision"; "L2_pro_reasoning";
    "L2_opus_decision"; "L2_opus_reasoning";
    "auto_decision" ].

(** [export_for_review].  [sample rows n] stands for what
    [DataFrame.sample(n=n, random_state=42)] draws; [int(len * 0.1)] is
    the tenth of the length, rounded down. *)
Definition export_for_review (sample : list (gmap string pyval) → nat → list (gmap string pyval))
    (df : DataFrame) : list written * pyres unit :=
  match column df "review_priority" with
  | Raise e => ([], Raise e)
  | Ok priority =>
      let high_priority := select_rows df (eq_str priority "high") in
      let high_file :=
        if (0 <? List.length (rows high_priority))%nat then
          let cols_to_keep :=
            List.filter (fun c => Pd.has_column high_priority c) high_priority_columns in
          [HighPriority (project high_priority cols_to_keep)]
        else [] in
      let low_priority := select_rows df (eq_str priority "low") in
      let low_file :=
        if (0 <? List.length (rows low_priority))%nat then
          let n := List.length (rows low_priority) in
          let sample_size := Nat.min n (Nat.max 10 (n / 10)) in
          let sampled := {| columns := columns low_priority;
                            rows := sample (rows low_priority) sample_size |} in
          let cols_to_keep :=
            List.filter (fun c => Pd.has_column sampled c) low_priority_columns in
          [LowPrioritySample (project sampled cols_to_keep)]
        else [] in
      (high_file ++ low_file, Ok tt)
  end.

Section MergeMain.
Context `{Externals}.

(** [main], from the frame read from the Layer 2 results on. *)
Definition merge_main (sample : list (gmap string pyval) → nat → list (gmap string pyval))
    (input_df : DataFrame) : list written * pyres unit :=
  let decisions := determine_final_decision <$> rows input_df in
  let df := fold_left
              (fun df col =>
                 assign_column df col ((fun d => default VNaN (Py.dict_get d col)) <$> decisions))
              (dicts_columns decisions) input_df in
  let df := Pd.set_column df "human_decision" VNone in
  let df := Pd.set_column df "resolution_note" VNone in
  match column df "auto_decision" with
  | Raise e => ([], Raise e)
  | Ok auto =>
      let df := assign_column df "final_decision" auto in
      match generate_summary df with
      | Raise e => ([FullResults df], Raise e)
      | Ok s =>
          let '(files, r) := export_for_review sample df in
          (FullResults df :: SummaryFile s :: files, r)
      end
  end.

End MergeMain.

(** The columns the merge stage writes. *)
Definition merge_columns : list string :=
  [ "auto_decision"; "review_priority"; "review_reason";
    "human_decision"; "resolution_note"; "final_decision" ].

(** ** Retrying the Claude errors ([retry_claude_errors.py]) *)

(** [df.at[idx, col]], read. *)
Definition at_get (df : DataFrame) (idx : nat) (col : string) : pyres pyval :=
  if Pd.has_column df col then
    match rows df !! idx with
    | Some r => Ok (Pd.cell r col)
    | None => Raise (KeyError (pretty idx))
    end
  else Raise (KeyError col).

(** [v[:n]]: strings and lists are cut; a dict takes the slice for a key
    it cannot hash, and nothing else can be indexed. *)
Definition py_slice_to (n : nat) (v : pyval) : pyres pyval :=
  match v with
  | VStr s => Ok (VStr (Py.str_take n s))
  | VList l => Ok (VList (take n l))
  | VDict _ => Raise (TypeError "unhashable type: 'slice'")
  | _ => Raise (TypeError ("'" +:+ Py.type_name v +:+ "' object is not subscriptable"))
  end.

(** [df[df[col].notna()].index.tolist()]. *)
Definition where_notna (df : DataFrame) (col : string) : list nat :=
  List.filter (fun i => match rows df !! i with
                        | Some r => Pd.notna (Pd.cell r col)
                        | None => false
                        end)
              (seq 0 (List.length (rows df))).

(** [result.get('error') is None], negated. *)
Definition still_failing (result : pydict) : bool :=
  match default VNone (Py.dict_get result "error") with
  | VNone => false
  | _ => true
  end.

Section RetryClaude.
Context `{Externals}.

(** The body of the loop over one batch for the row [idx]: the call,
    logged in [submitted], then the stores made when the new result
    carries no error.  Either branch ends by printing fields of the
    result. *)
Definition retry_record (client : nat → claude_client) (idx : nat) : M unit :=
  run! df <- get_frame;
  run! row <- st_lift (Pd.iloc df idx);
  let title := py_str (Pd.row_get row "title" (VStr "")) in
  let abstract := py_str (Pd.row_get row "abstract" (VStr "")) in
  let record_id := py_str (Pd.row_get row "record_id" (VInt (Z.of_nat idx))) in
  run! _ <- submit idx;
  run! result <- st_lift (fst (Layer2.screen_with_claude (client idx) title abstract
                                 (Some record_id) 3));
  if still_failing result then
    run! error <- st_lift (Py.dict_index result "error");
    run! _ <- st_lift (py_slice_to 50 error);
    st_ret tt
  else
    run! sonnet_flat <- st_lift (Layer2.flatten_result result "L2_sonnet");
    run! _ <- st_for sonnet_flat (fun '(key, value) => at_set idx key value);
    run! _ <- (if Py.dict_has result "thinking" then
                 run! thinking <- st_lift (Py.dict_index result "thinking");
                 run! cut <- st_lift (if Py.truthy thinking then py_slice_to 500 thinking
                                      else Ok (VStr ""));
                 at_set idx "L2_sonnet_thinking" cut
               else st_ret tt);
    run! df <- get_frame;
    run! pro_decision <- st_lift (at_get df idx "L2_pro_decision");
    run! decision <- st_lift (Py.dict_index result "decision");
    run! _ <- at_set idx "L2_models_agree" (VBool (Py.eq pro_decision decision));
    run! _ <- st_lift (Py.dict_index result "decision");
    run! _ <- st_lift (Py.dict_index result "confidence");
    st_ret tt.

(** One batch: its rows in turn, then the save. *)
Definition retry_batch (client : nat → claude_client) (batch_size : nat)
    (error_indices : list nat) (batch_num : nat) : M unit :=
  let batch_start := batch_num * batch_size in
  let batch_end := Nat.min (batch_start + batch_size) (List.length error_indices) in
  let batch_indices := take (batch_end - batch_start) (drop batch_start error_indices) in
  run! _ <- st_for batch_indices (retry_record client);
  to_csv.

(** [retry_claude_errors], from the frame read from the Layer 2 results
    to the end of the loop over the batches; the API key is taken to be
    set.  The statistics printed after the loop change neither the frame
    nor the file and are not modelled. *)
Definition retry_claude_errors (df : DataFrame) (client : nat → claude_client)
    (batch_size : nat) : pyres unit * run :=
  let st0 := {| frame := df; saved := []; submitted := [] |} in
  if Pd.has_column df "L2_sonnet_error" then
    let error_indices := where_notna df "L2_sonnet_error" in
    if (List.length error_indices =? 0)%nat then (Ok tt, st0)
    else if (batch_size =? 0)%nat then
      (Raise (ZeroDivisionError "integer division or modulo by zero"), st0)
    else
      let num_batches := (List.length error_indices + batch_size - 1) / batch_size in
      st_for (seq 0 num_batches) (retry_batch client batch_size error_indices) st0
  else (Raise (KeyError "L2_sonnet_error"), st0).

(** What Claude answers on the retry of row [idx] of [df]. *)
Definition retry_answer (df : DataFrame) (client : nat → claude_client) (idx : nat)
    : pyres pydict :=
  do! row <- Pd.iloc df idx;
  fst (Layer2.screen_with_claude (client idx)
         (py_str (Pd.row_get row "title" (VStr "")))
         (py_str (Pd.row_get row "abstract" (VStr "")))
         (Some (py_str (Pd.row_get row "record_id" (VInt (Z.of_nat idx))))) 3).

(** The cells a retry that succeeded owes its row: the flattened columns
    of the new result, the head of the thinking text and the agreement
    with the decision Gemini Pro had reached. *)
Definition retry_cells (pro_decision : pyval) (result : pydict) : pyres pydict :=
  do! sonnet_flat <- Layer2.flatten_result result "L2_sonnet";
  do! thinking <- Py.dict_index result "thinking";
  do! cut <- (if Py.truthy thinking then py_slice_to 500 thinking else Ok (VStr ""));
  do! decision <- Py.dict_index result "decision";
  Ok (sonnet_flat ++ [ ("L2_sonnet_thinking", cut);
                       ("L2_models_agree", VBool (Py.eq pro_decision decision)) ]).

End RetryClaude.

(** The columns the retry writes. *)
Definition retry_columns : list string :=
  fixed_columns "L2_sonnet" ++ ["L2_sonnet_thinking"; "L2_models_agree"].

(** ** The retry: what a whole run owes each row *)

Section RetrySpec.
Context `{Externals}.
Context (df0 : DataFrame) (client : nat → claude_client).

(** The retry of row [j] comes back without an error. *)
Definition retry_succeeds (j : nat) : bool :=
  match retry_answer df0 client j with
  | Ok result => negb (still_failing result)
  | Raise _ => false
  end.

(** Row [j] of [df] holds the cells of its retry, if that succeeded. *)
Definition retry_row (j : nat) (df : DataFrame) : Prop :=
  ∀ result, retry_answer df0 client j = Ok result → still_failing result = false →
    ∃ cells,
      retry_cells (default VNaN (frame_cell df0 j "L2_pro_decision")) result = Ok cells
      ∧ Forall (fun kv => fst kv ∈ columns df ∧ frame_cell df j (fst kv) = Some (snd kv))
               cells.

(** The state of a retry run over a frame that started as [df0], after
    the rows in [D]: only the retry's columns have changed, and only in
    rows whose retry succeeded, which hold the new cells. *)
Definition retry_state (D : nat → Prop) (st : run) : Prop :=
  cells_kept retry_columns df0 (frame st) ∧
  (∀ j c, ¬ (D j ∧ retry_succeeds j = true) → c ∈ columns df0 →
          frame_cell (frame st) j c = frame_cell df0 j c) ∧
  ∀ j, D j → retry_row j (frame st).

End RetrySpec.

(** The frame [df] shows [df0] outside the retry's columns and outside
    the rows [errs]. *)
Definition retry_kept (errs : list nat) (df0 df : DataFrame) : Prop :=
  cells_kept retry_columns df0 df ∧
  ∀ j c, j ∉ errs → c ∈ columns df0 → frame_cell df j c = frame_cell df0 j c.

(** What [screen_with_claude] hands back: an error with its message, or
    no error and the thinking text. *)
Definition retry_shaped (d : pydict) : Prop :=
  judged d ∧
  ((∃ msg, Py.dict_get d "error" = Some (VStr msg))
   ∨ (still_failing d = false ∧ ∃ t, Py.dict_get d "thinking" = Some (VStr t))).

(** ** The token logger ([token_logger.py]) *)

Module Logger.

(** A usage record and the totals kept per model, with their integer
    fields; the costs, floats computed from the price list, and the
    timestamp are left out. *)
Record UsageRecord : Type := {
  record_model : string;
  record_layer : string;
  record_id : option string;
  record_input_tokens : Z;
  record_output_tokens : Z
}.

Record ModelTotals : Type := {
  input_tokens : Z;
  output_tokens : Z;
  api_calls : Z
}.

Record TokenLogger : Type := {
  records : list UsageRecord;
  totals : gmap string ModelTotals
}.

(** [TokenLogger()], which [reset_logger] installs. *)
Definition new_logger : TokenLogger := {| records := []; totals := ∅ |}.

(** [log_usage]: the record is appended, the model's totals are created
    at zero when the model is new, and then raised. *)
Definition log_usage (model : string) (input output : Z) (layer : string)
    (rid : option string) (self : TokenLogger) : UsageRecord * TokenLogger :=
  let record := {| record_model := model; record_layer := layer; record_id := rid;
                   record_input_tokens := input; record_output_tokens := output |} in
  let totals0 :=
    if bool_decide (is_Some (totals self !! model)) then totals self
    else <[model := {| input_tokens := 0; output_tokens := 0; api_calls := 0 |}]>
           (totals self) in
  let totals1 :=
    alter (fun t => {| input_tokens := input_tokens t + input;
                       output_tokens := output_tokens t + output;
                       api_calls := api_calls t + 1 |}) model totals0 in
  (record, {| records := records self ++ [record]; totals := totals1 |}).

(** [sum(m[field] for m in self.totals.values())]. *)
Definition sum_totals (field : ModelTotals → Z) (self : TokenLogger) : Z :=
  map_fold (fun _ t acc => field t + acc)%Z 0%Z (totals self).

(** [get_total_tokens], as the pair of its "input" and "output". *)
Definition get_total_tokens (self : TokenLogger) : Z * Z :=
  (sum_totals input_tokens self, sum_totals output_tokens self).

(** The calls of [log_usage] of a run, in order, on a fresh logger. *)
Definition logged (calls : list (string * Z * Z * string * option string)) : TokenLogger :=
  fold_left (fun self '(model, input, output, layer, rid) =>
               snd (log_usage model input output layer rid self))
            calls new_logger.

(** The records of one model, and the sum of a field over records. *)
Definition records_of (model : string) (rs : list UsageRecord) : list UsageRecord :=
  List.filter (fun r => String.eqb (record_model r) model) rs.

Definition sum_field (field : UsageRecord → Z) (rs : list UsageRecord) : Z :=
  foldr (fun r acc => field r + acc)%Z 0%Z rs.

(** The totals agree with the records: a model has totals exactly when
    it has records, and then they are the sums over its records and
    their number; the grand totals are the sums over all the records. *)
Definition consistent (self : TokenLogger) : Prop :=
  (∀ model,
     totals self !! model =
       match records_of model (records self) with
       | [] => None
       | rs => Some {| input_tokens := sum_field record_input_tokens rs;
                       output_tokens := sum_field record_output_tokens rs;
                       api_calls := Z.of_nat (List.length rs) |}
       end)
  ∧ get_total_tokens self = (sum_field record_input_tokens (records self),
                             sum_field record_output_tokens (records self))
  ∧ sum_totals api_calls self = Z.of_nat (List.length (records self)).

End Logger.

(** ** More sample inputs *)

(** A reader that also knows two judge answers with an
    "inclusion_check". *)
Definition checked_parse (s : string) : pyval :=
  if String.eqb s "answer: checked" then VDict partial_answer
  else if String.eqb s "answer: null checks" then null_checks_answer
  else sample_parse s.

Definition checked_externals : Externals :=
  {| parse_json_response := checked_parse;
     LAYER1_EXCLUSION_PROMPT := fun title abstract => "L1|" +:+ title +:+ "|" +:+ abstract;
     LAYER2_INCLUSION_PROMPT := fun title abstract => "L2|" +:+ title +:+ "|" +:+ abstract;
     container_repr := fun _ => "[...]";
     now_isoformat := fun idx => "2025-01-01T00:00:" +:+ pretty idx |}.

(** Vendors that hit a rate limit on the first attempt and answer from
    the second on. *)
Definition recovering_gemini (text : string) : gemini_model :=
  fun _ attempt =>
    if (attempt =? 0)%nat then CallRaises (VendorError "429 Too Many Requests")
    else CallReturns {| gemini_text := text; gemini_usage := None |}.

Definition recovering_claude (text : string) : claude_client :=
  fun _ attempt =>
    if (attempt =? 0)%nat then CallRaises (VendorError "529 Overloaded")
    else CallReturns {| usage_input_tokens := 900; usage_output_tokens := 300;
                        content := [ThinkingBlock "weighing the criteria"; TextBlock text] |}.

(** The no-break space U+00A0, as UTF-8 encodes it. *)
Definition nbsp : string :=
  String (Ascii.ascii_of_nat 194) (String (Ascii.ascii_of_nat 160) EmptyString).



(** A Layer 2 output whose second judge is filed under "L2_opus", as
    the merge stage reads it. *)
Definition sample_merge_frame : DataFrame :=
  {| columns := ["record_id"; "title"; "L1_decision"; "L2_pro_decision"; "L2_opus_decision"];
     rows :=
       [ list_to_map [("record_id", VStr "R1"); ("title", VStr "Porcine liver perfusion model");
                      ("L1_decision", VStr "exclude"); ("L2_pro_decision", VNaN);
                      ("L2_opus_decision", VNaN)];
         list_to_map [("record_id", VStr "R2"); ("title", VStr "HOPE versus cold storage");
                      ("L1_decision", VStr "pass"); ("L2_pro_decision", VStr "include");
                      ("L2_opus_decision", VStr "include")];
         list_to_map [("record_id", VStr "R3"); ("title", VStr "NMP of ECD livers");
                      ("L1_decision", VStr "pass"); ("L2_pro_decision", VStr "include");
                      ("L2_opus_decision", VStr "exclude")];
         list_to_map [("record_id", VStr "R4"); ("title", VStr "Cold storage of kidneys");
                      ("L1_decision", VStr "pass"); ("L2_pro_decision", VStr "exclude");
                      ("L2_opus_decision", VStr "exclude")] ] |}.

(** A draw that takes the first rows. *)
Definition first_rows (rows : list (gmap string pyval)) (n : nat)
    : list (gmap string pyval) := take n rows.

(** What the merge stage writes for that frame: the merged frame, the
    numbers of its summary, and the files for the reviewers. *)
Definition sample_merged : DataFrame :=
  Eval vm_compute in
    match fst (merge_main (H := sample_externals) first_rows sample_merge_frame) with
    | FullResults out :: _ => out
    | _ => sample_merge_frame
    end.

Definition sample_summary : summary :=
  {| total := 4; l1_exclude := 1; l1_pass := 3;
     l2_records := 3; l2_both_include := 1; l2_both_exclude := 1; l2_disagree := 1;
     final_include := 1; final_exclude := 2; final_uncertain := 1 |}.

Definition sample_high_priority : DataFrame :=
  Eval vm_compute in
    match fst (merge_main (H := sample_externals) first_rows sample_merge_frame) with
    | _ :: _ :: HighPriority high :: _ => high
    | _ => sample_merge_frame
    end.

Definition sample_low_priority : DataFrame :=
  Eval vm_compute in
    match fst (merge_main (H := sample_externals) first_rows sample_merge_frame) with
    | _ :: _ :: _ :: LowPrioritySample low :: _ => low
    | _ => sample_merge_frame
    end.

(** The first of the sample records once Layer 1 has added its columns. *)
Definition sample_first_row : gmap string pyval :=
  list_to_map
    [ ("record_id", VStr "R1"); ("title", VStr "Porcine liver perfusion model");
      ("abstract", VStr "Livers of ten pigs were perfused.");
      ("L1_decision", VNone); ("L1_exclusion_tags", VNone); ("L1_evidence", VNone);
      ("L1_reasoning", VNone); ("L1_error", VNone); ("L1_timestamp", VNone);
      ("L1_input_tokens", VNone); ("L1_output_tokens", VNone); ("L1_total_tokens", VNone) ].

(** A Layer 2 output in which Claude failed on the last two records. *)
Definition sample_layer2_results : DataFrame :=
  {| columns := ["record_id"; "title"; "abstract"; "L2_pro_decision"; "L2_sonnet_decision";
                 "L2_sonnet_error"; "L2_models_agree"; "needs_human_review"];
     rows :=
       [ list_to_map [("record_id", VStr "R1"); ("title", VStr "HOPE versus cold storage");
                      ("abstract", VStr "A matched cohort of DCD grafts.");
                      ("L2_pro_decision", VStr "include");
                      ("L2_sonnet_decision", VStr "include"); ("L2_sonnet_error", VNaN);
                      ("L2_models_agree", VBool true); ("needs_human_review", VBool true)];
         list_to_map [("record_id", VStr "R2"); ("title", VStr "Porcine liver perfusion model");
                      ("abstract", VNaN);
                      ("L2_pro_decision", VStr "exclude");
                      ("L2_sonnet_decision", VStr "include");
                      ("L2_sonnet_error", VStr "529 Overloaded");
                      ("L2_models_agree", VBool false); ("needs_human_review", VBool true)];
         list_to_map [("record_id", VStr "R3"); ("title", VStr "NMP of ECD livers");
                      ("abstract", VStr "A randomised trial.");
                      ("L2_pro_decision", VStr "include");
                      ("L2_sonnet_decision", VStr "include");
                      ("L2_sonnet_error", VStr "Max retries");
                      ("L2_models_agree", VBool true); ("needs_human_review", VBool true)] ] |}.

(** On the retry Claude answers for the second record and keeps
    failing for the third. *)
Definition retry_client (idx : nat) : claude_client :=
  if (idx =? 1)%nat then claude_answers "answer: exclude" else flaky_claude.

(** * Properties *)

Arguments Py.str_take : simpl never.
Arguments exn_str : simpl never.

(** ** Strings *)

(** A slice cuts between characters, and whitespace is not ASCII only. *)
Lemma str_take_whole_characters :
  Py.str_take 2 ("a" +:+ nbsp +:+ "b") = "a" +:+ nbsp
  ∧ Py.str_chars ("a" +:+ nbsp +:+ "b") = ["a"; nbsp; "b"]
  ∧ Py.is_blank (" " +:+ nbsp) = true
  ∧ Py.is_blank (nbsp +:+ "a") = false.
Proof. vm_compute. done. Qed.

(** ** Dicts *)

Section DictFacts.
Implicit Types (d : pydict) (k : string) (v : pyval).

Lemma dict_get_set_eq d k v : Py.dict_get (Py.dict_set d k v) k = Some v.
Proof.
  induction d as [|[k' v'] d IH]; simpl.
  - by rewrite String.eqb_refl.
  - destruct (String.eqb_spec k' k) as [->|Hne]; simpl.
    + by rewrite String.eqb_refl.
    + destruct (String.eqb_spec k' k); [done|apply IH].
Qed.

Lemma dict_get_set_ne d k k' v :
  k ≠ k' → Py.dict_get (Py.dict_set d k v) k' = Py.dict_get d k'.
Proof.
  intros Hne. induction d as [|[k0 v0] d IH]; simpl.
  - destruct (String.eqb_spec k k'); [done|reflexivity].
  - destruct (String.eqb_spec k0 k) as [->|Hk]; simpl.
    + destruct (String.eqb_spec k k'); [done|reflexivity].
    + by rewrite IH.
Qed.

Lemma dict_keys_set_old d k v :
  is_Some (Py.dict_get d k) → Py.dict_keys (Py.dict_set d k v) = Py.dict_keys d.
Proof.
  unfold Py.dict_keys. induction d as [|[k0 v0] d IH]; simpl.
  - by intros [? ?].
  - destruct (String.eqb_spec k0 k); simpl; [done|].
    intros Hs. by rewrite IH.
Qed.

Lemma dict_keys_set_new d k v :
  Py.dict_get d k = None → Py.dict_keys (Py.dict_set d k v) = Py.dict_keys d ++ [k].
Proof.
  unfold Py.dict_keys. induction d as [|[k0 v0] d IH]; simpl; [done|].
  destruct (String.eqb_spec k0 k); simpl; [done|].
  intros Hn. by rewrite IH.
Qed.

Lemma dict_has_set d k k' v :
  Py.dict_has (Py.dict_set d k v) k' = (Py.dict_has d k' || String.eqb k k')%bool.
Proof.
  unfold Py.dict_has. destruct (String.eqb_spec k k') as [->|Hne].
  - rewrite dict_get_set_eq. by rewrite orb_true_r.
  - rewrite dict_get_set_ne by done. by rewrite orb_false_r.
Qed.

Lemma dict_has_true d k : Py.dict_has d k = true ↔ is_Some (Py.dict_get d k).
Proof.
  unfold Py.dict_has. destruct (Py.dict_get d k) as [v|].
  - split; [by eexists|done].
  - split; [done|]. by intros [? ?].
Qed.

End DictFacts.

Lemma append_eqb_cancel (p a b : string) : String.eqb (p +:+ a) (p +:+ b) = String.eqb a b.
Proof.
  induction p as [|c p IH]; simpl; [done|].
  by rewrite Ascii.eqb_refl.
Qed.

Lemma dict_set_prefix (p : string) (d : pydict) (k : string) (v : pyval) :
  Py.dict_set (prefix_keys p d) (p +:+ k) v = prefix_keys p (Py.dict_set d k v).
Proof.
  induction d as [|[k0 v0] d IH]; simpl; [done|].
  rewrite append_eqb_cancel. destruct (String.eqb k0 k); simpl; [done|].
  by rewrite IH.
Qed.

Lemma dict_keys_prefix (p : string) (d : pydict) :
  Py.dict_keys (prefix_keys p d) = (fun c => p +:+ c) <$> Py.dict_keys d.
Proof.
  unfold Py.dict_keys, prefix_keys. induction d as [|[k v] d IH]; simpl; [done|].
  f_equal. apply IH.
Qed.

Lemma dict_get_prefix (p : string) (d : pydict) (k : string) :
  Py.dict_get (prefix_keys p d) (p +:+ k) = Py.dict_get d k.
Proof.
  induction d as [|[k0 v0] d IH]; simpl; [done|].
  rewrite append_eqb_cancel. by destruct (String.eqb k0 k).
Qed.

(** ** The retry loops *)

(** [for_each] keeps what every step keeps. *)
Lemma for_each_invariant {A S} (I : S → Prop) (f : S → A → pyres S) (xs : list A) :
  (∀ acc x acc', I acc → f acc x = Ok acc' → I acc') →
  ∀ acc r, I acc → for_each xs acc f = Ok r → I r.
Proof.
  intros Hstep. induction xs as [|x xs IH]; simpl; intros acc r Hacc Hrun.
  - by simplify_eq.
  - destruct (f acc x) as [acc'|e] eqn:Hf; simpl in Hrun; [|done].
    eapply IH; [|done]. by eapply Hstep.
Qed.

Lemma all_dicts_set (d : pydict) (k : string) (e : pydict) :
  all_dicts d → all_dicts (Py.dict_set d k (VDict e)).
Proof.
  intros Hd k' v. destruct (decide (k = k')) as [->|Hne].
  - rewrite dict_get_set_eq. intros [= <-]. by eexists.
  - rewrite dict_get_set_ne by done. apply Hd.
Qed.

Lemma all_dicts_Forall (d : pydict) :
  Forall (fun kv => ∃ e, snd kv = VDict e) d → all_dicts d.
Proof.
  induction 1 as [|[k0 v0] d [e He] _ IH]; intros k v; simpl; [done|].
  destruct (String.eqb k0 k); [|apply IH].
  intros [= <-]. by eexists.
Qed.

Lemma shaped_set (d : pydict) (k : string) (v : pyval) :
  k ≠ "inclusion_check" → shaped d → shaped (Py.dict_set d k v).
Proof.
  intros Hk (Hd & Hc & Hr & checks & Hchecks & Hall).
  assert (Hkeep : ∀ k', is_Some (Py.dict_get d k') → is_Some (Py.dict_get (Py.dict_set d k v) k')).
  { intros k' Hs. destruct (decide (k = k')) as [->|Hne].
    - rewrite dict_get_set_eq. by eexists.
    - by rewrite dict_get_set_ne. }
  repeat split; [by apply Hkeep..|].
  exists checks. split; [|done]. by rewrite dict_get_set_ne.
Qed.

Lemma has_set_keep (d : pydict) (k k' : string) (v : pyval) :
  Py.dict_has d k' = true → Py.dict_has (Py.dict_set d k v) k' = true.
Proof. intros Hk. by rewrite dict_has_set, Hk. Qed.

(** ** What the scripts' own statements raise *)

(** Whatever the modelled statements raise by themselves is an
    [Exception]: a [SystemExit] can only come out of a vendor call. *)
Section OwnExceptions.
Context `{Externals}.

Lemma py_get_is_exception (v : pyval) (k : string) (dflt : pyval) (e : exn) :
  Py.get v k dflt = Raise e → is_exception e = true.
Proof. unfold Py.get. intros Hrun. by repeat case_match; simplify_eq. Qed.


Lemma has_decision_is_exception (parsed : pyval) (e : exn) :
  has_decision parsed = Raise e → is_exception e = true.
Proof.
  unfold has_decision, Py.contains. intros Hrun. by repeat case_match; simplify_eq.
Qed.

Lemma call_is_exception {R} (o : outcome R) (e : exn) :
  raises_exception o → call o = Raise e → is_exception e = true.
Proof. destruct o; simpl; intros Ho Hrun; by simplify_eq. Qed.

Lemma for_each_is_exception {A S} (f : S → A → pyres S) (xs : list A) (acc : S) (e : exn) :
  (∀ acc x e, f acc x = Raise e → is_exception e = true) →
  for_each xs acc f = Raise e → is_exception e = true.
Proof.
  intros Hf. revert acc. induction xs as [|x xs IH]; intros acc Hrun; simpl in Hrun; [done|].
  unfold pybind in Hrun. destruct (f acc x) as [acc'|e'] eqn:Hx.
  - by eapply IH.
  - simplify_eq. by eapply Hf.
Qed.

Lemma extract_tag_is_exception (inc_check : pyval) (acc : pydict) (tag : string) (e : exn) :
  Layer2.extract_tag inc_check acc tag = Raise e → is_exception e = true.
Proof.
  unfold Layer2.extract_tag, pybind. intros Hrun.
  repeat case_match; simplify_eq; by eapply py_get_is_exception.
Qed.

Lemma extract_inclusion_result_is_exception (parsed : pyval) (e : exn) :
  Layer2.extract_inclusion_result parsed = Raise e → is_exception e = true.
Proof.
  unfold Layer2.extract_inclusion_result, pybind. intros Hrun.
  repeat case_match; simplify_eq;
    first [by eapply py_get_is_exception
          |eapply for_each_is_exception; [|eassumption];
           intros ???; apply extract_tag_is_exception].
Qed.

Lemma layer1_body_is_exception (max_retries : Z) (attempt : nat)
    (o : outcome gemini_response) (e : exn) :
  raises_exception o → Layer1.try_body max_retries attempt o = Raise e →
  is_exception e = true.
Proof.
  unfold Layer1.try_body, pybind. intros Ho Hrun.
  repeat case_match; simplify_eq;
    first [by eapply call_is_exception
          |by eapply has_decision_is_exception
          |by eapply py_get_is_exception].
Qed.

Lemma gemini_body_is_exception (o : outcome gemini_response) (e : exn) :
  raises_exception o → Layer2.gemini_try_body o = Raise e → is_exception e = true.
Proof.
  unfold Layer2.gemini_try_body, pybind. intros Ho Hrun.
  repeat case_match; simplify_eq;
    first [by eapply call_is_exception
          |by eapply has_decision_is_exception
          |by eapply extract_inclusion_result_is_exception].
Qed.

Lemma claude_body_is_exception (o : outcome claude_message) (e : exn) :
  raises_exception o → Layer2.claude_try_body o = Raise e → is_exception e = true.
Proof.
  unfold Layer2.claude_try_body, pybind. intros Ho Hrun.
  repeat case_match; simplify_eq;
    first [by eapply call_is_exception
          |by eapply has_decision_is_exception
          |by eapply extract_inclusion_result_is_exception].
Qed.

End OwnExceptions.

(** The sample vendors raise nothing but their own errors. *)
Lemma gemini_answers_well_behaved (text : string) : well_behaved (gemini_answers text).
Proof. by intros prompt attempt. Qed.

Lemma claude_answers_well_behaved (text : string) : well_behaved (claude_answers text).
Proof. by intros prompt attempt. Qed.

Lemma flaky_gemini_well_behaved : well_behaved flaky_gemini.
Proof. intros prompt attempt. unfold flaky_gemini. by destruct (attempt =? 0)%nat. Qed.

Lemma flaky_claude_well_behaved : well_behaved flaky_claude.
Proof. intros prompt attempt. unfold flaky_claude. by destruct (attempt =? 0)%nat. Qed.


Lemma retry_client_well_behaved (idx : nat) : well_behaved (retry_client idx).
Proof.
  unfold retry_client. destruct (idx =? 1)%nat;
    [apply claude_answers_well_behaved|apply flaky_claude_well_behaved].
Qed.

Section ScreenerFacts.
Context `{Externals}.

Lemma layer1_step (max_retries : Z) (attempt : nat) (o : outcome gemini_response) :
  raises_exception o →
  try_except (Layer1.try_body max_retries attempt o) (Layer1.handler max_retries attempt)
    = Ok Continue
  ∨ ∃ d, try_except (Layer1.try_body max_retries attempt o)
           (Layer1.handler max_retries attempt) = Ok (Return d) ∧ result_keys d.
Proof.
  intros Ho. unfold try_except.
  destruct (Layer1.try_body max_retries attempt o) as [[d|]|e] eqn:Hbody.
  - right. exists d. split; [done|].
    unfold Layer1.try_body, pybind in Hbody.
    repeat case_match; simplify_eq; split; reflexivity.
  - by left.
  - rewrite (layer1_body_is_exception _ _ _ _ Ho Hbody). unfold Layer1.handler.
    case_match; [by left|right]. eexists. split; [reflexivity|]. split; reflexivity.
Qed.

Lemma layer1_loop (model : gemini_model) (prompt : string) (max_retries : Z)
    (attempts : list nat) (calls : nat) :
  well_behaved model →
  ∃ d n, Layer1.retry_loop model prompt max_retries attempts calls = (Ok d, n)
         ∧ (n ≤ calls + List.length attempts)%nat ∧ result_keys d.
Proof.
  intros Hmodel.
  revert calls. induction attempts as [|attempt rest IH]; intros calls; simpl.
  - eexists _, _. split; [reflexivity|]. split; [lia|]. split; reflexivity.
  - destruct (layer1_step max_retries attempt (model prompt attempt) (Hmodel _ _))
      as [->|(d & -> & Hd)].
    + destruct (IH (S calls)) as (d & n & -> & Hn & Hd).
      eexists _, _. split; [reflexivity|]. split; [lia|done].
    + eexists _, _. split; [reflexivity|]. split; [lia|done].
Qed.


(** What [extract_inclusion_result] returns, when it returns. *)
Lemma extract_tag_all_dicts (inc_check : pyval) (acc : pydict) (tag : string) (acc' : pydict) :
  all_dicts acc → Layer2.extract_tag inc_check acc tag = Ok acc' → all_dicts acc'.
Proof.
  unfold Layer2.extract_tag, pybind. intros Hacc Hrun.
  repeat case_match; simplify_eq. by apply all_dicts_set.
Qed.

Lemma extract_result_shaped (parsed : pyval) (r : pydict) :
  Layer2.extract_inclusion_result parsed = Ok r →
  shaped r ∧ Py.dict_has r "decision" = true ∧ Py.dict_has r "error" = true.
Proof.
  unfold Layer2.extract_inclusion_result, pybind. intros Hrun.
  destruct parsed; cbn -[for_each] in Hrun; try done.
  destruct (for_each inc_tags [] _) as [checks|e] eqn:Hchecks; [|done].
  simplify_eq.
  assert (all_dicts checks) as Hall.
  { eapply (for_each_invariant all_dicts); [| |exact Hchecks].
    - intros acc x acc' Hacc Hx. by eapply extract_tag_all_dicts.
    - intros k v Hk. discriminate Hk. }
  split; [|split; reflexivity].
  unfold shaped; cbn. split_and!; [by eexists..|].
  exists checks. split; [reflexivity|]. exact Hall.
Qed.

(** The fallback dicts of the judges. *)
Lemma unclear_checks_all_dicts : all_dicts Layer2.unclear_checks.
Proof.
  apply all_dicts_Forall. vm_compute.
  repeat (apply Forall_cons_2; [by eexists|]). apply Forall_nil_2.
Qed.

Lemma error_result_shaped (e : exn) : shaped (Layer2.error_result e).
Proof.
  unfold shaped; cbn. split_and!; [by eexists..|]. exists Layer2.unclear_checks.
  split; [reflexivity|]. apply unclear_checks_all_dicts.
Qed.

Lemma max_retries_result_shaped : shaped Layer2.max_retries_result.
Proof.
  unfold shaped; cbn. split_and!; [by eexists..|]. exists Layer2.unclear_checks.
  split; [reflexivity|]. apply unclear_checks_all_dicts.
Qed.

Lemma judged_set (d : pydict) (k : string) (v : pyval) :
  k ≠ "inclusion_check" → judged d → judged (Py.dict_set d k v).
Proof.
  intros Hk [Hs [Hd He]]. split; [by apply shaped_set|].
  split; by apply has_set_keep.
Qed.

Lemma gemini_body_judged (o : outcome gemini_response) (d : pydict) :
  Layer2.gemini_try_body o = Ok (Return d) → judged d.
Proof.
  unfold Layer2.gemini_try_body, pybind, call. intros Hrun.
  repeat case_match; simplify_eq.
  repeat (apply judged_set; [done|]).
  match goal with
  | Hx : Layer2.extract_inclusion_result _ = Ok _ |- _ =>
      by apply extract_result_shaped in Hx as (? & ? & ?)
  end.
Qed.

Lemma claude_body_judged (o : outcome claude_message) (d : pydict) :
  Layer2.claude_try_body o = Ok (Return d) → judged d.
Proof.
  unfold Layer2.claude_try_body, pybind, call. intros Hrun.
  repeat case_match; simplify_eq;
  repeat (apply judged_set; [done|]);
  match goal with
  | Hx : Layer2.extract_inclusion_result _ = Ok _ |- _ =>
      by apply extract_result_shaped in Hx as (? & ? & ?)
  end.
Qed.

(** The judges' loop returns a dict with whatever property the
    fallbacks and the successful attempts share. *)
Lemma layer2_loop {R} (P : pydict → Prop) (try_body : outcome R → pyres loop_step)
    (vendor : nat → outcome R) (max_retries : Z) (attempts : list nat) (calls : nat) :
  (∀ e, P (Layer2.error_result e)) →
  P Layer2.max_retries_result →
  (∀ attempt e, attempt ∈ attempts → try_body (vendor attempt) = Raise e →
                is_exception e = true) →
  (∀ attempt d, attempt ∈ attempts → try_body (vendor attempt) = Ok (Return d) → P d) →
  ∃ d n, Layer2.retry_loop try_body vendor max_retries attempts calls = (Ok d, n)
         ∧ (n ≤ calls + List.length attempts)%nat ∧ P d.
Proof.
  intros Herr Hmax. revert calls.
  induction attempts as [|attempt rest IH]; intros calls Hexn Hbody; simpl.
  - eexists _, _. split; [reflexivity|]. split; [lia|done].
  - assert (∃ s, try_except (try_body (vendor attempt)) (Layer2.handler max_retries attempt)
                   = Ok s ∧ match s with Return d => P d | Continue => True end)
      as (s & -> & Hs).
    { unfold try_except, Layer2.handler.
      destruct (try_body (vendor attempt)) as [[d|]|e] eqn:Hb.
      - eexists. split; [reflexivity|]. eapply Hbody; [left|done].
      - by eexists.
      - rewrite (Hexn attempt e) by (done || by left).
        case_match; eexists; (split; [reflexivity|]); [done|apply Herr]. }
    destruct s as [d|].
    + eexists _, _. split; [reflexivity|]. split; [lia|done].
    + destruct (IH (S calls)) as (d & n & -> & Hn & Hd).
      { intros a e Ha. apply Hexn. by right. }
      { intros a d Ha. apply Hbody. by right. }
      eexists _, _. split; [reflexivity|]. split; [lia|done].
Qed.

End ScreenerFacts.

Section Defaults.
Context `{Externals}.

Lemma has_decision_none : has_decision VNone = Ok false.
Proof. reflexivity. Qed.

Lemma gemini_body_failed (o : outcome gemini_response) (d : pydict) :
  gemini_fails o → Layer2.gemini_try_body o ≠ Ok (Return d).
Proof.
  unfold Layer2.gemini_try_body, pybind, call. destruct o as [e|r]; simpl; [done|].
  intros ->. rewrite has_decision_none. by destruct (gemini_tokens r) as [[a b] c].
Qed.

Lemma claude_body_failed (o : outcome claude_message) (d : pydict) :
  claude_fails o → Layer2.claude_try_body o ≠ Ok (Return d).
Proof.
  unfold Layer2.claude_try_body, pybind, call. destruct o as [e|m]; simpl; [done|].
  destruct (Layer2.scan_blocks (content m)) as [response_text thinking_text]; simpl.
  intros ->. by rewrite has_decision_none.
Qed.

Lemma gemini_fails_raises (o : outcome gemini_response) :
  gemini_fails o → raises_exception o.
Proof. by destruct o. Qed.

Lemma claude_fails_raises (o : outcome claude_message) :
  claude_fails o → raises_exception o.
Proof. by destruct o. Qed.



End Defaults.

(** ** Dataframe cells *)

Section FrameFacts.
Implicit Types (df : DataFrame) (r : gmap string pyval) (k c : string) (v : pyval).

Lemma has_column_true df c : Pd.has_column df c = true ↔ c ∈ columns df.
Proof. unfold Pd.has_column. apply bool_decide_eq_true. Qed.

Lemma has_column_false df c : Pd.has_column df c = false ↔ c ∉ columns df.
Proof. unfold Pd.has_column. apply bool_decide_eq_false. Qed.

Lemma at_set_length df idx k v :
  List.length (rows (Pd.at_set df idx k v)) = List.length (rows df).
Proof.
  unfold Pd.at_set, Pd.set_column. destruct (Pd.has_column df k); simpl.
  - by rewrite length_alter.
  - by rewrite length_alter, length_fmap.
Qed.

Lemma at_set_columns df idx k v c :
  c ∈ columns df → c ∈ columns (Pd.at_set df idx k v).
Proof.
  unfold Pd.at_set, Pd.set_column. intros Hc.
  destruct (Pd.has_column df k) eqn:Hk; simpl; [done|].
  rewrite ?Hk. apply elem_of_app. by left.
Qed.

(** The written row gets the cell and keeps its others. *)
Lemma at_set_row_eq df idx k v r :
  rows df !! idx = Some r → rows (Pd.at_set df idx k v) !! idx = Some (<[k:=v]> r).
Proof.
  unfold Pd.at_set, Pd.set_column. intros Hr.
  destruct (Pd.has_column df k); simpl; rewrite list_lookup_alter_eq.
  - by rewrite Hr.
  - rewrite list_lookup_fmap, Hr. simpl. by rewrite insert_insert_eq.
Qed.

(** Any other row changes only when the column is new, and then only
    by an empty cell under it. *)
Lemma at_set_row_ne df idx j k v :
  idx ≠ j →
  rows (Pd.at_set df idx k v) !! j =
    (fun r => if Pd.has_column df k then r else <[k:=VNaN]> r) <$> rows df !! j.
Proof.
  unfold Pd.at_set, Pd.set_column. intros Hne.
  destruct (Pd.has_column df k); simpl; rewrite list_lookup_alter_ne by done.
  - by destruct (rows df !! j).
  - by rewrite list_lookup_fmap.
Qed.

Lemma set_column_row df c v j :
  rows (Pd.set_column df c v) !! j = (fun r => <[c:=v]> r) <$> rows df !! j.
Proof. unfold Pd.set_column; simpl. by rewrite list_lookup_fmap. Qed.

Lemma well_formed_spec df i r c :
  well_formed df = true → rows df !! i = Some r → is_Some (r !! c) → c ∈ columns df.
Proof.
  unfold well_formed, row_within. intros Hwf Hr [v Hv].
  rewrite forallb_forall in Hwf.
  specialize (Hwf r). rewrite forallb_forall in Hwf.
  assert (In r (rows df)) as Hin.
  { apply list_elem_of_In. by eapply list_elem_of_lookup_2. }
  specialize (Hwf Hin (c, v)).
  apply bool_decide_eq_true in Hwf; [done|].
  apply list_elem_of_In. by apply elem_of_map_to_list.
Qed.

End FrameFacts.

(** ** A row that a run leaves alone *)

Lemma untouched_at_set cols0 r0 idx df j k v :
  idx ≠ j → untouched cols0 r0 idx df → untouched cols0 r0 idx (Pd.at_set df j k v).
Proof.
  intros Hne (Hcols & r & Hr & Hold & Hnew). split.
  - intros c Hc. by apply at_set_columns, Hcols.
  - rewrite at_set_row_ne, Hr by done. simpl.
    destruct (Pd.has_column df k) eqn:Hk; [by eauto|].
    apply has_column_false in Hk.
    eexists. split; [reflexivity|]. split.
    + intros c Hc. rewrite lookup_insert_ne; [by apply Hold|].
      intros ->. by apply Hk, Hcols.
    + intros c x Hc. destruct (decide (k = c)) as [->|Hkc].
      * rewrite lookup_insert_eq. by intros [= <-].
      * rewrite lookup_insert_ne by done. by apply Hnew.
Qed.

Lemma untouched_init cols0 r0 idx (new_cols : list string) (df : DataFrame) :
  untouched cols0 r0 idx df → untouched cols0 r0 idx (init_columns new_cols df).
Proof.
  unfold init_columns. revert df.
  induction new_cols as [|c cs IH]; intros df Hdf; simpl; [done|].
  apply IH. destruct (Pd.has_column df c) eqn:Hc; [done|].
  apply has_column_false in Hc.
  destruct Hdf as (Hcols & r & Hr & Hold & Hnew). split.
  - intros c' Hc'. unfold Pd.set_column; simpl.
    case_match; [by apply Hcols|]. apply elem_of_app. left. by apply Hcols.
  - rewrite set_column_row, Hr. simpl. eexists. split; [reflexivity|]. split.
    + intros c' Hc'. rewrite lookup_insert_ne; [by apply Hold|].
      intros ->. by apply Hc, Hcols.
    + intros c' x Hc'. destruct (decide (c = c')) as [->|Hcc].
      * rewrite lookup_insert_eq. by intros [= <-].
      * rewrite lookup_insert_ne by done. by apply Hnew.
Qed.

Lemma untouched_start (df : DataFrame) (idx : nat) (r0 : gmap string pyval) :
  well_formed df = true → rows df !! idx = Some r0 → untouched (columns df) r0 idx df.
Proof.
  intros Hwf Hr. split; [done|]. exists r0. split; [done|]. split; [done|].
  intros c v Hc Hv. exfalso. apply Hc.
  eapply well_formed_spec; [done..|]. by eexists.
Qed.

(** ** A small logic for runs *)

Section Keeps.
Context (I : run → Prop).

Lemma keeps_ret {A} (a : A) : keeps I (st_ret a) (fun x => x = a).
Proof. intros st HI. split; [done|]. by intros ? [= <-]. Qed.

Lemma keeps_lift {A} (r : pyres A) : keeps I (st_lift r) (fun a => r = Ok a).
Proof. intros st HI. split; [done|]. by intros ? <-. Qed.

Lemma keeps_weaken {A} (m : M A) (post post' : A → Prop) :
  keeps I m post → (∀ a, post a → post' a) → keeps I m post'.
Proof. intros Hm Hw st HI. destruct (Hm st HI) as [? Hp]. split; [done|]. eauto. Qed.

Lemma keeps_bind {A B} (m : M A) (k : A → M B) (post1 : A → Prop) (post2 : B → Prop) :
  keeps I m post1 → (∀ a, post1 a → keeps I (k a) post2) → keeps I (st_bind m k) post2.
Proof.
  intros Hm Hk st HI. unfold st_bind.
  destruct (Hm st HI) as [HI' Hpost]. destruct (m st) as [[a|e] st']; simpl in *.
  - apply Hk; [by apply Hpost|done].
  - split; [done|]. by intros.
Qed.

Lemma keeps_try {A} (body : M A) (handler : exn → M A) (post : A → Prop) :
  keeps I body post → (∀ e, keeps I (handler e) post) → keeps I (st_try body handler) post.
Proof.
  intros Hb Hh st HI. unfold st_try.
  destruct (Hb st HI) as [HI' Hpost]. destruct (body st) as [[a|e] st']; simpl in *.
  - split; [done|]. intros ? [= <-]. by apply Hpost.
  - destruct (is_exception e); [by apply Hh|]. split; [done|]. by intros.
Qed.

Lemma keeps_for {A} (xs : list A) (body : A → M unit) :
  (∀ x, x ∈ xs → keeps I (body x) (fun _ => True)) →
  keeps I (st_for xs body) (fun _ => True).
Proof.
  induction xs as [|x xs IH]; intros Hbody; simpl.
  - eapply keeps_weaken; [apply keeps_ret|done].
  - eapply keeps_bind; [apply Hbody; by left|].
    intros _ _. apply IH. intros y Hy. apply Hbody. by right.
Qed.

Lemma keeps_gather {A B} (xs : list A) (body : A → M (list B)) (P : B → Prop) :
  (∀ x, x ∈ xs → keeps I (body x) (Forall P)) →
  keeps I (st_gather xs body) (Forall P).
Proof.
  induction xs as [|x xs IH]; intros Hbody; simpl.
  - eapply keeps_weaken; [apply keeps_ret|]. by intros ? ->.
  - eapply keeps_bind; [apply Hbody; by left|]. intros ys Hys.
    eapply keeps_bind; [apply IH; intros y Hy; apply Hbody; by right|].
    intros rest Hrest. eapply keeps_weaken; [apply keeps_ret|].
    intros ? ->. by apply Forall_app.
Qed.

End Keeps.

Section Always.
Context (J : DataFrame → Prop).

Lemma always_at_set (idx : nat) (k : string) (v : pyval) :
  (∀ df, J df → J (Pd.at_set df idx k v)) →
  keeps (always J) (at_set idx k v) (fun _ => True).
Proof. intros HJ st [Hf Hs]. split; [|done]. split; simpl; [by apply HJ|done]. Qed.

Lemma always_to_csv : keeps (always J) to_csv (fun _ => True).
Proof.
  intros st [Hf Hs]. split; [|done]. split; simpl; [done|].
  apply Forall_app. split; [done|]. by apply Forall_singleton.
Qed.

Lemma always_submit (idx : nat) : keeps (always J) (submit idx) (fun _ => True).
Proof. by intros st [Hf Hs]. Qed.

Lemma always_get_frame : keeps (always J) get_frame (fun _ => True).
Proof. by intros st [Hf Hs]. Qed.

End Always.

(** ** Flattening *)

Lemma dict_lit_prefix (p : string) (items : list (string * pyval)) :
  Py.dict_lit (prefix_keys p items) = prefix_keys p (Py.dict_lit items).
Proof.
  unfold Py.dict_lit. change (@nil (string * pyval)) with (prefix_keys p []) at 1.
  generalize (@nil (string * pyval)) as acc.
  induction items as [|[k v] items IH]; intros acc; simpl; [done|].
  rewrite dict_set_prefix. apply IH.
Qed.

(** Recover the items of a literal whose keys all start with [p]. *)
Ltac strip_prefix p l :=
  lazymatch l with
  | (p +:+ ?k, ?v) :: ?l' =>
      let r := strip_prefix p l' in constr:((k, v) :: r)
  | [] => constr:(@nil (string * pyval))
  end.

Ltac factor_prefix p :=
  match goal with
  | |- context [Py.dict_lit ?l] =>
      let l' := strip_prefix p l in
      change l with (prefix_keys p l')
  end;
  rewrite dict_lit_prefix, !dict_set_prefix.

Section Flatten.
Context `{Externals}.

Lemma flatten_tag_shaped (result : pydict) (p : string) (flat : pydict) (tag : string)
    (checks : pydict) :
  Py.dict_get result "inclusion_check" = Some (VDict checks) →
  all_dicts checks →
  Layer2.flatten_tag result p flat tag =
    Ok (Py.dict_set
          (Py.dict_set flat (p +:+ "_" +:+ Layer2.tag_key tag +:+ "_status")
                       (status_of checks tag))
          (p +:+ "_" +:+ Layer2.tag_key tag +:+ "_evidence") (evidence_of checks tag)).
Proof.
  intros Hc Hall. unfold Layer2.flatten_tag, Py.dict_index, status_of, evidence_of.
  rewrite Hc. cbn [pybind Py.get].
  destruct (Py.dict_get checks tag) as [v|] eqn:Hv; [|done].
  destruct (Hall _ _ Hv) as [e ->]. done.
Qed.

(** The scalar cells and the fixed column set of a flattened result. *)
Lemma flatten_shaped (result : pydict) (p : string) :
  shaped result →
  ∃ flat, Layer2.flatten_result result p = Ok flat
          ∧ Py.dict_keys flat = fixed_columns p
          ∧ Py.dict_get flat (p +:+ "_decision") = Py.dict_get result "decision"
          ∧ Py.dict_get flat (p +:+ "_error")
            = Some (default VNone (Py.dict_get result "error")).
Proof.
  intros ([dec Hdec] & [conf Hconf] & [reas Hreas] & checks & Hchecks & Hall).
  unfold Layer2.flatten_result, Py.dict_index.
  rewrite Hdec, Hconf, Hreas. cbn [pybind for_each inc_tags].
  repeat (rewrite (flatten_tag_shaped _ _ _ _ checks) by done; cbn [pybind]).
  eexists. split; [reflexivity|].
  change (Layer2.tag_key "INC-1") with "inc1".
  change (Layer2.tag_key "INC-2") with "inc2".
  change (Layer2.tag_key "INC-3") with "inc3".
  change (Layer2.tag_key "INC-4") with "inc4".
  change (Layer2.tag_key "INC-5") with "inc5".
  cbn [String.append].
  factor_prefix p.
  rewrite dict_keys_prefix, !dict_get_prefix.
  split; [reflexivity|]. split; reflexivity.
Qed.

End Flatten.

(** ** Storing the results of one record (Layer 2) *)

Lemma st_for_at_set (idx : nat) (items : pydict) (st : run) :
  st_for items (fun '(key, value) => at_set idx key value) st =
    (Ok tt, {| frame := set_items idx items (frame st);
               saved := saved st; submitted := submitted st |}).
Proof.
  revert st. induction items as [|[k v] items IH]; intros st; simpl.
  - by destruct st.
  - unfold st_bind. simpl. by rewrite IH.
Qed.

Lemma set_items_length (idx : nat) (items : pydict) (df : DataFrame) :
  List.length (rows (set_items idx items df)) = List.length (rows df).
Proof.
  unfold set_items. revert df. induction items as [|[k v] items IH]; intros df; simpl; [done|].
  by rewrite IH, at_set_length.
Qed.

Lemma set_items_row (idx : nat) (items : pydict) (df : DataFrame) (r : gmap string pyval) :
  rows df !! idx = Some r →
  rows (set_items idx items df) !! idx = Some (insert_items items r).
Proof.
  unfold set_items, insert_items. revert df r.
  induction items as [|[k v] items IH]; intros df r Hr; simpl; [done|].
  apply IH. by apply at_set_row_eq.
Qed.

Lemma insert_items_notin (items : pydict) (r : gmap string pyval) (k : string) :
  k ∉ Py.dict_keys items → insert_items items r !! k = r !! k.
Proof.
  unfold insert_items, Py.dict_keys. revert r.
  induction items as [|[k0 v0] items IH]; intros r Hk; simpl in *; [done|].
  apply not_elem_of_cons in Hk as [Hne Hk].
  rewrite IH by done. by rewrite lookup_insert_ne.
Qed.

Lemma dict_get_notin (items : pydict) (k : string) :
  k ∉ Py.dict_keys items → Py.dict_get items k = None.
Proof.
  unfold Py.dict_keys. induction items as [|[k0 v0] items IH]; intros Hk; simpl in *; [done|].
  apply not_elem_of_cons in Hk as [Hne Hk].
  destruct (String.eqb_spec k0 k); [done|by apply IH].
Qed.

Lemma insert_items_in (items : pydict) (r : gmap string pyval) (k : string) (v : pyval) :
  NoDup (Py.dict_keys items) → Py.dict_get items k = Some v →
  insert_items items r !! k = Some v.
Proof.
  unfold insert_items, Py.dict_keys. revert r.
  induction items as [|[k0 v0] items IH]; intros r Hnd Hk; simpl in *; [done|].
  apply NoDup_cons in Hnd as [Hk0 Hnd].
  destruct (String.eqb_spec k0 k) as [->|Hne].
  - simplify_eq. fold (insert_items items (<[k:=v]> r)).
    rewrite insert_items_notin by done. by rewrite lookup_insert_eq.
  - by apply IH.
Qed.

Lemma fixed_columns_NoDup (p : string) : NoDup (fixed_columns p).
Proof.
  unfold fixed_columns. apply NoDup_fmap_2.
  - intros a b Hab. induction p as [|c p IH]; simpl in Hab; [done|].
    apply IH. by injection Hab.
  - apply (bool_decide_unpack _). by vm_compute.
Qed.

Section StoreResults.
Context `{Externals}.

Lemma store_results_run (idx : nat) (pro_result sonnet_result pro_flat sonnet_flat : pydict)
    (pro_decision sonnet_decision : pyval) (st : run) :
  Layer2.flatten_result pro_result "L2_pro" = Ok pro_flat →
  Layer2.flatten_result sonnet_result "L2_sonnet" = Ok sonnet_flat →
  Py.dict_get pro_result "decision" = Some pro_decision →
  Py.dict_get sonnet_result "decision" = Some sonnet_decision →
  store_results (idx, pro_result, sonnet_result) st =
    (Ok tt, {| frame := stored idx pro_flat sonnet_flat pro_decision sonnet_decision (frame st);
               saved := saved st; submitted := submitted st |}).
Proof.
  intros Hpf Hsf Hpd Hsd. unfold store_results, st_bind, st_lift, Py.dict_index.
  rewrite Hpf, Hsf, !st_for_at_set, Hpd, Hsd. reflexivity.
Qed.

Lemma stored_length idx pf sf pd sd df :
  List.length (rows (stored idx pf sf pd sd df)) = List.length (rows df).
Proof. unfold stored. by rewrite !at_set_length, !set_items_length. Qed.

Lemma stored_row idx pf sf pd sd df r :
  rows df !! idx = Some r →
  rows (stored idx pf sf pd sd df) !! idx =
    Some (<["L2_timestamp" := VStr (now_isoformat idx)]>
            (<["needs_human_review" := VBool (needs_review pd sd)]>
               (<["L2_models_agree" := VBool (models_agree pd sd)]>
                  (insert_items sf (insert_items pf r))))).
Proof.
  intros Hr. unfold stored.
  do 3 (erewrite at_set_row_eq; [reflexivity|]).
  by do 2 (erewrite set_items_row; [reflexivity|]).
Qed.

End StoreResults.

(** ** The judges always answer *)

Section Judges.
Context `{Externals}.

Lemma error_result_judged (e : exn) : judged (Layer2.error_result e).
Proof. split; [apply error_result_shaped|]. split; reflexivity. Qed.

Lemma max_retries_result_judged : judged Layer2.max_retries_result.
Proof. split; [apply max_retries_result_shaped|]. split; reflexivity. Qed.

Lemma gemini_pro_judged (model : gemini_model) (title abstract : string)
    (record_id : option string) (max_retries : Z) :
  well_behaved model →
  ∃ d n, Layer2.screen_with_gemini_pro model title abstract record_id max_retries = (Ok d, n)
         ∧ (n ≤ Z.to_nat max_retries)%nat ∧ judged d.
Proof.
  intros Hmodel. unfold Layer2.screen_with_gemini_pro.
  destruct (layer2_loop judged Layer2.gemini_try_body
              (model (format_layer2_prompt title abstract)) max_retries
              (seq 0 (Z.to_nat max_retries)) 0) as (d & n & Hrun & Hn & Hd);
    [apply error_result_judged|apply max_retries_result_judged| | |].
  - intros attempt e _. apply gemini_body_is_exception, Hmodel.
  - intros attempt d _. apply gemini_body_judged.
  - rewrite length_seq in Hn. eauto.
Qed.

Lemma claude_judged (client : claude_client) (title abstract : string)
    (record_id : option string) (max_retries : Z) :
  well_behaved client →
  ∃ d n, Layer2.screen_with_claude client title abstract record_id max_retries = (Ok d, n)
         ∧ (n ≤ Z.to_nat max_retries)%nat ∧ judged d.
Proof.
  intros Hclient. unfold Layer2.screen_with_claude.
  destruct (layer2_loop judged Layer2.claude_try_body
              (client (format_layer2_prompt title abstract)) max_retries
              (seq 0 (Z.to_nat max_retries)) 0) as (d & n & Hrun & Hn & Hd);
    [apply error_result_judged|apply max_retries_result_judged| | |].
  - intros attempt e _. apply claude_body_is_exception, Hclient.
  - intros attempt d _. apply claude_body_judged.
  - rewrite length_seq in Hn. eauto.
Qed.

Lemma process_single_record_ok (df : DataFrame) (gemini : nat → gemini_model)
    (claude : nat → claude_client) (idx : nat) :
  well_behaved (gemini idx) → well_behaved (claude idx) →
  (idx < List.length (rows df))%nat →
  ∃ pro son, process_single_record df gemini claude idx = Ok (idx, pro, son)
             ∧ judged pro ∧ judged son.
Proof.
  intros Hgemini Hclaude Hidx. unfold process_single_record, Pd.iloc.
  destruct (lookup_lt_is_Some_2 (rows df) idx Hidx) as [row ->]. cbn [pybind].
  set (title := py_str _). set (abstract := py_str _). set (rid := py_str _).
  destruct (gemini_pro_judged (gemini idx) title abstract (Some rid) 3 Hgemini)
    as (pro & n1 & -> & _ & Hpro).
  destruct (claude_judged (claude idx) title abstract (Some rid) 3 Hclaude)
    as (son & n2 & -> & _ & Hson).
  by eexists _, _.
Qed.

Lemma process_single_record_idx (df : DataFrame) (gemini : nat → gemini_model)
    (claude : nat → claude_client) (idx : nat) (r : nat * pydict * pydict) :
  process_single_record df gemini claude idx = Ok r → fst (fst r) = idx.
Proof.
  unfold process_single_record, pybind. intros Hrun.
  repeat case_match; by simplify_eq.
Qed.

(** ** Layer 2: the run completes and submits the batches in order *)

Lemma store_results_ok (idx : nat) (pro son : pydict) (st : run) :
  judged pro → judged son →
  ∃ st', store_results (idx, pro, son) st = (Ok tt, st') ∧ same_shape st st'.
Proof.
  intros [Hpro _] [Hson _].
  destruct (flatten_shaped pro "L2_pro" Hpro) as (pf & Hpf & _).
  destruct (flatten_shaped son "L2_sonnet" Hson) as (sf & Hsf & _).
  destruct Hpro as ([pd Hpd] & _). destruct Hson as ([sd Hsd] & _).
  eexists. split; [by eapply store_results_run|].
  split_and!; [done..|]. simpl. apply stored_length.
Qed.

Lemma collect_loop_ok (df : DataFrame) (gemini : nat → gemini_model)
    (claude : nat → claude_client) (order : list nat) (st : run) :
  (∀ i, well_behaved (gemini i)) → (∀ i, well_behaved (claude i)) →
  (∀ i, i ∈ order → (i < List.length (rows df))%nat) →
  ∃ st', st_for order
           (fun idx => st_bind (st_lift (process_single_record df gemini claude idx))
                               store_results) st = (Ok tt, st')
         ∧ same_shape st st'.
Proof.
  intros Hgemini Hclaude.
  revert st. induction order as [|i order IH]; intros st Hin; simpl.
  - by eexists.
  - destruct (process_single_record_ok df gemini claude i) as (pro & son & Hrec & Hpro & Hson);
      [done|done|apply Hin; by left|].
    destruct (store_results_ok i pro son st Hpro Hson) as (st1 & Hst1 & Hs1 & Hv1 & Hl1).
    destruct (IH st1) as (st2 & Hst2 & Hs2 & Hv2 & Hl2); [intros j Hj; apply Hin; by right|].
    exists st2. split.
    + unfold st_bind at 1. unfold st_bind at 1, st_lift. rewrite Hrec, Hst1. exact Hst2.
    + split_and!; congruence.
Qed.

Lemma submit_loop (batch : list nat) (st : run) :
  st_for batch submit st =
    (Ok tt, {| frame := frame st; saved := saved st; submitted := submitted st ++ batch |}).
Proof.
  revert st. induction batch as [|i batch IH]; intros st; simpl.
  - rewrite app_nil_r. by destruct st.
  - unfold st_bind, submit at 1. rewrite IH. simpl. by rewrite <- app_assoc.
Qed.

Lemma batch_of_subset bs indices b i : i ∈ batch_of bs indices b → i ∈ indices.
Proof.
  unfold batch_of. intros Hi.
  apply elem_of_take in Hi as (j & Hj & _). rewrite lookup_drop in Hj.
  by eapply list_elem_of_lookup_2.
Qed.

Lemma process_batch2_ok (gemini : nat → gemini_model) (claude : nat → claude_client)
    (as_completed : list nat → list nat) (bs : nat) (indices : list nat) (b : nat) (st : run) :
  (∀ i, well_behaved (gemini i)) → (∀ i, well_behaved (claude i)) →
  (∀ l, as_completed l ≡ₚ l) →
  (∀ i, i ∈ indices → (i < List.length (rows (frame st)))%nat) →
  ∃ st', process_batch2 gemini claude as_completed bs indices b st = (Ok tt, st')
         ∧ submitted st' = submitted st ++ batch_of bs indices b
         ∧ List.length (rows (frame st')) = List.length (rows (frame st)).
Proof.
  intros Hgemini Hclaude Hperm Hin. unfold process_batch2. fold (batch_of bs indices b).
  unfold st_bind at 1, get_frame. unfold st_bind at 1. rewrite submit_loop.
  unfold st_bind at 1.
  edestruct (collect_loop_ok (frame st) gemini claude (as_completed (batch_of bs indices b)))
    as (st1 & -> & Hs1 & Hv1 & Hl1); [done|done| |].
  { intros i Hi. apply Hin. rewrite Hperm in Hi. by eapply batch_of_subset. }
  eexists. split; [reflexivity|]. simpl in *. by rewrite Hs1, Hl1.
Qed.

Lemma batches_ok (gemini : nat → gemini_model) (claude : nat → claude_client)
    (as_completed : list nat → list nat) (bs : nat) (indices : list nat)
    (batch_nums : list nat) (st : run) :
  (∀ i, well_behaved (gemini i)) → (∀ i, well_behaved (claude i)) →
  (∀ l, as_completed l ≡ₚ l) →
  (∀ i, i ∈ indices → (i < List.length (rows (frame st)))%nat) →
  ∃ st', st_for batch_nums (process_batch2 gemini claude as_completed bs indices) st
           = (Ok tt, st')
         ∧ submitted st' = submitted st ++ List.concat (batch_of bs indices <$> batch_nums)
         ∧ List.length (rows (frame st')) = List.length (rows (frame st)).
Proof.
  intros Hgemini Hclaude Hperm.
  revert st. induction batch_nums as [|b batch_nums IH]; intros st Hin; simpl.
  - eexists. split; [reflexivity|]. by rewrite app_nil_r.
  - destruct (process_batch2_ok gemini claude as_completed bs indices b st
                Hgemini Hclaude Hperm Hin)
      as (st1 & Hst1 & Hs1 & Hl1).
    destruct (IH st1) as (st2 & Hst2 & Hs2 & Hl2).
    { intros i Hi. rewrite Hl1. by apply Hin. }
    exists st2. split; [unfold st_bind; by rewrite Hst1|].
    split; [|congruence]. by rewrite Hs2, Hs1, <- app_assoc.
Qed.

(** Cutting a list into batches and joining them gives the list back. *)
Lemma batches_cover (bs : nat) (indices : list nat) :
  bs ≠ 0%nat →
  List.concat (batch_of bs indices <$> seq 0 ((List.length indices + bs - 1) / bs)) = indices.
Proof.
  intros Hbs.
  assert (∀ b, batch_of bs indices b = take bs (drop (b * bs) indices)) as Hb.
  { intros b. unfold batch_of.
    destruct (decide (b * bs + bs ≤ List.length indices)%nat).
    - f_equal. lia.
    - rewrite !take_ge; [done|rewrite length_drop; lia..]. }
  assert (∀ n, List.concat (batch_of bs indices <$> seq 0 n) = take (n * bs) indices) as Hn.
  { induction n as [|n IHn]; [done|].
    rewrite seq_S, fmap_app, List.concat_app, IHn. simpl.
    rewrite app_nil_r, Hb, take_take_drop. f_equal. lia. }
  rewrite Hn. apply take_ge.
  pose proof (Nat.div_mod (List.length indices + bs - 1) bs Hbs).
  pose proof (Nat.mod_upper_bound (List.length indices + bs - 1) bs Hbs).
  nia.
Qed.

End Judges.

(** ** Layer 2: rows outside the batches are left alone *)

Lemma elem_of_where_eq (df : DataFrame) (col s : string) (i : nat) :
  i ∈ Pd.where_eq df col s ↔
  ∃ r, rows df !! i = Some r ∧ Py.eq (Pd.cell r col) (VStr s) = true.
Proof.
  unfold Pd.where_eq. rewrite list_elem_of_In, filter_In, <- list_elem_of_In, elem_of_seq.
  split.
  - intros [_ Hi]. destruct (rows df !! i) as [r|]; [by exists r|done].
  - intros (r & Hr & Heq). rewrite Hr. split; [|done].
    apply lookup_lt_Some in Hr. lia.
Qed.

Lemma slice_from_subset {A} (l : list A) (s : Z) (x : A) : x ∈ slice_from l s → x ∈ l.
Proof. unfold slice_from. case_match; apply subseteq_drop. Qed.

Section Layer2Frame.
Context `{Externals}.
Context (J : DataFrame → Prop) (idx : nat).
Context (J_at_set : ∀ df j k v, idx ≠ j → J df → J (Pd.at_set df j k v)).

Lemma store_results_keeps (j : nat) (pro son : pydict) :
  idx ≠ j → keeps (always J) (store_results (j, pro, son)) (fun _ => True).
Proof.
  intros Hj. unfold store_results.
  eapply keeps_bind; [apply keeps_lift|intros pf _].
  eapply keeps_bind; [apply keeps_lift|intros sf _].
  eapply keeps_bind;
    [apply keeps_for; intros [k v] _; apply always_at_set; auto|intros _ _].
  eapply keeps_bind;
    [apply keeps_for; intros [k v] _; apply always_at_set; auto|intros _ _].
  eapply keeps_bind; [apply keeps_lift|intros pd _].
  eapply keeps_bind; [apply keeps_lift|intros sd _].
  eapply keeps_bind; [apply always_at_set; auto|intros _ _].
  eapply keeps_bind; [apply always_at_set; auto|intros _ _].
  apply always_at_set; auto.
Qed.

Lemma process_batch2_keeps (gemini : nat → gemini_model) (claude : nat → claude_client)
    (as_completed : list nat → list nat) (bs : nat) (indices : list nat) (b : nat) :
  (∀ l, as_completed l ≡ₚ l) → idx ∉ indices →
  keeps (always J) (process_batch2 gemini claude as_completed bs indices b) (fun _ => True).
Proof.
  intros Hperm Hidx. unfold process_batch2. fold (batch_of bs indices b).
  eapply keeps_bind; [apply always_get_frame|intros df _].
  eapply keeps_bind; [apply keeps_for; intros j _; apply always_submit|intros _ _].
  eapply keeps_bind; [|intros _ _; apply always_to_csv].
  apply keeps_for. intros j Hj.
  eapply keeps_bind; [apply keeps_lift|intros [[j' pro] son] Hrec].
  apply process_single_record_idx in Hrec. simpl in Hrec. subst j'.
  apply store_results_keeps. intros ->. apply Hidx.
  rewrite Hperm in Hj. by eapply batch_of_subset.
Qed.

End Layer2Frame.

Section Layer2Stage.
Context `{Externals}.

(** The run completes and hands to the pool exactly the rows Layer 1
    passed, from position [resume_from] on. *)
Lemma process_layer2_submits (input_df : DataFrame) (gemini : nat → gemini_model)
    (claude : nat → claude_client) (bs : nat) (resume_from : option Z)
    (as_completed : list nat → list nat) :
  (∀ i, well_behaved (gemini i)) → (∀ i, well_behaved (claude i)) →
  Pd.has_column input_df "L1_decision" = true → bs ≠ 0%nat →
  (∀ l, as_completed l ≡ₚ l) →
  ∃ st, process_layer2 input_df gemini claude bs resume_from as_completed = (Ok tt, st)
        ∧ submitted st = slice_from (Pd.where_eq input_df "L1_decision" "pass")
                                    (default 0%Z resume_from)
        ∧ saved st ≠ [].
Proof.
  intros Hgemini Hclaude Hcol Hbs Hperm. unfold process_layer2. rewrite Hcol.
  destruct (Nat.eqb_spec bs 0) as [|_]; [done|].
  set (indices := slice_from _ _).
  set (df := init_columns L2_agreement_columns _).
  assert (List.length (rows df) = List.length (rows input_df)) as Hlen.
  { subst df. unfold init_columns.
    generalize (L2_columns "L2_pro" ++ L2_columns "L2_sonnet") as cs1.
    generalize L2_agreement_columns as cs2. intros cs2 cs1.
    assert (∀ cs d, List.length (rows (fold_left
              (λ df col, if Pd.has_column df col then df else Pd.set_column df col VNone)
              cs d)) = List.length (rows d)) as Hfold.
    { induction cs as [|c cs IH]; intros d; simpl; [done|]. rewrite IH.
      case_match; [done|]. unfold Pd.set_column; simpl. by rewrite length_fmap. }
    by rewrite !Hfold. }
  clearbody df.
  edestruct (batches_ok gemini claude as_completed bs indices
               (seq 0 ((List.length indices + bs - 1) / bs))
               {| frame := df; saved := []; submitted := [] |})
    as (st1 & Hst1 & Hs1 & Hl1); [done|done|done| |].
  { intros i Hi. cbn [frame]. rewrite Hlen. apply slice_from_subset in Hi.
    apply elem_of_where_eq in Hi as (r & Hr & _). by eapply lookup_lt_Some. }
  unfold st_bind. rewrite Hst1. eexists. split; [reflexivity|].
  cbn [to_csv snd fst submitted saved]. split.
  - rewrite Hs1. cbn [submitted app]. by apply batches_cover.
  - by destruct (saved st1).
Qed.

(** A row that is not among the submitted ones keeps its cells in every
    saved frame, and has nothing under the new columns. *)
Lemma process_layer2_untouched (input_df : DataFrame) (gemini : nat → gemini_model)
    (claude : nat → claude_client) (bs : nat) (resume_from : option Z)
    (as_completed : list nat → list nat) (idx : nat) (r0 : gmap string pyval) :
  well_formed input_df = true →
  (∀ l, as_completed l ≡ₚ l) →
  rows input_df !! idx = Some r0 →
  idx ∉ slice_from (Pd.where_eq input_df "L1_decision" "pass") (default 0%Z resume_from) →
  Forall (untouched (columns input_df) r0 idx)
         (saved (snd (process_layer2 input_df gemini claude bs resume_from as_completed))).
Proof.
  intros Hwf Hperm Hr Hidx. unfold process_layer2.
  destruct (Pd.has_column input_df "L1_decision"); [|by apply Forall_nil].
  set (J := untouched (columns input_df) r0 idx).
  assert (∀ (m : M unit) st, keeps (always J) m (fun _ => True) → always J st →
                             Forall J (saved (snd (m st)))) as Hkeep.
  { intros m st Hm Hst. by destruct (Hm st Hst) as [[_ ?] _]. }
  apply Hkeep.
  - destruct (bs =? 0)%nat.
    + eapply keeps_weaken; [apply keeps_lift|done].
    + eapply keeps_bind; [|intros _ _; apply always_to_csv].
      apply keeps_for. intros b _.
      apply (process_batch2_keeps J idx); [|done..].
      intros df j k v Hj. by apply untouched_at_set.
  - split; cbn [frame saved]; [|by apply Forall_nil_2].
    do 2 apply untouched_init. by apply untouched_start.
Qed.

End Layer2Stage.

(** ** Equality with a string *)

Lemma py_eq_str_r (v : pyval) (s : string) : Py.eq v (VStr s) = true ↔ v = VStr s.
Proof.
  destruct v as [| | | |s'|l|d]; simpl; try (split; [done|discriminate]).
  rewrite String.eqb_eq. split; [by intros ->|by intros [= ->]].
Qed.


(** ** Sample frames *)

(** ** The merge decision table *)

Section MergeFacts.
Context `{Externals}.

(** A row without the column the table reads for the second judge
    never counts as an agreement: whatever the first judge's cell
    holds, the decision is "uncertain". *)
Lemma determine_final_decision_no_opus_column (row : gmap string pyval) (pro : pyval) :
  Py.eq (Pd.row_get row "L1_decision" VNone) (VStr "exclude") = false →
  row !! "L2_pro_decision" = Some pro → pro ≠ VNone →
  row !! "L2_opus_decision" = None →
  Py.dict_get (determine_final_decision row) "auto_decision" = Some (VStr "uncertain") ∧
  Py.dict_get (determine_final_decision row) "review_priority" = Some (VStr "high").
Proof.
  intros Hl1 Hpro Hnone Hopus. unfold determine_final_decision, Pd.row_get.
  rewrite Hpro, Hopus. unfold Pd.row_get in Hl1. rewrite Hl1. cbn [from_option id].
  assert (Py.eq pro VNone = false) as -> by by destruct pro.
  split; reflexivity.
Qed.

End MergeFacts.

(** C5.  A row that Layer 1 excluded gets auto_decision "exclude" and
    review_priority "none" from [determine_final_decision], whatever its
    other cells, the Layer 2 columns among them, hold. *)
Theorem determine_final_decision_l1_exclude `{Externals} (row : gmap string pyval) :
  row !! "L1_decision" = Some (VStr "exclude") →
  Py.dict_get (determine_final_decision row) "auto_decision" = Some (VStr "exclude") ∧
  Py.dict_get (determine_final_decision row) "review_priority" = Some (VStr "none").
Proof.
  intros Hrow. unfold determine_final_decision, Pd.row_get. rewrite Hrow.
  split; reflexivity.
Qed.

Lemma determine_final_decision_l1_exclude_witness :
  let row : gmap string pyval :=
    list_to_map [("L1_decision", VStr "exclude"); ("L2_pro_decision", VStr "include");
                 ("L2_sonnet_decision", VStr "include"); ("L2_opus_decision", VStr "include")] in
  Py.dict_get (determine_final_decision (H := sample_externals) row) "auto_decision"
    = Some (VStr "exclude") ∧
  Py.dict_get (determine_final_decision (H := sample_externals) row) "review_priority"
    = Some (VStr "none").
Proof.
  intros row. apply (determine_final_decision_l1_exclude (H := sample_externals) row).
  reflexivity.
Defined.

(** C1 (the code departs from it).  A record that Layer 1 passed and that
    both Layer 2 judges included comes out of Layer 2 with "include" under
    L2_pro_decision and L2_sonnet_decision; the decision table reads
    L2_pro_decision and L2_opus_decision, finds no such column, and
    answers "uncertain" instead of the agreed "include". *)
Theorem merge_reads_a_column_layer2_never_writes :
  let out := process_layer2 (H := sample_externals) sample_layer1_frame
               (fun _ => gemini_answers "answer: include")
               (fun _ => claude_answers "answer: include") 100 None id in
  final_cell (snd out) 0 "L1_decision" = Some (VStr "pass")
  ∧ final_cell (snd out) 0 "L2_pro_decision" = Some (VStr "include")
  ∧ final_cell (snd out) 0 "L2_sonnet_decision" = Some (VStr "include")
  ∧ final_cell (snd out) 0 "L2_opus_decision" = None
  ∧ (determine_final_decision (H := sample_externals) <$> final_row (snd out) 0)
    = Some [ ("auto_decision", VStr "uncertain"); ("review_priority", VStr "high");
             ("review_reason", VStr "Disagreement: Pro=include, Opus=None") ].
Proof. vm_compute. done. Qed.

(** ** The screeners *)

(** C3.  Whatever the vendor does at each attempt (answer, answer that
    does not parse, or an [Exception] raised), each of the three
    screeners returns a dict (it never raises), after at most
    [max_retries] vendor calls, and the dict has the keys "decision" and
    "error".  The condition on the vendor is that of [except Exception]:
    what a call raises must be an [Exception]. *)
Theorem screeners_return_within_max_retries `{Externals}
    (flash pro : gemini_model) (client : claude_client) (title abstract : string)
    (record_id : option string) (max_retries : Z) :
  well_behaved flash → well_behaved pro → well_behaved client →
  (∃ d n, Layer1.screen_record_layer1 flash title abstract record_id max_retries = (Ok d, n)
          ∧ (n ≤ Z.to_nat max_retries)%nat ∧ result_keys d) ∧
  (∃ d n, Layer2.screen_with_gemini_pro pro title abstract record_id max_retries = (Ok d, n)
          ∧ (n ≤ Z.to_nat max_retries)%nat ∧ result_keys d) ∧
  (∃ d n, Layer2.screen_with_claude client title abstract record_id max_retries = (Ok d, n)
          ∧ (n ≤ Z.to_nat max_retries)%nat ∧ result_keys d).
Proof.
  intros Hflash Hpro Hclient. split_and!.
  - unfold Layer1.screen_record_layer1.
    destruct (layer1_loop flash (format_layer1_prompt title abstract) max_retries
                (seq 0 (Z.to_nat max_retries)) 0 Hflash) as (d & n & Hrun & Hn & Hd).
    rewrite length_seq in Hn. by exists d, n.
  - destruct (gemini_pro_judged pro title abstract record_id max_retries Hpro)
      as (d & n & Hrun & Hn & _ & Hd).
    by exists d, n.
  - destruct (claude_judged client title abstract record_id max_retries Hclient)
      as (d & n & Hrun & Hn & _ & Hd).
    by exists d, n.
Qed.

Lemma screeners_return_within_max_retries_witness :
  well_behaved flaky_gemini ∧ well_behaved flaky_claude ∧
  (∃ d n, Layer1.screen_record_layer1 (H := sample_externals) flaky_gemini
            "HOPE versus cold storage" "" None 3 = (Ok d, n)
          ∧ (n ≤ 3)%nat ∧ result_keys d) ∧
  (∃ d n, Layer2.screen_with_gemini_pro (H := sample_externals) flaky_gemini
            "HOPE versus cold storage" "" None 3 = (Ok d, n)
          ∧ (n ≤ 3)%nat ∧ result_keys d) ∧
  (∃ d n, Layer2.screen_with_claude (H := sample_externals) flaky_claude
            "HOPE versus cold storage" "" None 3 = (Ok d, n)
          ∧ (n ≤ 3)%nat ∧ result_keys d).
Proof.
  split; [exact flaky_gemini_well_behaved|]. split; [exact flaky_claude_well_behaved|].
  exact (screeners_return_within_max_retries (H := sample_externals) flaky_gemini flaky_gemini
           flaky_claude "HOPE versus cold storage" "" None 3
           flaky_gemini_well_behaved flaky_gemini_well_behaved flaky_claude_well_behaved).
Defined.

(** ** From a judge answer to the fixed columns *)

Section Extract.
Context `{Externals}.

Lemma extract_tag_typed (parsed acc : pydict) (tag : string) :
  checks_well_typed parsed → tag ∈ inc_tags →
  Layer2.extract_tag (VDict (checks_of parsed)) acc tag =
    Ok (Py.dict_set acc tag
          (VDict [ ("status", default (VStr "unclear") (Py.dict_get (entry_of parsed tag) "status"));
                   ("evidence", default VNone (Py.dict_get (entry_of parsed tag) "evidence")) ])).
Proof.
  intros [_ Htags] Htag. unfold Layer2.extract_tag, entry_of. cbn [Py.get pybind].
  destruct (Py.dict_get (checks_of parsed) tag) as [v|] eqn:Hv; [|done].
  destruct (Htags tag v Htag Hv) as [e ->]. done.
Qed.

Lemma inclusion_check_typed (parsed : pydict) :
  checks_well_typed parsed →
  default (VDict []) (Py.dict_get parsed "inclusion_check") = VDict (checks_of parsed).
Proof.
  intros [Hic _]. unfold checks_of.
  destruct (Py.dict_get parsed "inclusion_check") as [v|] eqn:Hv; [|done].
  by destruct (Hic v eq_refl) as [ic ->].
Qed.

End Extract.

(** C7 (as stated, refuted).  A judge answer whose "inclusion_check" is
    JSON null is a dict, yet [extract_inclusion_result] raises on it
    instead of returning the five tags. *)
Lemma extract_inclusion_result_raises_on_null_checks :
  Layer2.extract_inclusion_result null_checks_answer
    = Raise (AttributeError "NoneType" "get").
Proof. reflexivity. Qed.

(** C7 (amended).  For a parsed dict whose "inclusion_check", when
    present, is a dict whose entries for INC-1..INC-5, when present, are
    dicts, [extract_inclusion_result] returns an inclusion_check with
    exactly the five tags in order, each holding exactly "status" (the
    parsed one, "unclear" when absent) and "evidence" (the parsed one,
    None when absent); and [flatten_result] maps that result, for any
    prefix, to exactly the seventeen fixed columns. *)
Theorem extract_and_flatten_fixed_schema (parsed : pydict) (prefix : string) :
  checks_well_typed parsed →
  ∃ result checks flat,
    Layer2.extract_inclusion_result (VDict parsed) = Ok result
    ∧ Py.dict_get result "inclusion_check" = Some (VDict checks)
    ∧ Py.dict_keys checks = inc_tags
    ∧ (∀ tag, tag ∈ inc_tags →
         Py.dict_get checks tag =
           Some (VDict [ ("status", default (VStr "unclear")
                                      (Py.dict_get (entry_of parsed tag) "status"));
                         ("evidence", default VNone
                                        (Py.dict_get (entry_of parsed tag) "evidence")) ]))
    ∧ Layer2.flatten_result result prefix = Ok flat
    ∧ Py.dict_keys flat = fixed_columns prefix
    ∧ NoDup (Py.dict_keys flat)
    ∧ List.length (Py.dict_keys flat) = 17%nat.
Proof.
  intros Htyped.
  assert (∃ result, Layer2.extract_inclusion_result (VDict parsed) = Ok result
            ∧ ∃ checks, Py.dict_get result "inclusion_check" = Some (VDict checks)
            ∧ Py.dict_keys checks = inc_tags
            ∧ ∀ tag, tag ∈ inc_tags →
                Py.dict_get checks tag =
                  Some (VDict [ ("status", default (VStr "unclear")
                                             (Py.dict_get (entry_of parsed tag) "status"));
                                ("evidence", default VNone
                                               (Py.dict_get (entry_of parsed tag) "evidence")) ]))
    as (result & Hresult & checks & Hchecks & Hkeys & Htags).
  { unfold Layer2.extract_inclusion_result. cbn [Py.get pybind].
    rewrite (inclusion_check_typed parsed Htyped). cbn [for_each inc_tags pybind].
    repeat (rewrite extract_tag_typed; [cbn [pybind]|done|set_solver]).
    eexists. split; [reflexivity|]. eexists. split; [reflexivity|]. split; [reflexivity|].
    intros tag Htag. unfold inc_tags in Htag.
    repeat (apply elem_of_cons in Htag as [->|Htag]; [reflexivity|]).
    by apply elem_of_nil in Htag. }
  destruct (extract_result_shaped _ _ Hresult) as (Hshaped & _).
  destruct (flatten_shaped result prefix Hshaped) as (flat & Hflat & Hcols & _).
  exists result, checks, flat. split_and!; try done.
  - rewrite Hcols. apply fixed_columns_NoDup.
  - rewrite Hcols. unfold fixed_columns. by rewrite length_fmap.
Qed.

Lemma extract_and_flatten_fixed_schema_witness :
  checks_well_typed partial_answer ∧
  ∃ result checks flat,
    Layer2.extract_inclusion_result (VDict partial_answer) = Ok result
    ∧ Py.dict_get result "inclusion_check" = Some (VDict checks)
    ∧ Py.dict_keys checks = inc_tags
    ∧ (∀ tag, tag ∈ inc_tags →
         Py.dict_get checks tag =
           Some (VDict [ ("status", default (VStr "unclear")
                                      (Py.dict_get (entry_of partial_answer tag) "status"));
                         ("evidence", default VNone
                                        (Py.dict_get (entry_of partial_answer tag) "evidence")) ]))
    ∧ Layer2.flatten_result result "L2_sonnet" = Ok flat
    ∧ Py.dict_keys flat = fixed_columns "L2_sonnet"
    ∧ NoDup (Py.dict_keys flat)
    ∧ List.length (Py.dict_keys flat) = 17%nat.
Proof.
  assert (checks_well_typed partial_answer) as Htyped.
  { split.
    - intros v Hv. vm_compute in Hv. injection Hv as <-. by eexists.
    - intros tag v Htag Hv. unfold inc_tags in Htag.
      repeat (apply elem_of_cons in Htag as [->|Htag];
              [vm_compute in Hv; first [discriminate Hv | injection Hv as <-; by eexists]|]).
      by apply elem_of_nil in Htag. }
  split; [exact Htyped|].
  exact (extract_and_flatten_fixed_schema partial_answer "L2_sonnet" Htyped).
Defined.

(** ** Where the failure message ends up *)

Section ErrorColumns.
Context `{Externals}.



End ErrorColumns.

(** ** Layer 2 as a whole *)

Lemma sample_layer1_row0 :
  ∃ r0, rows sample_layer1_frame !! 0%nat = Some r0
        ∧ r0 !! "L1_decision" = Some (VStr "pass")
        ∧ "L1_decision" ∈ columns sample_layer1_frame
        ∧ "L2_pro_decision" ∉ columns sample_layer1_frame.
Proof.
  eexists. split; [reflexivity|]. split; [reflexivity|].
  split; apply (bool_decide_unpack _); by vm_compute.
Qed.

(** C4 (as stated, refuted).  Resumed from position 1, [process_layer2]
    hands only the second of the two passed rows to the judges: row 0,
    whose L1_decision is "pass", is not submitted. *)
Lemma process_layer2_resume_skips_passed_rows :
  let out := process_layer2 (H := sample_externals) sample_layer1_frame
               (fun _ => gemini_answers "answer: include")
               (fun _ => claude_answers "answer: exclude") 100 (Some 1%Z) id in
  fst out = Ok tt
  ∧ Pd.where_eq sample_layer1_frame "L1_decision" "pass" = [0; 2]%nat
  ∧ submitted (snd out) = [2]%nat.
Proof. vm_compute. done. Qed.

(** C4 (amended).  On a well-formed Layer 1 output with an L1_decision
    column and a positive batch size, with judges whose vendor calls
    raise nothing but [Exception]s, [process_layer2] completes and
    submits to the two judges exactly the rows whose L1_decision equals
    "pass", in order, leaving out the first [resume_from] of them when
    resuming (none by default).  Every row that is not submitted, be it
    one whose L1_decision is not "pass" or a passed row left out on
    resuming, keeps in every saved output frame the value of each column
    the input had, and holds nothing (None or NaN) under any column added
    by the stage. *)
Theorem process_layer2_submits_passed_rows `{Externals}
    (input_df : DataFrame) (gemini : nat → gemini_model) (claude : nat → claude_client)
    (batch_parallel_size : nat) (resume_from : option Z)
    (as_completed : list nat → list nat) :
  well_formed input_df = true →
  Pd.has_column input_df "L1_decision" = true →
  batch_parallel_size ≠ 0%nat →
  (∀ l, as_completed l ≡ₚ l) →
  (∀ i, well_behaved (gemini i)) →
  (∀ i, well_behaved (claude i)) →
  ∃ st,
    process_layer2 input_df gemini claude batch_parallel_size resume_from as_completed
      = (Ok tt, st)
    ∧ submitted st = slice_from (Pd.where_eq input_df "L1_decision" "pass")
                                (default 0%Z resume_from)
    ∧ (resume_from = None →
       ∀ idx, idx ∈ submitted st ↔
              ∃ r, rows input_df !! idx = Some r ∧ r !! "L1_decision" = Some (VStr "pass"))
    ∧ saved st ≠ []
    ∧ ∀ idx r0 df,
        rows input_df !! idx = Some r0 → idx ∉ submitted st → df ∈ saved st →
        ∃ r, rows df !! idx = Some r
             ∧ (∀ c, c ∈ columns input_df → r !! c = r0 !! c)
             ∧ (∀ c v, c ∉ columns input_df → r !! c = Some v → Pd.isna v = true).
Proof.
  intros Hwf Hcol Hbs Hperm Hgemini Hclaude.
  destruct (process_layer2_submits input_df gemini claude batch_parallel_size resume_from
              as_completed Hgemini Hclaude Hcol Hbs Hperm) as (st & Hrun & Hsub & Hsaved).
  exists st. split_and!; [done..| |done|].
  - intros ->. intros idx. rewrite Hsub.
    change (slice_from ?l (default 0%Z None)) with l. rewrite elem_of_where_eq.
    split; intros (r & Hr & Hpass); exists r; (split; [done|]).
    + apply py_eq_str_r in Hpass. unfold Pd.cell in Hpass.
      destruct (r !! "L1_decision") as [v|]; simpl in Hpass; [by subst|done].
    + unfold Pd.cell. rewrite Hpass. by apply py_eq_str_r.
  - intros idx r0 df Hr0 Hidx Hdf. rewrite Hsub in Hidx.
    pose proof (process_layer2_untouched input_df gemini claude batch_parallel_size
                  resume_from as_completed idx r0 Hwf Hperm Hr0 Hidx) as Hall.
    rewrite Hrun in Hall. cbn [snd] in Hall.
    rewrite Forall_forall in Hall. by destruct (Hall df Hdf) as (_ & r & ? & ? & ?); exists r.
Qed.

Lemma process_layer2_submits_passed_rows_witness :
  well_formed sample_layer1_frame = true ∧
  Pd.has_column sample_layer1_frame "L1_decision" = true ∧
  Pd.where_eq sample_layer1_frame "L1_decision" "pass" = [0; 2]%nat ∧
  ∃ st,
    process_layer2 (H := sample_externals) sample_layer1_frame
      (fun _ => gemini_answers "answer: include") (fun _ => claude_answers "answer: exclude")
      2 (Some 1%Z) id = (Ok tt, st)
    ∧ submitted st = [2]%nat
    ∧ saved st ≠ []
    ∧ ∀ df, df ∈ saved st →
        ∃ r, rows df !! 0%nat = Some r
             ∧ r !! "L1_decision" = Some (VStr "pass")
             ∧ ∀ v, r !! "L2_pro_decision" = Some v → Pd.isna v = true.
Proof.
  split; [reflexivity|]. split; [reflexivity|]. split; [reflexivity|].
  destruct (process_layer2_submits_passed_rows (H := sample_externals) sample_layer1_frame
              (fun _ => gemini_answers "answer: include")
              (fun _ => claude_answers "answer: exclude") 2 (Some 1%Z) id)
    as (st & Hrun & Hsub & _ & Hsaved & Hframe);
    [reflexivity|reflexivity|lia|reflexivity
    |intros _; apply gemini_answers_well_behaved
    |intros _; apply claude_answers_well_behaved|].
  exists st. split; [exact Hrun|]. split; [exact Hsub|]. split; [exact Hsaved|].
  intros df Hdf.
  destruct (sample_layer1_row0) as (r0 & Hr0 & Hpass & Hcols & Hnew).
  destruct (Hframe 0%nat r0 df Hr0) as (r & Hr & Hold & Hadded); [|exact Hdf|].
  { rewrite Hsub. by intros ?%list_elem_of_singleton. }
  exists r. split; [exact Hr|]. split.
  - rewrite (Hold "L1_decision" Hcols). exact Hpass.
  - intros v. apply Hadded, Hnew.
Defined.




(** ** Layer 1 as a whole *)

(** C10 (the code departs from it).  A record whose title field is empty
    in the input CSV reaches [process_screening] with NaN in its title
    cell; [str] turns that into the text "nan", which is not blank, so the
    record is submitted to the vendor and gets the vendor's decision
    instead of "pass" with "No title available". *)
Theorem empty_title_field_is_sent_to_the_vendor :
  let out := process_screening (H := sample_externals) untitled_records None ""
               (fun _ => gemini_answers "answer: exclude") 50 None in
  fst out = Ok tt
  ∧ final_cell (snd out) 0 "title" = Some VNaN
  ∧ py_str (H := sample_externals) VNaN = "nan"
  ∧ Py.is_blank "nan" = false
  ∧ submitted (snd out) = [0]%nat
  ∧ final_cell (snd out) 0 "L1_decision" = Some (VStr "exclude")
  ∧ final_cell (snd out) 0 "L1_reasoning" = Some (VStr "animal study").
Proof. vm_compute. done. Qed.

(** C6 (the code departs from it).  A first run over two records saves
    after its first batch a frame in which record 0 is excluded.  Resumed
    with [--resume 1] against that output, the stage starts again from
    the input file: it screens only record 1, but every frame it saves
    shows record 0 with an empty L1_decision, so the saved "exclude" is
    lost.  Resumed through the prompt (answer "y"), the same output is
    taken over and record 0 keeps its decision. *)
Theorem resume_flag_discards_saved_rows :
  let first_run := process_screening (H := sample_externals) sample_records None ""
                     sample_flash 1 None in
  let output_csv := head (saved (snd first_run)) in
  let resumed := process_screening (H := sample_externals) sample_records output_csv ""
                   sample_flash 1 (Some 1%nat) in
  let prompted := process_screening (H := sample_externals) sample_records output_csv "y"
                    sample_flash 1 None in
  ((fun df => frame_cell df 0 "L1_decision") <$> output_csv) = Some (Some (VStr "exclude"))
  ∧ fst resumed = Ok tt
  ∧ submitted (snd resumed) = [1]%nat
  ∧ ((fun df => frame_cell df 0 "L1_decision") <$> saved (snd resumed))
    = [Some VNone; Some VNone]
  ∧ final_cell (snd resumed) 1 "L1_decision" = Some (VStr "pass")
  ∧ submitted (snd prompted) = [1]%nat
  ∧ final_cell (snd prompted) 0 "L1_decision" = Some (VStr "exclude").
Proof. vm_compute. done. Qed.

(** ** Layer 1: what a resumed run leaves alone *)

(** With [--resume N] the output file and the user's answer play no part:
    the run is the one that starts from the input file alone. *)
Lemma resume_flag_ignores_output `{Externals} (input_df : DataFrame)
    (existing : option DataFrame) (answer : string) (model : nat → gemini_model)
    (batch_size n : nat) :
  process_screening input_df existing answer model batch_size (Some n)
  = process_screening input_df None "" model batch_size (Some n).
Proof. reflexivity. Qed.

Section Layer1Frame.
Context `{Externals}.
Context (J : DataFrame → Prop) (idx start : nat).
Context (J_at_set : ∀ df j k v, idx ≠ j → J df → J (Pd.at_set df j k v)).

Lemma resumed_at_set (j : nat) (k : string) (v : pyval) :
  idx ≠ j → keeps (resumed_inv J start) (at_set j k v) (fun _ => True).
Proof.
  intros Hj st [[Hf Hs] Hsub]. split; [|done].
  split; [split|]; simpl; [by apply J_at_set|done..].
Qed.

Lemma resumed_to_csv : keeps (resumed_inv J start) to_csv (fun _ => True).
Proof.
  intros st [[Hf Hs] Hsub]. split; [|done]. split; [split|]; simpl; [done| |done].
  apply Forall_app. split; [done|]. by apply Forall_singleton.
Qed.

Lemma resumed_submit (j : nat) : (start ≤ j)%nat → keeps (resumed_inv J start) (submit j) (fun _ => True).
Proof.
  intros Hj st [[Hf Hs] Hsub]. split; [|done]. split; [split|]; simpl; [done..|].
  apply Forall_app. split; [done|]. by apply Forall_singleton.
Qed.

Lemma resumed_get_frame : keeps (resumed_inv J start) get_frame (fun _ => True).
Proof. by intros st Hst. Qed.

Lemma store_result_keeps (j : nat) (result : pydict) :
  idx ≠ j → keeps (resumed_inv J start) (store_result j result) (fun _ => True).
Proof.
  intros Hj. unfold store_result.
  repeat first
    [ apply resumed_at_set; done
    | eapply keeps_bind; [first [apply keeps_lift | apply resumed_at_set; done]|intros ? _] ].
Qed.

Lemma collect_keeps (entry : nat * pyres pydict) :
  idx ≠ fst entry → keeps (resumed_inv J start) (collect entry) (fun _ => True).
Proof.
  destruct entry as [j future]. simpl. intros Hj. unfold collect.
  apply keeps_try.
  - eapply keeps_bind; [apply keeps_lift|intros result _]. by apply store_result_keeps.
  - intros e. by apply resumed_at_set.
Qed.

Lemma submit_row_keeps (model : nat → gemini_model) (j : nat) :
  idx ≠ j → (start ≤ j)%nat →
  keeps (resumed_inv J start) (submit_row model j) (Forall (fun entry => idx ≠ fst entry)).
Proof.
  intros Hj Hstart. unfold submit_row.
  eapply keeps_bind; [apply resumed_get_frame|intros df _].
  eapply keeps_bind; [apply keeps_lift|intros row _].
  case_match.
  - eapply keeps_bind; [by apply resumed_at_set|intros _ _].
    eapply keeps_bind; [by apply resumed_at_set|intros _ _].
    eapply keeps_bind; [by apply resumed_at_set|intros _ _].
    eapply keeps_weaken; [apply keeps_ret|]. by intros ? ->.
  - eapply keeps_bind; [by apply resumed_submit|intros _ _].
    eapply keeps_weaken; [apply keeps_ret|]. intros ? ->.
    by apply Forall_singleton.
Qed.

Lemma process_batch_keeps (model : nat → gemini_model) (total_records batch_size : nat)
    (batch_start : nat) :
  (idx < start)%nat → (start ≤ batch_start)%nat →
  keeps (resumed_inv J start) (process_batch model total_records batch_size batch_start)
        (fun _ => True).
Proof.
  intros Hidx Hstart. unfold process_batch.
  eapply keeps_bind.
  - apply keeps_gather. intros j Hj. apply elem_of_seq in Hj.
    apply submit_row_keeps; lia.
  - intros futures Hfutures.
    eapply keeps_bind; [|intros _ _; apply resumed_to_csv].
    apply keeps_for. intros entry Hentry. apply collect_keeps.
    rewrite Forall_forall in Hfutures. by apply Hfutures.
Qed.

End Layer1Frame.

Lemma elem_of_py_range (start stop step j : nat) :
  j ∈ py_range start stop step → (start ≤ j)%nat.
Proof.
  unfold py_range. intros Hj. apply list_elem_of_fmap in Hj as (k & -> & _). lia.
Qed.

(** X12.  Rows below the starting point are never submitted, and every saved
    frame shows them as the frame the run starts from had them. *)
Lemma process_screening_leaves_earlier_rows `{Externals} (input_df : DataFrame)
    (existing : option DataFrame) (answer : string) (model : nat → gemini_model)
    (batch_size : nat) (resume_from : option nat)
    (idx : nat) (r0 : gmap string pyval) :
  let start := starting_point (init_columns L1_new_columns input_df)
                              existing answer resume_from in
  let out := process_screening input_df existing answer model batch_size resume_from in
  well_formed (fst start) = true →
  rows (fst start) !! idx = Some r0 →
  (idx < snd start)%nat →
  Forall (fun j => (snd start ≤ j)%nat) (submitted (snd out)) ∧
  Forall (untouched (columns (fst start)) r0 idx) (saved (snd out)).
Proof.
  intros start out Hwf Hr0 Hidx. subst out. unfold process_screening.
  fold start. destruct start as [df0 n]. cbn [fst snd] in *.
  set (J := untouched (columns df0) r0 idx).
  assert (∀ (m : M unit) st, keeps (resumed_inv J n) m (fun _ => True) →
            resumed_inv J n st →
            Forall (fun j => (n ≤ j)%nat) (submitted (snd (m st))) ∧
            Forall J (saved (snd (m st)))) as Hkeep.
  { intros m st Hm Hst. by destruct (Hm st Hst) as [[[_ ?] ?] _]. }
  apply Hkeep.
  - eapply keeps_bind; [apply keeps_lift|intros _ _].
    apply keeps_bind with (post1 := fun _ => True); [|intros _ _].
    + destruct (batch_size =? 0)%nat.
      * eapply keeps_weaken; [apply keeps_lift|done].
      * apply keeps_for. intros b Hb. apply elem_of_py_range in Hb.
        apply (process_batch_keeps J idx n); [|done..].
        intros df j k v Hj. by apply untouched_at_set.
    + eapply keeps_bind; [apply resumed_to_csv|intros _ _].
      eapply keeps_weaken; [apply keeps_lift|done].
  - split; [split|]; cbn [frame saved submitted]; [|by apply Forall_nil_2..].
    by apply untouched_start.
Qed.

(** ** Layer 1: the title test *)

Section TitleTest.
Context `{Externals}.

(** A title cell holding a blank string, or no title column at all: the
    row is settled as "pass" on the spot and nothing is submitted. *)
Lemma blank_title_settled_without_call (model : nat → gemini_model) (idx : nat)
    (st : run) (row : gmap string pyval) :
  rows (frame st) !! idx = Some row →
  Py.is_blank (py_str (Pd.row_get row "title" (VStr ""))) = true →
  ∃ st', submit_row model idx st = (Ok [], st')
         ∧ submitted st' = submitted st
         ∧ rows (frame st') !! idx =
             Some (<["L1_timestamp" := VStr (now_isoformat idx)]>
                     (<["L1_reasoning" := VStr "No title available"]>
                        (<["L1_decision" := VStr "pass"]> row))).
Proof.
  intros Hrow Hblank. unfold submit_row, st_bind, get_frame, st_lift, Pd.iloc.
  rewrite Hrow, Hblank. eexists. split; [reflexivity|]. split; [reflexivity|].
  cbn [frame]. by repeat (erewrite at_set_row_eq; [reflexivity|]).
Qed.

(** A title cell holding NaN, as an empty CSV field is read: the row is
    submitted under the title "nan". *)
Lemma nan_title_submitted (model : nat → gemini_model) (idx : nat)
    (st : run) (row : gmap string pyval) :
  rows (frame st) !! idx = Some row →
  row !! "title" = Some VNaN →
  ∃ future st', submit_row model idx st = (Ok [(idx, future)], st')
                ∧ submitted st' = submitted st ++ [idx]
                ∧ frame st' = frame st.
Proof.
  intros Hrow Htitle. unfold submit_row, st_bind, get_frame, st_lift, Pd.iloc, Pd.row_get.
  rewrite Hrow, Htitle. cbn [from_option id py_str].
  change (Py.is_blank "nan") with false. cbn beta iota.
  eexists _, _. split; [reflexivity|]. split; reflexivity.
Qed.

End TitleTest.

(** ** Layer 1: the run completes and saves after every batch *)

Section OnlyExceptions.
Context `{Externals}.







End OnlyExceptions.

Section Succeeds.
Context (P : run → Prop).






End Succeeds.

Section Layer1Total.
Context `{Externals}.
Context (n : nat) (s0 : list DataFrame).







End Layer1Total.

Section Layer1Saves.
Context `{Externals}.




End Layer1Saves.

(** * Further properties *)

(** ** Layer 1 screener: the first answer ends the loop *)

Section FirstAnswer.
Context `{Externals}.

Lemma seq_split_at (k n : nat) :
  (k < n)%nat → seq 0 n = seq 0 k ++ k :: seq (S k) (n - S k).
Proof.
  intros Hk. replace n with (k + S (n - S k))%nat at 1 by lia.
  by rewrite seq_app.
Qed.

Lemma layer1_loop_app (model : gemini_model) (prompt : string) (max_retries : Z)
    (xs ys : list nat) (calls : nat) :
  (∀ n, n ∈ xs → try_except (Layer1.try_body max_retries n (model prompt n))
                            (Layer1.handler max_retries n) = Ok Continue) →
  Layer1.retry_loop model prompt max_retries (xs ++ ys) calls
  = Layer1.retry_loop model prompt max_retries ys (calls + List.length xs).
Proof.
  revert calls. induction xs as [|x xs IH]; intros calls Hxs; simpl.
  - f_equal. lia.
  - rewrite Hxs by left. rewrite IH by (intros n Hn; apply Hxs; by right).
    f_equal. lia.
Qed.

Lemma layer1_failed_early (max_retries : Z) (n : nat) (o : outcome gemini_response) :
  gemini_fails o → (Z.of_nat n < max_retries - 1)%Z →
  try_except (Layer1.try_body max_retries n o) (Layer1.handler max_retries n) = Ok Continue.
Proof.
  intros Hfail Hn. apply Z.ltb_lt in Hn.
  unfold try_except, Layer1.try_body, Layer1.handler, pybind, call.
  destruct o as [e|r]; simpl in *.
  - by rewrite Hfail, Hn.
  - rewrite Hfail, has_decision_none.
    destruct (gemini_tokens r) as [[a b] c]; cbn. by rewrite Hn.
Qed.

Lemma has_decision_dict (p : pydict) :
  Py.dict_has p "decision" = true → has_decision (VDict p) = Ok true.
Proof.
  unfold has_decision. intros Hp. destruct p as [|kv p]; [done|]. simpl. by rewrite Hp.
Qed.

End FirstAnswer.

(** X1.  The first attempt that yields an answer with a decision ends the
    Layer 1 retry loop: after [k] failed attempts the screener has
    called the vendor [k + 1] times and returns the fields of that
    answer, with no error. *)
Theorem layer1_first_answer_wins `{Externals} (model : gemini_model)
    (title abstract : string) (record_id : option string) (max_retries : Z)
    (k : nat) (r : gemini_response) (p : pydict) :
  (Z.of_nat k < max_retries)%Z →
  (∀ n, (n < k)%nat → gemini_fails (model (format_layer1_prompt title abstract) n)) →
  model (format_layer1_prompt title abstract) k = CallReturns r →
  parse_json_response (gemini_text r) = VDict p →
  Py.dict_has p "decision" = true →
  ∃ d, Layer1.screen_record_layer1 model title abstract record_id max_retries = (Ok d, S k)
       ∧ Py.dict_get d "decision" = Py.dict_get p "decision"
       ∧ Py.dict_get d "exclusion_tags" = Some (default (VList []) (Py.dict_get p "exclusion_tags"))
       ∧ Py.dict_get d "evidence" = Some (default VNone (Py.dict_get p "evidence"))
       ∧ Py.dict_get d "reasoning" = Some (default VNone (Py.dict_get p "reasoning"))
       ∧ Py.dict_get d "error" = Some VNone
       ∧ Py.dict_get d "raw_response" = Some (VStr (Py.str_take 500 (gemini_text r))).
Proof.
  intros Hk Hfail Hcall Hparse Hdec.
  unfold Layer1.screen_record_layer1.
  rewrite (seq_split_at k (Z.to_nat max_retries)) by lia.
  rewrite layer1_loop_app.
  2:{ intros n Hn. apply elem_of_seq in Hn. apply layer1_failed_early; [apply Hfail|]; lia. }
  rewrite length_seq. simpl. rewrite Hcall.
  unfold try_except, Layer1.try_body, pybind, call. rewrite Hparse.
  destruct (gemini_tokens r) as [[a b] c].
  rewrite (has_decision_dict p Hdec). cbn [Py.get].
  eexists. split; [reflexivity|].
  apply dict_has_true in Hdec as [v Hv]. rewrite Hv. cbn.
  split_and!; reflexivity.
Qed.

(** ** The judges: the first answer ends the loop *)

Section ExtractExplicit.
Context `{Externals}.

Lemma extract_typed (parsed : pydict) :
  checks_well_typed parsed →
  Layer2.extract_inclusion_result (VDict parsed) =
    Ok [ ("decision", default (VStr "include") (Py.dict_get parsed "decision"));
         ("confidence", default (VStr "low") (Py.dict_get parsed "confidence"));
         ("reasoning", default VNone (Py.dict_get parsed "reasoning"));
         ("inclusion_check",
          VDict ((fun tag =>
                    (tag, VDict [ ("status", default (VStr "unclear")
                                               (Py.dict_get (entry_of parsed tag) "status"));
                                  ("evidence", default VNone
                                                 (Py.dict_get (entry_of parsed tag) "evidence")) ]))
                 <$> inc_tags));
         ("error", VNone) ].
Proof.
  intros Htyped.
  unfold Layer2.extract_inclusion_result. cbn [Py.get pybind].
  rewrite (inclusion_check_typed parsed Htyped). cbn [for_each inc_tags pybind].
  repeat (rewrite extract_tag_typed; [cbn [pybind]|done|set_solver]).
  reflexivity.
Qed.

Lemma layer2_loop_app {R} (try_body : outcome R → pyres loop_step)
    (vendor : nat → outcome R) (max_retries : Z) (xs ys : list nat) (calls : nat) :
  (∀ n, n ∈ xs → try_except (try_body (vendor n)) (Layer2.handler max_retries n) = Ok Continue) →
  Layer2.retry_loop try_body vendor max_retries (xs ++ ys) calls
  = Layer2.retry_loop try_body vendor max_retries ys (calls + List.length xs).
Proof.
  revert calls. induction xs as [|x xs IH]; intros calls Hxs; simpl.
  - f_equal. lia.
  - rewrite Hxs by left. rewrite IH by (intros n Hn; apply Hxs; by right).
    f_equal. lia.
Qed.

Lemma gemini_failed_early (max_retries : Z) (n : nat) (o : outcome gemini_response) :
  gemini_fails o → (Z.of_nat n < max_retries - 1)%Z →
  try_except (Layer2.gemini_try_body o) (Layer2.handler max_retries n) = Ok Continue.
Proof.
  intros Hfail Hn. apply Z.ltb_lt in Hn.
  unfold try_except, Layer2.gemini_try_body, Layer2.handler, pybind, call.
  destruct o as [e|r]; simpl in *.
  - by rewrite Hfail, Hn.
  - rewrite Hfail, has_decision_none.
    by destruct (gemini_tokens r) as [[a b] c].
Qed.

Lemma claude_failed_early (max_retries : Z) (n : nat) (o : outcome claude_message) :
  claude_fails o → (Z.of_nat n < max_retries - 1)%Z →
  try_except (Layer2.claude_try_body o) (Layer2.handler max_retries n) = Ok Continue.
Proof.
  intros Hfail Hn. apply Z.ltb_lt in Hn.
  unfold try_except, Layer2.claude_try_body, Layer2.handler, pybind, call.
  destruct o as [e|m]; simpl in *.
  - by rewrite Hfail, Hn.
  - destruct (Layer2.scan_blocks (content m)) as [response_text thinking_text]; simpl in *.
    by rewrite Hfail, has_decision_none.
Qed.

End ExtractExplicit.

(** X3.  The first attempt at which a judge answers with a decision and
    well-typed checks ends its retry loop: after [k] failed attempts the
    judge has called its vendor [k + 1] times and returns the decision,
    confidence and reasoning of that answer ("include", "low" and None
    where the answer has none), with no error; Claude's result also
    carries the first 1000 characters of the thinking block. *)
Theorem judges_first_answer_wins `{Externals} (pro : gemini_model) (client : claude_client)
    (title abstract : string) (record_id : option string) (max_retries : Z)
    (k : nat) (p : pydict) :
  (Z.of_nat k < max_retries)%Z →
  Py.dict_has p "decision" = true →
  checks_well_typed p →
  (∀ r,
     (∀ n, (n < k)%nat → gemini_fails (pro (format_layer2_prompt title abstract) n)) →
     pro (format_layer2_prompt title abstract) k = CallReturns r →
     parse_json_response (gemini_text r) = VDict p →
     ∃ d, Layer2.screen_with_gemini_pro pro title abstract record_id max_retries = (Ok d, S k)
          ∧ Py.dict_get d "decision" = Py.dict_get p "decision"
          ∧ Py.dict_get d "confidence" = Some (default (VStr "low") (Py.dict_get p "confidence"))
          ∧ Py.dict_get d "reasoning" = Some (default VNone (Py.dict_get p "reasoning"))
          ∧ Py.dict_get d "error" = Some VNone
          ∧ Py.dict_get d "raw_response" = Some (VStr (Py.str_take 500 (gemini_text r)))) ∧
  (∀ m,
     (∀ n, (n < k)%nat → claude_fails (client (format_layer2_prompt title abstract) n)) →
     client (format_layer2_prompt title abstract) k = CallReturns m →
     parse_json_response (fst (Layer2.scan_blocks (content m))) = VDict p →
     ∃ d, Layer2.screen_with_claude client title abstract record_id max_retries = (Ok d, S k)
          ∧ Py.dict_get d "decision" = Py.dict_get p "decision"
          ∧ Py.dict_get d "confidence" = Some (default (VStr "low") (Py.dict_get p "confidence"))
          ∧ Py.dict_get d "reasoning" = Some (default VNone (Py.dict_get p "reasoning"))
          ∧ Py.dict_get d "error" = Some VNone
          ∧ Py.dict_get d "thinking"
            = Some (VStr (Py.str_take 1000 (snd (Layer2.scan_blocks (content m)))))
          ∧ Py.dict_get d "total_tokens"
            = Some (VInt (usage_input_tokens m + usage_output_tokens m))).
Proof.
  intros Hk Hdec Htyped. split.
  - intros r Hfail Hcall Hparse.
    unfold Layer2.screen_with_gemini_pro.
    rewrite (seq_split_at k (Z.to_nat max_retries)) by lia.
    rewrite layer2_loop_app.
    2:{ intros n Hn. apply elem_of_seq in Hn. apply gemini_failed_early; [apply Hfail|]; lia. }
    rewrite length_seq. simpl. rewrite Hcall.
    unfold try_except, Layer2.gemini_try_body, pybind, call. rewrite Hparse.
    destruct (gemini_tokens r) as [[a b] c].
    rewrite (has_decision_dict p Hdec), (extract_typed p Htyped).
    eexists. split; [reflexivity|].
    apply dict_has_true in Hdec as [v Hv]. rewrite Hv. cbn.
    split_and!; reflexivity.
  - intros m Hfail Hcall Hparse.
    unfold Layer2.screen_with_claude.
    rewrite (seq_split_at k (Z.to_nat max_retries)) by lia.
    rewrite layer2_loop_app.
    2:{ intros n Hn. apply elem_of_seq in Hn. apply claude_failed_early; [apply Hfail|]; lia. }
    rewrite length_seq. simpl. rewrite Hcall.
    unfold try_except, Layer2.claude_try_body, pybind, call.
    destruct (Layer2.scan_blocks (content m)) as [response_text thinking_text]; simpl in *.
    rewrite Hparse.
    rewrite (has_decision_dict p Hdec), (extract_typed p Htyped).
    eexists. split; [reflexivity|].
    apply dict_has_true in Hdec as [v Hv]. rewrite Hv. cbn.
    split_and!; try reflexivity.
    destruct thinking_text; reflexivity.
Qed.

(** ** The screeners after the last failed attempt *)

Section LastFailure.
Context `{Externals}.

Lemma seq_split_last (n : nat) : (0 < n)%nat → seq 0 n = seq 0 (n - 1) ++ [(n - 1)%nat].
Proof.
  intros Hn. replace n with (n - 1 + 1)%nat at 1 by lia. by rewrite seq_app.
Qed.

Lemma layer2_loop_all_fail {R} (try_body : outcome R → pyres loop_step)
    (vendor : nat → outcome R) (max_retries : Z) :
  (0 < max_retries)%Z →
  (∀ n e, (n < Z.to_nat max_retries)%nat → try_body (vendor n) = Raise e →
          is_exception e = true) →
  (∀ n d, (n < Z.to_nat max_retries)%nat → try_body (vendor n) ≠ Ok (Return d)) →
  Layer2.retry_loop try_body vendor max_retries (seq 0 (Z.to_nat max_retries)) 0
  = (Ok match try_body (vendor (Z.to_nat max_retries - 1)%nat) with
        | Raise e => Layer2.error_result e
        | Ok _ => Layer2.max_retries_result
        end, Z.to_nat max_retries).
Proof.
  intros Hpos Hexn Hfail.
  rewrite (seq_split_last (Z.to_nat max_retries)) by lia.
  rewrite layer2_loop_app.
  - rewrite length_seq. simpl.
    specialize (Hfail (Z.to_nat max_retries - 1)%nat).
    specialize (Hexn (Z.to_nat max_retries - 1)%nat).
    unfold try_except, Layer2.handler.
    destruct (try_body (vendor (Z.to_nat max_retries - 1)%nat)) as [[d|]|e].
    + by destruct (Hfail d); [lia|].
    + f_equal. lia.
    + rewrite (Hexn e) by (lia || done).
      destruct (Z.ltb_spec (Z.of_nat (Z.to_nat max_retries - 1)) (max_retries - 1)); [lia|].
      f_equal. lia.
  - intros n Hn. apply elem_of_seq in Hn.
    specialize (Hfail n). specialize (Hexn n). unfold try_except, Layer2.handler.
    destruct (try_body (vendor n)) as [[d|]|e].
    + by destruct (Hfail d); [lia|].
    + done.
    + rewrite (Hexn e) by (lia || done).
      destruct (Z.ltb_spec (Z.of_nat n) (max_retries - 1)); [done|lia].
Qed.




End LastFailure.



(** X2.  When every attempt of the Layer 1 screener fails, the vendor has been
    called [max_retries] times and only the last failure is reported: its
    exception text when the last call raised, the text "Invalid JSON: "
    with the first 200 characters of the answer when the last answer did
    not parse. *)
Theorem layer1_reports_last_failure `{Externals} (model : gemini_model)
    (title abstract : string) (record_id : option string) (max_retries : Z) :
  (0 < max_retries)%Z →
  (∀ n, (n < Z.to_nat max_retries)%nat →
        gemini_fails (model (format_layer1_prompt title abstract) n)) →
  ∃ d, Layer1.screen_record_layer1 model title abstract record_id max_retries
         = (Ok d, Z.to_nat max_retries)
       ∧ Py.dict_get d "decision" = Some (VStr "pass")
       ∧ Py.dict_get d "exclusion_tags" = Some (VList [])
       ∧ match model (format_layer1_prompt title abstract) (Z.to_nat max_retries - 1)%nat with
         | CallRaises e =>
             Py.dict_get d "error" = Some (VStr (exn_str e))
             ∧ Py.dict_get d "reasoning" = Some VNone
             ∧ Py.dict_get d "raw_response" = Some VNone
         | CallReturns r =>
             Py.dict_get d "error"
               = Some (VStr ("Invalid JSON: " +:+ Py.str_take 200 (gemini_text r)))
             ∧ Py.dict_get d "reasoning" = Some (VStr "JSON parsing failed")
             ∧ Py.dict_get d "raw_response" = Some (VStr (Py.str_take 500 (gemini_text r)))
         end.
Proof.
  intros Hpos Hfail.
  unfold Layer1.screen_record_layer1.
  rewrite (seq_split_last (Z.to_nat max_retries)) by lia.
  rewrite layer1_loop_app.
  2:{ intros n Hn. apply elem_of_seq in Hn. apply layer1_failed_early; [apply Hfail|]; lia. }
  rewrite length_seq. simpl.
  specialize (Hfail (Z.to_nat max_retries - 1)%nat ltac:(lia)).
  unfold try_except, Layer1.try_body, Layer1.handler, pybind, call.
  destruct (Z.ltb_spec (Z.of_nat (Z.to_nat max_retries - 1)) (max_retries - 1)); [lia|].
  destruct (model _ (Z.to_nat max_retries - 1)%nat) as [e|r]; simpl in *.
  - rewrite Hfail. eexists. split; [f_equal; lia|]. cbn. split_and!; reflexivity.
  - rewrite Hfail, has_decision_none.
    destruct (gemini_tokens r) as [[a b] c]; cbn.
    eexists. split; [f_equal; lia|]. cbn. split_and!; reflexivity.
Qed.

(** X4.  When every attempt of a judge fails, its vendor has been called
    [max_retries] times and the judge answers "include" with confidence
    "low"; only the last failure is reported: its exception text when the
    last call raised, "Max retries" when the last answer did not parse. *)
Theorem judges_report_last_failure `{Externals} (pro : gemini_model) (client : claude_client)
    (title abstract : string) (record_id : option string) (max_retries : Z) :
  (0 < max_retries)%Z →
  ((∀ n, (n < Z.to_nat max_retries)%nat →
         gemini_fails (pro (format_layer2_prompt title abstract) n)) →
   ∃ d, Layer2.screen_with_gemini_pro pro title abstract record_id max_retries
          = (Ok d, Z.to_nat max_retries)
        ∧ Py.dict_get d "decision" = Some (VStr "include")
        ∧ Py.dict_get d "confidence" = Some (VStr "low")
        ∧ match pro (format_layer2_prompt title abstract) (Z.to_nat max_retries - 1)%nat with
          | CallRaises e =>
              Py.dict_get d "error" = Some (VStr (exn_str e))
              ∧ Py.dict_get d "reasoning" = Some VNone
          | CallReturns _ =>
              Py.dict_get d "error" = Some (VStr "Max retries")
              ∧ Py.dict_get d "reasoning" = Some (VStr "Parsing failed")
          end) ∧
  ((∀ n, (n < Z.to_nat max_retries)%nat →
         claude_fails (client (format_layer2_prompt title abstract) n)) →
   ∃ d, Layer2.screen_with_claude client title abstract record_id max_retries
          = (Ok d, Z.to_nat max_retries)
        ∧ Py.dict_get d "decision" = Some (VStr "include")
        ∧ Py.dict_get d "confidence" = Some (VStr "low")
        ∧ match client (format_layer2_prompt title abstract) (Z.to_nat max_retries - 1)%nat with
          | CallRaises e =>
              Py.dict_get d "error" = Some (VStr (exn_str e))
              ∧ Py.dict_get d "reasoning" = Some VNone
          | CallReturns _ =>
              Py.dict_get d "error" = Some (VStr "Max retries")
              ∧ Py.dict_get d "reasoning" = Some (VStr "Parsing failed")
          end).
Proof.
  intros Hpos. split; intros Hfail.
  - unfold Layer2.screen_with_gemini_pro.
    rewrite layer2_loop_all_fail; [|done| |].
    2:{ intros n e Hn. apply gemini_body_is_exception, gemini_fails_raises, Hfail, Hn. }
    2:{ intros n d Hn. apply gemini_body_failed, Hfail, Hn. }
    eexists. split; [reflexivity|].
    specialize (Hfail (Z.to_nat max_retries - 1)%nat ltac:(lia)).
    destruct (pro _ (Z.to_nat max_retries - 1)%nat) as [e|r]; simpl in *.
    + split_and!; reflexivity.
    + unfold Layer2.gemini_try_body, pybind. simpl. rewrite Hfail, has_decision_none.
      destruct (gemini_tokens r) as [[a b] c]. split_and!; reflexivity.
  - unfold Layer2.screen_with_claude.
    rewrite layer2_loop_all_fail; [|done| |].
    2:{ intros n e Hn. apply claude_body_is_exception, claude_fails_raises, Hfail, Hn. }
    2:{ intros n d Hn. apply claude_body_failed, Hfail, Hn. }
    eexists. split; [reflexivity|].
    specialize (Hfail (Z.to_nat max_retries - 1)%nat ltac:(lia)).
    destruct (client _ (Z.to_nat max_retries - 1)%nat) as [e|m]; simpl in *.
    + split_and!; reflexivity.
    + unfold Layer2.claude_try_body, pybind. simpl.
      destruct (Layer2.scan_blocks (content m)) as [response_text thinking_text]; simpl in *.
      rewrite Hfail, has_decision_none. split_and!; reflexivity.
Qed.

(** X5.  A judge answer that carries a decision but whose "inclusion_check" is
    not a dict counts as a failed attempt: when every attempt brings such
    an answer, the judge discards the decisions it was given and answers
    "include" with confidence "low", and the error it reports is the
    attribute error of the last answer. *)
Theorem judge_discards_answers_with_ill_typed_checks `{Externals} (pro : gemini_model)
    (title abstract : string) (record_id : option string) (max_retries : Z)
    (answer : nat → gemini_response) (p : nat → pydict) (v : nat → pyval) :
  (0 < max_retries)%Z →
  (∀ n, (n < Z.to_nat max_retries)%nat →
        pro (format_layer2_prompt title abstract) n = CallReturns (answer n)
        ∧ parse_json_response (gemini_text (answer n)) = VDict (p n)
        ∧ Py.dict_has (p n) "decision" = true
        ∧ Py.dict_get (p n) "inclusion_check" = Some (v n)
        ∧ ∀ ic, v n ≠ VDict ic) →
  ∃ d, Layer2.screen_with_gemini_pro pro title abstract record_id max_retries
         = (Ok d, Z.to_nat max_retries)
       ∧ Py.dict_get d "decision" = Some (VStr "include")
       ∧ Py.dict_get d "confidence" = Some (VStr "low")
       ∧ Py.dict_get d "error"
         = Some (VStr ("'" +:+ Py.type_name (v (Z.to_nat max_retries - 1)%nat)
                       +:+ "' object has no attribute 'get'")).
Proof.
  intros Hpos Hans.
  assert (∀ n, (n < Z.to_nat max_retries)%nat →
            Layer2.gemini_try_body (pro (format_layer2_prompt title abstract) n)
            = Raise (AttributeError (Py.type_name (v n)) "get")) as Hbody.
  { intros n Hn. destruct (Hans n Hn) as (-> & Hparse & Hdec & Hic & Hv).
    unfold Layer2.gemini_try_body, pybind, call. rewrite Hparse.
    destruct (gemini_tokens (answer n)) as [[a b] c].
    rewrite (has_decision_dict _ Hdec).
    unfold Layer2.extract_inclusion_result. cbn [Py.get pybind]. rewrite Hic.
    cbn [default from_option id for_each inc_tags pybind].
    unfold Layer2.extract_tag at 1. 
    destruct (v n) as [| | | | |l|ic]; try reflexivity.
    by destruct (Hv ic). }
  unfold Layer2.screen_with_gemini_pro.
  rewrite layer2_loop_all_fail; [|done| |].
  2:{ intros n e Hn. rewrite Hbody by done. by intros [= <-]. }
  2:{ intros n d Hn. by rewrite Hbody. }
  rewrite Hbody by lia.
  eexists. split; [reflexivity|]. split_and!; reflexivity.
Qed.

(** ** When [extract_inclusion_result] and [flatten_result] return *)

Lemma for_each_ok_inv {A S} (f : S → A → pyres S) (xs : list A) (acc r : S) :
  for_each xs acc f = Ok r → ∀ x, x ∈ xs → ∃ a a', f a x = Ok a'.
Proof.
  revert acc. induction xs as [|y xs IH]; intros acc Hrun x Hx; [by apply elem_of_nil in Hx|].
  simpl in Hrun. unfold pybind in Hrun.
  destruct (f acc y) as [acc'|e] eqn:Hy; [|done].
  apply elem_of_cons in Hx as [->|Hx]; [by eexists _, _|]. by eapply IH.
Qed.

Lemma for_each_raise_inv {A S} (f : S → A → pyres S) (xs : list A) (acc : S) (e : exn) :
  for_each xs acc f = Raise e → ∃ x a, x ∈ xs ∧ f a x = Raise e.
Proof.
  revert acc. induction xs as [|y xs IH]; intros acc Hrun; [done|].
  simpl in Hrun. unfold pybind in Hrun.
  destruct (f acc y) as [acc'|e'] eqn:Hy.
  - destruct (IH _ Hrun) as (x & a & Hx & Hf). exists x, a. split; [by right|done].
  - simplify_eq. exists y, acc. split; [by left|done].
Qed.

Section Outcomes.
Context `{Externals}.

Lemma py_get_raise (v : pyval) (k : string) (dflt : pyval) (e : exn) :
  Py.get v k dflt = Raise e → e = AttributeError (Py.type_name v) "get" ∧ ∀ d, v ≠ VDict d.
Proof. destruct v; simpl; intros Hrun; by simplify_eq. Qed.

Lemma py_get_ok (v : pyval) (k : string) (dflt r : pyval) :
  Py.get v k dflt = Ok r → ∃ d, v = VDict d.
Proof. destruct v; simpl; intros Hrun; simplify_eq. by eexists. Qed.

Lemma extract_tag_ok_inv (ic acc acc' : pydict) (tag : string) :
  Layer2.extract_tag (VDict ic) acc tag = Ok acc' →
  ∀ v, Py.dict_get ic tag = Some v → ∃ e, v = VDict e.
Proof.
  unfold Layer2.extract_tag. cbn [Py.get pybind]. intros Hrun v Hv. rewrite Hv in Hrun.
  cbn in Hrun. destruct v; try done. by eexists.
Qed.

Lemma extract_tag_raise_inv (ic : pyval) (acc : pydict) (tag : string) (e : exn) :
  Layer2.extract_tag ic acc tag = Raise e → ∃ ty, e = AttributeError ty "get".
Proof.
  unfold Layer2.extract_tag, pybind. intros Hrun.
  repeat case_match; simplify_eq;
    match goal with Hg : Py.get _ _ _ = Raise _ |- _ => apply py_get_raise in Hg as [-> _] end;
    by eexists.
Qed.

Lemma flatten_tag_ok (result : pydict) (p : string) (flat : pydict) (tag : string)
    (checks : pydict) :
  Py.dict_get result "inclusion_check" = Some (VDict checks) →
  (∀ v, Py.dict_get checks tag = Some v → ∃ e, v = VDict e) →
  Layer2.flatten_tag result p flat tag =
    Ok (Py.dict_set
          (Py.dict_set flat (p +:+ "_" +:+ Layer2.tag_key tag +:+ "_status")
                       (status_of checks tag))
          (p +:+ "_" +:+ Layer2.tag_key tag +:+ "_evidence") (evidence_of checks tag)).
Proof.
  intros Hc Hall. unfold Layer2.flatten_tag, Py.dict_index, status_of, evidence_of.
  rewrite Hc. cbn [pybind Py.get].
  destruct (Py.dict_get checks tag) as [v|] eqn:Hv; [|done].
  destruct (Hall v eq_refl) as [e ->]. done.
Qed.

Lemma flatten_tag_ok_inv (result : pydict) (p : string) (flat flat' : pydict) (tag : string) :
  Layer2.flatten_tag result p flat tag = Ok flat' →
  ∃ checks, Py.dict_get result "inclusion_check" = Some (VDict checks) ∧
            ∀ v, Py.dict_get checks tag = Some v → ∃ e, v = VDict e.
Proof.
  unfold Layer2.flatten_tag, Py.dict_index, pybind. intros Hrun.
  destruct (Py.dict_get result "inclusion_check") as [c|] eqn:Hc; [|done].
  destruct (Py.get c tag (VDict [])) as [inc_data|] eqn:Hd; [|done].
  destruct (py_get_ok _ _ _ _ Hd) as [checks ->]. exists checks. split; [done|].
  intros v Hv. cbn in Hd. rewrite Hv in Hd. cbn in Hd. simplify_eq.
  destruct (Py.get inc_data "status" (VStr "unclear")) as [s|] eqn:Hs; [|done].
  by destruct (py_get_ok _ _ _ _ Hs) as [e ->]; eexists.
Qed.

Lemma flatten_tag_raise_inv (result : pydict) (p : string) (flat : pydict) (tag : string)
    (e : exn) :
  Layer2.flatten_tag result p flat tag = Raise e →
  (e = KeyError "inclusion_check" ∧ Py.dict_get result "inclusion_check" = None)
  ∨ ∃ ty, e = AttributeError ty "get".
Proof.
  unfold Layer2.flatten_tag, Py.dict_index, pybind. intros Hrun.
  destruct (Py.dict_get result "inclusion_check") as [c|] eqn:Hc;
    [|left; by simplify_eq].
  right. repeat case_match; simplify_eq;
    match goal with Hg : Py.get _ _ _ = Raise _ |- _ => apply py_get_raise in Hg as [-> _] end;
    by eexists.
Qed.

End Outcomes.

(** X6.  [extract_inclusion_result] returns exactly on the dicts whose
    "inclusion_check", when present, is a dict whose entries for the five
    tags, when present, are dicts; on anything else it raises the
    attribute error of a [.get] on a value that is no dict. *)
Theorem extract_inclusion_result_outcome (parsed : pyval) :
  match Layer2.extract_inclusion_result parsed with
  | Ok _ => ∃ p, parsed = VDict p ∧ checks_well_typed p
  | Raise e =>
      (∀ p, parsed = VDict p → ¬ checks_well_typed p) ∧ ∃ ty, e = AttributeError ty "get"
  end.
Proof.
  destruct (Layer2.extract_inclusion_result parsed) as [r|e] eqn:Hrun.
  - unfold Layer2.extract_inclusion_result, pybind in Hrun.
    destruct parsed as [| | | | | |p]; try done. exists p. split; [done|].
    cbn [Py.get] in Hrun.
    destruct (Py.dict_get p "inclusion_check") as [v|] eqn:Hv; cbn [default from_option id] in Hrun.
    + destruct (for_each inc_tags [] (Layer2.extract_tag v)) as [checks|] eqn:Hchecks; [|done].
      assert (∃ ic, v = VDict ic) as [ic ->].
      { destruct (for_each_ok_inv _ _ _ _ Hchecks "INC-1") as (a & a' & Ha); [unfold inc_tags; by repeat constructor|].
        unfold Layer2.extract_tag, pybind in Ha.
        destruct (Py.get v "INC-1" (VDict [])) eqn:Hg; [|done]. by eapply py_get_ok. }
      split.
      * intros v' Hv'. simplify_eq. by eexists.
      * intros tag v' Htag. unfold checks_of. rewrite Hv.
        destruct (for_each_ok_inv _ _ _ _ Hchecks tag Htag) as (a & a' & Ha).
        by eapply extract_tag_ok_inv.
    + split; [intros v' Hv'; congruence|].
      intros tag v' _. unfold checks_of. by rewrite Hv.
  - split.
    + intros p -> Htyped. by rewrite (extract_typed p Htyped) in Hrun.
    + unfold Layer2.extract_inclusion_result, pybind in Hrun.
      destruct parsed as [| | | | | |p]; cbn [Py.get] in Hrun; simplify_eq; try by eexists.
      destruct (for_each inc_tags [] _) as [checks|e'] eqn:Hchecks; [done|]. simplify_eq.
      apply for_each_raise_inv in Hchecks as (x & a & _ & Hx).
      by eapply extract_tag_raise_inv.
Qed.

Lemma flattenable_flatten (result : pydict) (prefix : string) :
  flattenable result →
  ∃ flat, Layer2.flatten_result result prefix = Ok flat
          ∧ Py.dict_keys flat = fixed_columns prefix.
Proof.
  intros ([dec Hdec] & [conf Hconf] & [reas Hreas] & checks & Hchecks & Hall).
  unfold Layer2.flatten_result, Py.dict_index.
  rewrite Hdec, Hconf, Hreas. cbn [pybind for_each inc_tags].
  repeat (rewrite (flatten_tag_ok _ _ _ _ checks);
          [cbn [pybind]|done|intros v; apply Hall; unfold inc_tags; by repeat constructor]).
  eexists. split; [reflexivity|].
  change (Layer2.tag_key "INC-1") with "inc1".
  change (Layer2.tag_key "INC-2") with "inc2".
  change (Layer2.tag_key "INC-3") with "inc3".
  change (Layer2.tag_key "INC-4") with "inc4".
  change (Layer2.tag_key "INC-5") with "inc5".
  cbn [String.append].
  factor_prefix prefix.
  by rewrite dict_keys_prefix.
Qed.

Lemma flatten_ok_flattenable (result : pydict) (prefix : string) (flat : pydict) :
  Layer2.flatten_result result prefix = Ok flat → flattenable result.
Proof.
  intros Hrun. unfold Layer2.flatten_result, Py.dict_index, pybind in Hrun.
  destruct (Py.dict_get result "decision") as [dec|] eqn:Hdec; [|done].
  destruct (Py.dict_get result "confidence") as [conf|] eqn:Hconf; [|done].
  destruct (Py.dict_get result "reasoning") as [reas|] eqn:Hreas; [|done].
  split_and!; [done..|].
  destruct (for_each_ok_inv _ _ _ _ Hrun "INC-1") as (a & a' & Ha);
    [unfold inc_tags; by repeat constructor|].
  apply flatten_tag_ok_inv in Ha as (checks & Hc & _).
  exists checks. split; [done|]. intros tag v Htag Hv.
  destruct (for_each_ok_inv _ _ _ _ Hrun tag Htag) as (b & b' & Hb).
  apply flatten_tag_ok_inv in Hb as (checks' & Hc' & Hall). simplify_eq. eauto.
Qed.

Lemma flatten_ok_keys (result : pydict) (prefix : string) (flat : pydict) :
  Layer2.flatten_result result prefix = Ok flat → Py.dict_keys flat = fixed_columns prefix.
Proof.
  intros Hrun.
  destruct (flattenable_flatten result prefix (flatten_ok_flattenable _ _ _ Hrun))
    as (flat' & Hrun' & Hkeys). rewrite Hrun in Hrun'. by injection Hrun' as <-.
Qed.

(** X7.  [flatten_result] returns exactly on the results that hold "decision",
    "confidence", "reasoning" and a dict under "inclusion_check" whose
    entries for the five tags, when present, are dicts, and then its keys
    are the seventeen fixed columns.  Otherwise it raises: a [KeyError]
    naming one of the four keys, which the result lacks, or the attribute
    error of a [.get] on a value that is no dict. *)
Theorem flatten_result_outcome (result : pydict) (prefix : string) :
  match Layer2.flatten_result result prefix with
  | Ok flat => flattenable result ∧ Py.dict_keys flat = fixed_columns prefix
  | Raise e =>
      ¬ flattenable result ∧
      ((∃ k, e = KeyError k ∧ Py.dict_get result k = None
             ∧ k ∈ ["decision"; "confidence"; "reasoning"; "inclusion_check"])
       ∨ ∃ ty, e = AttributeError ty "get")
  end.
Proof.
  destruct (Layer2.flatten_result result prefix) as [flat|e] eqn:Hrun.
  - split; [by eapply flatten_ok_flattenable|by eapply flatten_ok_keys].
  - split.
    + intros Hf. destruct (flattenable_flatten result prefix Hf) as (flat' & ? & ?). congruence.
    + unfold Layer2.flatten_result, Py.dict_index, pybind in Hrun.
      destruct (Py.dict_get result "decision") as [dec|] eqn:Hdec;
        [|left; exists "decision"; simplify_eq; split_and!; [done..|by repeat constructor]].
      destruct (Py.dict_get result "confidence") as [conf|] eqn:Hconf;
        [|left; exists "confidence"; simplify_eq; split_and!; [done..|by repeat constructor]].
      destruct (Py.dict_get result "reasoning") as [reas|] eqn:Hreas;
        [|left; exists "reasoning"; simplify_eq; split_and!; [done..|by repeat constructor]].
      apply for_each_raise_inv in Hrun as (x & a & _ & Hx).
      apply flatten_tag_raise_inv in Hx as [[-> Hnone]|?]; [left|by right].
      exists "inclusion_check". split_and!; [done..|by repeat constructor].
Qed.

(** X8.  Extraction followed by flattening, cell by cell: on a well-typed
    judge answer the flat columns hold the answer's decision, confidence
    and reasoning ("include", "low" and None where the answer has none),
    no error, zero token counts, and for each of the five tags the status
    and evidence the answer gives ("unclear" and None where it gives
    none). *)
Theorem flatten_extract_cells (parsed : pydict) (prefix : string) :
  checks_well_typed parsed →
  ∃ result flat,
    Layer2.extract_inclusion_result (VDict parsed) = Ok result
    ∧ Layer2.flatten_result result prefix = Ok flat
    ∧ Py.dict_get flat (prefix +:+ "_decision")
      = Some (default (VStr "include") (Py.dict_get parsed "decision"))
    ∧ Py.dict_get flat (prefix +:+ "_confidence")
      = Some (default (VStr "low") (Py.dict_get parsed "confidence"))
    ∧ Py.dict_get flat (prefix +:+ "_reasoning")
      = Some (default VNone (Py.dict_get parsed "reasoning"))
    ∧ Py.dict_get flat (prefix +:+ "_error") = Some VNone
    ∧ Py.dict_get flat (prefix +:+ "_input_tokens") = Some (VInt 0)
    ∧ Py.dict_get flat (prefix +:+ "_output_tokens") = Some (VInt 0)
    ∧ Py.dict_get flat (prefix +:+ "_total_tokens") = Some (VInt 0)
    ∧ ∀ tag, tag ∈ inc_tags →
        Py.dict_get flat (prefix +:+ "_" +:+ Layer2.tag_key tag +:+ "_status")
        = Some (default (VStr "unclear") (Py.dict_get (entry_of parsed tag) "status"))
        ∧ Py.dict_get flat (prefix +:+ "_" +:+ Layer2.tag_key tag +:+ "_evidence")
          = Some (default VNone (Py.dict_get (entry_of parsed tag) "evidence")).
Proof.
  intros Htyped. rewrite (extract_typed parsed Htyped).
  eexists. 
  unfold Layer2.flatten_result, Py.dict_index. cbn [Py.dict_get String.eqb Ascii.eqb Bool.eqb pybind for_each inc_tags fmap list_fmap].
  repeat (erewrite flatten_tag_ok;
          [cbn [pybind]
          |reflexivity
          |let Hv := fresh in
           intros ? Hv; vm_compute in Hv; injection Hv as <-; by eexists]).
  eexists. split; [reflexivity|]. split; [reflexivity|].
  change (Layer2.tag_key "INC-1") with "inc1".
  change (Layer2.tag_key "INC-2") with "inc2".
  change (Layer2.tag_key "INC-3") with "inc3".
  change (Layer2.tag_key "INC-4") with "inc4".
  change (Layer2.tag_key "INC-5") with "inc5".
  cbn [String.append].
  factor_prefix prefix.
  rewrite !dict_get_prefix.
  split_and!; try reflexivity.
  intros tag Htag. unfold inc_tags in Htag.
  repeat (apply elem_of_cons in Htag as [->|Htag];
          [match goal with
           | |- context [Layer2.tag_key ?t] =>
               let k := eval vm_compute in (Layer2.tag_key t) in
               change (Layer2.tag_key t) with k
           end;
           cbn [String.append]; rewrite !dict_get_prefix; split; reflexivity|]).
  by apply elem_of_nil in Htag.
Qed.

(** ** Rules for the triples *)

Section Hoare.
Context {A : Type}.
Implicit Types (P : run → Prop) (Q : A → run → Prop) (E : exn → run → Prop).



End Hoare.



(** ** Layer 1: the cells a run reads and writes *)

Lemma frame_cell_at_set (df : DataFrame) (j idx : nat) (c k : string) (v : pyval) :
  frame_cell (Pd.at_set df idx k v) j c =
    match rows df !! j with
    | None => None
    | Some r =>
        if decide (c = k) then
          if decide (j = idx) then Some v
          else if Pd.has_column df k then r !! c else Some VNaN
        else r !! c
    end.
Proof.
  unfold frame_cell. destruct (decide (j = idx)) as [->|Hne].
  - destruct (rows df !! idx) as [r|] eqn:Hr.
    + rewrite (at_set_row_eq _ _ _ _ _ Hr).
      destruct (decide (c = k)) as [->|Hc]; [by rewrite lookup_insert_eq|].
      by rewrite lookup_insert_ne.
    + apply lookup_ge_None in Hr.
      rewrite (proj2 (lookup_ge_None _ _)); [done|]. by rewrite at_set_length.
  - rewrite at_set_row_ne by done.
    destruct (rows df !! j) as [r|]; [|done]. simpl.
    destruct (Pd.has_column df k) eqn:Hcol.
    + by destruct (decide (c = k)).
    + destruct (decide (c = k)) as [->|Hc]; [by rewrite lookup_insert_eq|].
      by rewrite lookup_insert_ne.
Qed.

Lemma read_cells_at_set (df : DataFrame) (j idx : nat) (k : string) (v : pyval) :
  k ≠ "title" → k ≠ "abstract" → k ≠ "record_id" →
  read_cells (Pd.at_set df idx k v) j = read_cells df j.
Proof.
  intros H1 H2 H3.
  pose proof (frame_cell_at_set df j idx "title" k v) as Ht.
  pose proof (frame_cell_at_set df j idx "abstract" k v) as Ha.
  pose proof (frame_cell_at_set df j idx "record_id" k v) as Hr.
  unfold read_cells, frame_cell in *.
  destruct (rows df !! j) as [r|] eqn:Hj.
  - destruct (rows (Pd.at_set df idx k v) !! j) as [r'|] eqn:Hj'.
    + simpl. rewrite Ht, Ha, Hr. by rewrite !decide_False by done.
    + apply lookup_ge_None in Hj'. rewrite at_set_length in Hj'.
      apply lookup_ge_None in Hj'. congruence.
  - apply lookup_ge_None in Hj.
    rewrite (proj2 (lookup_ge_None _ _)); [done|]. by rewrite at_set_length.
Qed.

Ltac by_compute := apply (bool_decide_unpack _); vm_compute; exact I.


Section Layer1Run.
Context `{Externals}.
Context (df0 : DataFrame) (model : nat → gemini_model) (n : nat).









End Layer1Run.

(** ** Layer 1: one batch *)



Lemma init_columns_grows (cols : list string) (df : DataFrame) (c : string) :
  c ∈ columns df → c ∈ columns (init_columns cols df).
Proof.
  unfold init_columns. revert df. induction cols as [|col cols IH]; intros df Hc; [done|].
  simpl. apply IH. destruct (Pd.has_column df col) eqn:Hcol; [done|].
  unfold Pd.set_column. simpl. rewrite Hcol. apply elem_of_app. by left.
Qed.

Lemma init_columns_has (cols : list string) (df : DataFrame) (c : string) :
  c ∈ cols → c ∈ columns (init_columns cols df).
Proof.
  unfold init_columns. revert df. induction cols as [|col cols IH]; intros df Hc.
  - by apply elem_of_nil in Hc.
  - simpl. apply elem_of_cons in Hc as [->|Hc]; [|by apply IH].
    apply (init_columns_grows cols).
    destruct (Pd.has_column df col) eqn:Hcol; [by apply has_column_true|].
    unfold Pd.set_column. simpl. rewrite Hcol. apply elem_of_app. right. by left.
Qed.

Lemma init_columns_length (cols : list string) (df : DataFrame) :
  List.length (rows (init_columns cols df)) = List.length (rows df).
Proof.
  unfold init_columns. revert df. induction cols as [|col cols IH]; intros df; [done|].
  simpl. rewrite IH. destruct (Pd.has_column df col); [done|].
  unfold Pd.set_column. simpl. by rewrite length_fmap.
Qed.

Section Layer1Whole.
Context `{Externals}.



Context (df0 : DataFrame) (model : nat → gemini_model) (n : nat).



End Layer1Whole.

(** ** Layer 1 as a whole: who is submitted and what is recorded *)

Section Layer1Theorems.
Context `{Externals}.



End Layer1Theorems.



(** ** Layer 2: the cells of one record *)

Lemma at_set_column_new (df : DataFrame) (idx : nat) (k : string) (v : pyval) :
  k ∈ columns (Pd.at_set df idx k v).
Proof.
  unfold Pd.at_set. destruct (Pd.has_column df k) eqn:Hcol; simpl.
  - by apply has_column_true.
  - unfold Pd.has_column in *. rewrite Hcol. apply elem_of_app. right. by left.
Qed.

Lemma frame_cell_at_set_other (df : DataFrame) (j idx : nat) (c k : string) (v w : pyval) :
  j ≠ idx ∨ c ≠ k → c ∈ columns df →
  frame_cell df j c = Some w → frame_cell (Pd.at_set df idx k v) j c = Some w.
Proof.
  intros Hne Hc Hw. rewrite frame_cell_at_set. unfold frame_cell in Hw.
  destruct (rows df !! j) as [r|]; [|done].
  destruct (decide (c = k)) as [->|]; [|done].
  destruct (decide (j = idx)); [by destruct Hne|].
  by rewrite (proj2 (has_column_true df k) Hc).
Qed.

Lemma set_items_columns (idx : nat) (items : pydict) (df : DataFrame) (c : string) :
  c ∈ columns df → c ∈ columns (set_items idx items df).
Proof.
  unfold set_items. revert df. induction items as [|[k v] items IH]; intros df Hc; [done|].
  simpl. apply IH. by apply at_set_columns.
Qed.

Lemma set_items_columns_new (idx : nat) (items : pydict) (df : DataFrame) (c : string) :
  c ∈ Py.dict_keys items → c ∈ columns (set_items idx items df).
Proof.
  unfold set_items, Py.dict_keys. revert df.
  induction items as [|[k v] items IH]; intros df Hc; simpl in *.
  - by apply elem_of_nil in Hc.
  - apply elem_of_cons in Hc as [->|Hc]; [|by apply IH].
    apply (set_items_columns idx items). apply at_set_column_new.
Qed.

Lemma frame_cell_set_items_other (idx j : nat) (items : pydict) (df : DataFrame)
    (c : string) (w : pyval) :
  j ≠ idx ∨ c ∉ Py.dict_keys items → c ∈ columns df →
  frame_cell df j c = Some w → frame_cell (set_items idx items df) j c = Some w.
Proof.
  unfold set_items, Py.dict_keys. revert df.
  induction items as [|[k v] items IH]; intros df Hne Hc Hw; [done|].
  simpl. apply IH.
  - destruct Hne as [?|Hne]; [by left|]. right. simpl in Hne.
    by apply not_elem_of_cons in Hne as [_ ?].
  - by apply at_set_columns.
  - apply frame_cell_at_set_other; [|done..].
    destruct Hne as [?|Hne]; [by left|]. right. simpl in Hne.
    by apply not_elem_of_cons in Hne as [? _].
Qed.

Lemma read_cells_set_items (idx j : nat) (items : pydict) (df : DataFrame) :
  "title" ∉ Py.dict_keys items → "abstract" ∉ Py.dict_keys items →
  "record_id" ∉ Py.dict_keys items →
  read_cells (set_items idx items df) j = read_cells df j.
Proof.
  unfold set_items, Py.dict_keys. revert df.
  induction items as [|[k v] items IH]; intros df H1 H2 H3; [done|].
  simpl in *. apply not_elem_of_cons in H1 as [? ?], H2 as [? ?], H3 as [? ?].
  rewrite IH by done. by apply read_cells_at_set.
Qed.

Lemma dict_get_elem (d : pydict) (k : string) (v : pyval) :
  NoDup (Py.dict_keys d) → (k, v) ∈ d → Py.dict_get d k = Some v.
Proof.
  unfold Py.dict_keys. induction d as [|[k0 v0] d IH]; intros Hnd Hin; simpl in *.
  - by apply elem_of_nil in Hin.
  - apply NoDup_cons in Hnd as [Hk0 Hnd].
    apply elem_of_cons in Hin as [Heq|Hin].
    + injection Heq as -> ->. by rewrite String.eqb_refl.
    + destruct (String.eqb_spec k0 k) as [->|]; [|by apply IH].
      destruct Hk0. apply list_elem_of_fmap. by exists (k, v).
Qed.

Lemma l2_pro_columns_apart :
  Forall (fun k => (k ∉ fixed_columns "L2_sonnet")
                   ∧ (k ∉ ["L2_models_agree"; "needs_human_review"; "L2_timestamp";
                           "title"; "abstract"; "record_id"]))
         (fixed_columns "L2_pro").
Proof. by_compute. Qed.

Lemma l2_sonnet_columns_apart :
  Forall (fun k => k ∉ ["L2_models_agree"; "needs_human_review"; "L2_timestamp";
                        "title"; "abstract"; "record_id"])
         (fixed_columns "L2_sonnet").
Proof. by_compute. Qed.

Section StoredFacts.
Context `{Externals}.
Context (idx : nat) (pf sf : pydict) (pd sd : pyval) (df : DataFrame).
Context (Hpf : Py.dict_keys pf = fixed_columns "L2_pro").
Context (Hsf : Py.dict_keys sf = fixed_columns "L2_sonnet").

Lemma stored_columns (c : string) :
  c ∈ columns df → c ∈ columns (stored idx pf sf pd sd df).
Proof.
  intros Hc. unfold stored. do 3 apply at_set_columns. by do 2 apply set_items_columns.
Qed.

Lemma stored_other (j : nat) (c : string) (w : pyval) :
  j ≠ idx → c ∈ columns df → frame_cell df j c = Some w →
  frame_cell (stored idx pf sf pd sd df) j c = Some w.
Proof.
  intros Hne Hc Hw. unfold stored.
  do 3 (apply frame_cell_at_set_other;
        [by left|by repeat first [apply at_set_columns|apply set_items_columns]|]).
  do 2 (apply frame_cell_set_items_other;
        [by left|by repeat first [apply at_set_columns|apply set_items_columns]|]).
  done.
Qed.

Lemma stored_read (j : nat) :
  read_cells (stored idx pf sf pd sd df) j = read_cells df j.
Proof.
  unfold stored. rewrite !read_cells_at_set by done.
  assert (("title" ∉ Py.dict_keys pf) ∧ ("abstract" ∉ Py.dict_keys pf)
          ∧ ("record_id" ∉ Py.dict_keys pf)) as (? & ? & ?)
    by (rewrite Hpf; split_and!; by_compute).
  assert (("title" ∉ Py.dict_keys sf) ∧ ("abstract" ∉ Py.dict_keys sf)
          ∧ ("record_id" ∉ Py.dict_keys sf)) as (? & ? & ?)
    by (rewrite Hsf; split_and!; by_compute).
  by rewrite !read_cells_set_items.
Qed.

Lemma stored_own (r : gmap string pyval) :
  rows df !! idx = Some r →
  Forall (fun kv => fst kv ∈ columns (stored idx pf sf pd sd df)
                    ∧ frame_cell (stored idx pf sf pd sd df) idx (fst kv) = Some (snd kv))
         (pf ++ sf ++ [ ("L2_models_agree", VBool (models_agree pd sd));
                        ("needs_human_review", VBool (needs_review pd sd)) ]).
Proof.
  intros Hr.
  assert (NoDup (Py.dict_keys pf)) as Hndp by (rewrite Hpf; apply fixed_columns_NoDup).
  assert (NoDup (Py.dict_keys sf)) as Hnds by (rewrite Hsf; apply fixed_columns_NoDup).
  unfold frame_cell. rewrite (stored_row _ _ _ _ _ _ _ Hr).
  apply Forall_app. split; [|apply Forall_app; split].
  - apply Forall_forall. intros [k v] Hkv. cbn [fst snd].
    assert (k ∈ Py.dict_keys pf) as Hk by (apply list_elem_of_fmap; by exists (k, v)).
    split.
    { unfold stored. do 3 apply at_set_columns. apply set_items_columns.
      by apply set_items_columns_new. }
    pose proof Hk as Hk'. rewrite Hpf in Hk'.
    pose proof (proj1 (Forall_forall _ _) l2_pro_columns_apart k Hk') as [Hns Hno].
    rewrite !lookup_insert_ne by (intros <-; apply Hno; by repeat constructor).
    rewrite insert_items_notin by by rewrite Hsf.
    apply insert_items_in; [done|]. by apply dict_get_elem.
  - apply Forall_forall. intros [k v] Hkv. cbn [fst snd].
    assert (k ∈ Py.dict_keys sf) as Hk by (apply list_elem_of_fmap; by exists (k, v)).
    split.
    { unfold stored. do 3 apply at_set_columns. by apply set_items_columns_new. }
    pose proof Hk as Hk'. rewrite Hsf in Hk'.
    pose proof (proj1 (Forall_forall _ _) l2_sonnet_columns_apart k Hk') as Hno.
    rewrite !lookup_insert_ne by (intros <-; apply Hno; by repeat constructor).
    apply insert_items_in; [done|]. by apply dict_get_elem.
  - repeat apply Forall_cons_2; [| |apply Forall_nil_2]; cbn [fst snd]; split.
    + unfold stored. do 2 apply at_set_columns. apply at_set_column_new.
    + rewrite !lookup_insert_ne by done. by rewrite lookup_insert_eq.
    + unfold stored. apply at_set_columns. apply at_set_column_new.
    + rewrite lookup_insert_ne by done. by rewrite lookup_insert_eq.
Qed.

End StoredFacts.

Lemma read_cells_set_column (df : DataFrame) (col : string) (v : pyval) (j : nat) :
  col ≠ "title" → col ≠ "abstract" → col ≠ "record_id" →
  read_cells (Pd.set_column df col v) j = read_cells df j.
Proof.
  intros H1 H2 H3. unfold read_cells. rewrite set_column_row.
  destruct (rows df !! j) as [r|]; [|done]. simpl.
  by rewrite !lookup_insert_ne by done.
Qed.

Lemma read_cells_init_columns (cols : list string) (df : DataFrame) (j : nat) :
  "title" ∉ cols → "abstract" ∉ cols → "record_id" ∉ cols →
  read_cells (init_columns cols df) j = read_cells df j.
Proof.
  unfold init_columns. revert df. induction cols as [|col cols IH]; intros df H1 H2 H3; [done|].
  apply not_elem_of_cons in H1 as [? ?], H2 as [? ?], H3 as [? ?].
  simpl. rewrite IH by done. destruct (Pd.has_column df col); [done|].
  by apply read_cells_set_column.
Qed.

Section Layer2Run.
Context `{Externals}.
Context (df0 : DataFrame) (gemini : nat → gemini_model) (claude : nat → claude_client).
Context (n : nat).
Context (Hgemini : ∀ i, well_behaved (gemini i)) (Hclaude : ∀ i, well_behaved (claude i)).

Lemma process_single_record_read (df df' : DataFrame) (idx : nat) :
  read_cells df idx = read_cells df' idx →
  process_single_record df gemini claude idx = process_single_record df' gemini claude idx.
Proof.
  unfold read_cells, process_single_record, Pd.iloc, Pd.row_get. intros Hread.
  destruct (rows df !! idx) as [r|], (rows df' !! idx) as [r'|]; try done.
  simpl in Hread. injection Hread as Ht Ha Hr. cbn [pybind]. by rewrite Ht, Ha, Hr.
Qed.

Lemma layer2_row_stored (idx j : nat) (pf sf : pydict) (pd sd : pyval) (df : DataFrame) :
  j ≠ idx → layer2_row df0 gemini claude j df →
  layer2_row df0 gemini claude j (stored idx pf sf pd sd df).
Proof.
  intros Hne (pro & son & cells & Hrec & Hcells & Hall).
  exists pro, son, cells. split_and!; [done..|].
  eapply Forall_impl; [exact Hall|]. intros [k v] [Hk Hv]. cbn [fst snd] in *.
  split; [by apply stored_columns|by apply stored_other].
Qed.

(** The body of the collecting loop, for a worker that read its row from
    a frame [df] that shows the starting frame's cells. *)
Lemma store_own_results (D : nat → Prop) (df : DataFrame) (idx : nat) (st : run) :
  (idx < n)%nat → (∀ j, read_cells df j = read_cells df0 j) →
  l2_state df0 gemini claude n D st →
  ∃ st', st_bind (st_lift (process_single_record df gemini claude idx)) store_results st
           = (Ok tt, st')
         ∧ l2_state df0 gemini claude n (fun i => D i ∨ i = idx) st'
         ∧ saved st' = saved st ∧ submitted st' = submitted st.
Proof.
  intros Hidx Hdf (Hlen & Hread & Hdone).
  rewrite (process_single_record_read df df0 idx (Hdf idx)).
  assert (idx < List.length (rows df0))%nat as Hidx0.
  { specialize (Hread idx). unfold read_cells in Hread.
    destruct (lookup_lt_is_Some_2 (rows (frame st)) idx) as [r Hr]; [lia|].
    rewrite Hr in Hread. destruct (rows df0 !! idx) eqn:Hr0; [|done].
    by eapply lookup_lt_Some. }
  destruct (process_single_record_ok df0 gemini claude idx (Hgemini idx) (Hclaude idx) Hidx0)
    as (pro & son & Hrec & [Hpro _] & [Hson _]).
  destruct (flatten_shaped pro "L2_pro" Hpro) as (pf & Hpf & Hpk & _).
  destruct (flatten_shaped son "L2_sonnet" Hson) as (sf & Hsf & Hsk & _).
  destruct Hpro as ([pd Hpd] & _). destruct Hson as ([sd Hsd] & _).
  unfold st_bind, st_lift. rewrite Hrec.
  rewrite (store_results_run idx pro son pf sf pd sd st Hpf Hsf Hpd Hsd).
  eexists. split; [reflexivity|]. cbn [saved submitted]. split; [|done].
  unfold l2_state. cbn [frame]. split_and!.
  - by rewrite stored_length.
  - intros j. rewrite <- Hread. by apply stored_read.
  - assert (layer2_row df0 gemini claude idx
              (stored idx pf sf pd sd (frame st))) as Hown.
    { destruct (lookup_lt_is_Some_2 (rows (frame st)) idx) as [r Hr]; [lia|].
      eexists pro, son, _. split; [done|]. split.
      - unfold layer2_cells, Py.dict_index. rewrite Hpf, Hsf, Hpd, Hsd. reflexivity.
      - by eapply stored_own. }
    intros j [Hj | ->]; [|done].
    destruct (decide (j = idx)) as [->|Hne]; [done|by apply layer2_row_stored, Hdone].
Qed.

Lemma l2_state_weaken (D D' : nat → Prop) (st : run) :
  (∀ i, D' i → D i) → l2_state df0 gemini claude n D st → l2_state df0 gemini claude n D' st.
Proof. intros HD (Hlen & Hread & Hdone). split_and!; auto. Qed.

Lemma collect_loop_own (D : nat → Prop) (df : DataFrame) (order : list nat) (st : run) :
  (∀ i, i ∈ order → (i < n)%nat) → (∀ j, read_cells df j = read_cells df0 j) →
  l2_state df0 gemini claude n D st →
  ∃ st', st_for order
           (fun idx => st_bind (st_lift (process_single_record df gemini claude idx))
                               store_results) st = (Ok tt, st')
         ∧ l2_state df0 gemini claude n (fun i => D i ∨ i ∈ order) st'
         ∧ saved st' = saved st ∧ submitted st' = submitted st.
Proof.
  revert D st. induction order as [|i order IH]; intros D st Hin Hdf Hst; simpl.
  - eexists. split; [reflexivity|]. split; [|done].
    eapply l2_state_weaken; [|exact Hst]. intros j [?|Hj]; [done|by apply elem_of_nil in Hj].
  - destruct (store_own_results D df i st) as (st1 & Hrun1 & Hst1 & Hs1 & Hsub1);
      [apply Hin; by left|done..|].
    destruct (IH _ st1 (fun j Hj => Hin j (list_elem_of_further _ _ _ Hj)) Hdf Hst1)
      as (st2 & Hrun2 & Hst2 & Hs2 & Hsub2).
    exists st2. split; [unfold st_bind at 1; by rewrite Hrun1|].
    split; [|split; congruence].
    eapply l2_state_weaken; [|exact Hst2]. intros j [?|Hj]; [left; by left|].
    apply elem_of_cons in Hj as [->|?]; [left; by right|by right].
Qed.

Lemma process_batch2_own (D : nat → Prop) (as_completed : list nat → list nat) (bs : nat)
    (indices : list nat) (b : nat) (st : run) :
  (∀ l, as_completed l ≡ₚ l) → (∀ i, i ∈ indices → (i < n)%nat) →
  l2_state df0 gemini claude n D st →
  ∃ st', process_batch2 gemini claude as_completed bs indices b st = (Ok tt, st')
         ∧ l2_state df0 gemini claude n (fun i => D i ∨ i ∈ batch_of bs indices b) st'
         ∧ saved st' = saved st ++ [frame st']
         ∧ submitted st' = submitted st ++ batch_of bs indices b.
Proof.
  intros Hperm Hin Hst. unfold process_batch2. fold (batch_of bs indices b).
  unfold st_bind at 1, get_frame. unfold st_bind at 1. rewrite submit_loop.
  unfold st_bind at 1.
  edestruct (collect_loop_own D (frame st) (as_completed (batch_of bs indices b)))
    as (st1 & -> & Hst1 & Hs1 & Hsub1).
  { intros i Hi. apply Hin. rewrite Hperm in Hi. by eapply batch_of_subset. }
  { by destruct Hst as (_ & ? & _). }
  { by destruct st. }
  eexists. split; [reflexivity|].
  cbn [to_csv frame saved submitted] in *. split_and!; [|by rewrite Hs1|done].
  destruct Hst1 as (? & ? & Hdone). split_and!; [done..|].
  intros j [?|Hj]; apply Hdone; [by left|right; by rewrite Hperm].
Qed.

Lemma batches_own (as_completed : list nat → list nat) (bs : nat) (indices : list nat)
    (batch_nums : list nat) (D : nat → Prop) (st : run) :
  (∀ l, as_completed l ≡ₚ l) → (∀ i, i ∈ indices → (i < n)%nat) →
  l2_state df0 gemini claude n D st →
  ∃ st', st_for batch_nums (process_batch2 gemini claude as_completed bs indices) st
           = (Ok tt, st')
         ∧ l2_state df0 gemini claude n
             (fun i => D i ∨ i ∈ List.concat (batch_of bs indices <$> batch_nums)) st'
         ∧ List.length (saved st') = (List.length (saved st) + List.length batch_nums)%nat
         ∧ (∀ df, df ∈ saved st' → df ∈ saved st ∨ List.length (rows df) = n).
Proof.
  intros Hperm Hin. revert D st.
  induction batch_nums as [|b batch_nums IH]; intros D st Hst; simpl.
  - eexists. split; [reflexivity|]. split; [|split; [lia|by left]].
    eapply l2_state_weaken; [|exact Hst]. intros j [?|Hj]; [done|by apply elem_of_nil in Hj].
  - destruct (process_batch2_own D as_completed bs indices b st Hperm Hin Hst)
      as (st1 & Hrun1 & Hst1 & Hs1 & _).
    destruct (IH _ st1 Hst1) as (st2 & Hrun2 & Hst2 & Hs2 & Hrows2).
    exists st2. split; [unfold st_bind; by rewrite Hrun1|]. split_and!.
    + eapply l2_state_weaken; [|exact Hst2]. intros j [?|Hj]; [left; by left|].
      apply elem_of_app in Hj as [?|?]; [left; by right|by right].
    + rewrite Hs2, Hs1, length_app. simpl. lia.
    + intros df Hdf. destruct (Hrows2 df Hdf) as [Hdf1|?]; [|by right].
      rewrite Hs1 in Hdf1. apply elem_of_app in Hdf1 as [?|Hdf1]; [by left|].
      apply list_elem_of_singleton in Hdf1 as ->. right. by destruct Hst1.
Qed.

End Layer2Run.

(** ** Layer 2 as a whole: what is recorded *)

Section Layer2Theorems.
Context `{Externals}.

Lemma process_layer2_run (input_df : DataFrame) (gemini : nat → gemini_model)
    (claude : nat → claude_client) (bs : nat) (resume_from : option Z)
    (as_completed : list nat → list nat) :
  let indices := slice_from (Pd.where_eq input_df "L1_decision" "pass")
                            (default 0%Z resume_from) in
  (∀ i, well_behaved (gemini i)) → (∀ i, well_behaved (claude i)) →
  Pd.has_column input_df "L1_decision" = true → bs ≠ 0%nat →
  (∀ l, as_completed l ≡ₚ l) →
  ∃ st, process_layer2 input_df gemini claude bs resume_from as_completed = (Ok tt, st)
        ∧ last (saved st) = Some (frame st)
        ∧ List.length (saved st) = S ((List.length indices + bs - 1) / bs)
        ∧ (∀ df, df ∈ saved st → List.length (rows df) = List.length (rows input_df))
        ∧ ∀ idx, idx ∈ indices → layer2_row input_df gemini claude idx (frame st).
Proof.
  intros indices Hgemini Hclaude Hcol Hbs Hperm. unfold process_layer2. rewrite Hcol.
  destruct (Nat.eqb_spec bs 0) as [|_]; [done|]. fold indices.
  set (df := init_columns L2_agreement_columns _).
  assert (List.length (rows df) = List.length (rows input_df)) as Hlen.
  { subst df. by rewrite !init_columns_length. }
  assert (∀ j, read_cells df j = read_cells input_df j) as Hread.
  { intros j. subst df. rewrite !read_cells_init_columns; first done; by_compute. }
  clearbody df.
  destruct (batches_own input_df gemini claude (List.length (rows input_df))
              Hgemini Hclaude as_completed bs indices (seq 0 ((List.length indices + bs - 1) / bs))
              (fun _ => False) {| frame := df; saved := []; submitted := [] |} Hperm)
    as (st1 & Hrun1 & Hst1 & Hs1 & Hrows1).
  { intros i Hi. apply slice_from_subset in Hi.
    apply elem_of_where_eq in Hi as (r & Hr & _). by eapply lookup_lt_Some. }
  { by split_and!. }
  rewrite batches_cover in Hst1 by done.
  unfold st_bind. rewrite Hrun1. eexists. split; [reflexivity|].
  cbn [to_csv frame saved submitted]. split_and!.
  - by rewrite last_snoc.
  - rewrite length_app, Hs1, length_seq. simpl. lia.
  - intros df' Hdf'. apply elem_of_app in Hdf' as [Hdf'|Hdf'].
    + destruct (Hrows1 df' Hdf') as [Hnil|?]; [by apply elem_of_nil in Hnil|done].
    + apply list_elem_of_singleton in Hdf' as ->. by destruct Hst1.
  - intros idx Hidx. destruct Hst1 as (_ & _ & Hdone). apply Hdone. by right.
Qed.

End Layer2Theorems.

(** X14.  With judges whose vendor calls raise nothing but [Exception]s:
    in the file Layer 2 leaves behind, every row it handed to the judges
    holds what the two judges answered for that row's own title and
    abstract: the seventeen flattened columns of either result and the
    two flags computed from the two decisions.  The order in which the
    workers complete plays no part. *)
Theorem process_layer2_records_own_results `{Externals} (input_df : DataFrame)
    (gemini : nat → gemini_model) (claude : nat → claude_client) (batch_parallel_size : nat)
    (resume_from : option Z) (as_completed : list nat → list nat) (idx : nat) :
  let out := process_layer2 input_df gemini claude batch_parallel_size resume_from
                            as_completed in
  (∀ i, well_behaved (gemini i)) → (∀ i, well_behaved (claude i)) →
  Pd.has_column input_df "L1_decision" = true → batch_parallel_size ≠ 0%nat →
  (∀ l, as_completed l ≡ₚ l) →
  idx ∈ submitted (snd out) →
  ∃ df, last (saved (snd out)) = Some df ∧ layer2_row input_df gemini claude idx df.
Proof.
  intros out Hgemini Hclaude Hcol Hbs Hperm Hidx.
  destruct (process_layer2_run input_df gemini claude batch_parallel_size resume_from
              as_completed Hgemini Hclaude Hcol Hbs Hperm)
    as (st & Hrun & Hlast & _ & _ & Hdone).
  destruct (process_layer2_submits input_df gemini claude batch_parallel_size resume_from
              as_completed Hgemini Hclaude Hcol Hbs Hperm) as (st' & Hrun' & Hsub & _).
  unfold out in *. rewrite Hrun in *. simplify_eq. cbn [snd] in *.
  exists (frame st'). split; [done|]. apply Hdone. by rewrite <- Hsub.
Qed.


(** ** The stages write under their own columns only *)

Lemma cells_kept_refl (names : list string) (df : DataFrame) : cells_kept names df df.
Proof. split_and!; auto. Qed.

Lemma at_set_columns_inv (df : DataFrame) (idx : nat) (k : string) (v : pyval) (c : string) :
  c ∈ columns (Pd.at_set df idx k v) → c ∈ columns df ∨ c = k.
Proof.
  unfold Pd.at_set. destruct (Pd.has_column df k) eqn:Hcol; simpl; [by left|].
  unfold Pd.has_column in *. rewrite Hcol. intros Hc.
  apply elem_of_app in Hc as [?|Hc]; [by left|].
  apply list_elem_of_singleton in Hc. by right.
Qed.

Lemma cells_kept_at_set (names : list string) (df0 df : DataFrame) (idx : nat)
    (k : string) (v : pyval) :
  k ∈ names → cells_kept names df0 df → cells_kept names df0 (Pd.at_set df idx k v).
Proof.
  intros Hk (Hlen & Hsub & Hcols & Hcells). split_and!.
  - by rewrite at_set_length.
  - intros c Hc. by apply at_set_columns, Hsub.
  - intros c Hc. apply at_set_columns_inv in Hc as [Hc | ->]; [by apply Hcols|by right].
  - intros j c Hc. rewrite <- Hcells by done. rewrite frame_cell_at_set. unfold frame_cell.
    destruct (rows df !! j); [|done].
    destruct (decide (c = k)) as [->|]; [by destruct Hc|done].
Qed.

Lemma cells_kept_set_column (names : list string) (df0 df : DataFrame)
    (col : string) (v : pyval) :
  col ∈ names → cells_kept names df0 df → cells_kept names df0 (Pd.set_column df col v).
Proof.
  intros Hk (Hlen & Hsub & Hcols & Hcells). split_and!.
  - unfold Pd.set_column. simpl. by rewrite length_fmap.
  - intros c Hc. unfold Pd.set_column. simpl. case_match; [by apply Hsub|].
    apply elem_of_app. left. by apply Hsub.
  - intros c Hc. unfold Pd.set_column in Hc. simpl in Hc.
    destruct (Pd.has_column df col); [by apply Hcols|].
    apply elem_of_app in Hc as [?|Hc]; [by apply Hcols|].
    apply list_elem_of_singleton in Hc as ->. by right.
  - intros j c Hc. rewrite <- Hcells by done. unfold frame_cell.
    rewrite set_column_row. destruct (rows df !! j); [|done]. simpl.
    apply lookup_insert_ne. by intros ->.
Qed.

Lemma cells_kept_init_columns (names cols : list string) (df0 df : DataFrame) :
  (∀ c, c ∈ cols → c ∈ names) →
  cells_kept names df0 df → cells_kept names df0 (init_columns cols df).
Proof.
  unfold init_columns. revert df. induction cols as [|col cols IH]; intros df Hsub Hdf; [done|].
  simpl. apply IH; [intros c Hc; apply Hsub; by right|].
  destruct (Pd.has_column df col); [done|].
  apply cells_kept_set_column; [apply Hsub; by left|done].
Qed.

(** A run all of whose writes go to cells under [names]. *)
Section Keyed.
Context `{Externals}.
Context (J : DataFrame → Prop) (names : list string).
Context (J_at_set : ∀ df j k v, k ∈ names → J df → J (Pd.at_set df j k v)).

Lemma keyed_at_set (j : nat) (k : string) (v : pyval) :
  k ∈ names → keeps (always J) (at_set j k v) (fun _ => True).
Proof. intros Hk. apply always_at_set. intros df. by apply J_at_set. Qed.

Lemma keyed_items (j : nat) (items : pydict) :
  (∀ k, k ∈ Py.dict_keys items → k ∈ names) →
  keeps (always J) (st_for items (fun '(key, value) => at_set j key value)) (fun _ => True).
Proof.
  intros Hkeys. apply keeps_for. intros [k v] Hkv. apply keyed_at_set, Hkeys.
  apply list_elem_of_fmap. by exists (k, v).
Qed.

Section KeyedLayer1.
Context (HL1 : ∀ k, k ∈ L1_new_columns → k ∈ names).





End KeyedLayer1.

Section KeyedLayer2.
Context (HL2 : ∀ k, k ∈ L2_written_columns → k ∈ names).

Lemma keyed_store_results (r : nat * pydict * pydict) :
  keeps (always J) (store_results r) (fun _ => True).
Proof.
  destruct r as [[j pro] son]. unfold store_results.
  eapply keeps_bind; [apply keeps_lift|intros pf Hpf].
  eapply keeps_bind; [apply keeps_lift|intros sf Hsf].
  apply flatten_ok_keys in Hpf, Hsf.
  eapply keeps_bind; [apply keyed_items|intros _ _].
  { intros k Hk. apply HL2. rewrite Hpf in Hk. apply elem_of_app. by left. }
  eapply keeps_bind; [apply keyed_items|intros _ _].
  { intros k Hk. apply HL2. rewrite Hsf in Hk. apply elem_of_app. right.
    apply elem_of_app. by left. }
  eapply keeps_bind; [apply keeps_lift|intros pd _].
  eapply keeps_bind; [apply keeps_lift|intros sd _].
  do 2 (eapply keeps_bind; [apply keyed_at_set, HL2; by_compute|intros _ _]).
  apply keyed_at_set, HL2. by_compute.
Qed.

Lemma keyed_process_batch2 (gemini : nat → gemini_model) (claude : nat → claude_client)
    (as_completed : list nat → list nat) (bs : nat) (indices : list nat) (b : nat) :
  keeps (always J) (process_batch2 gemini claude as_completed bs indices b) (fun _ => True).
Proof.
  unfold process_batch2.
  eapply keeps_bind; [apply always_get_frame|intros df _].
  eapply keeps_bind; [apply keeps_for; intros j _; apply always_submit|intros _ _].
  eapply keeps_bind; [|intros _ _; apply always_to_csv].
  apply keeps_for. intros j _.
  eapply keeps_bind; [apply keeps_lift|intros r _]. apply keyed_store_results.
Qed.

End KeyedLayer2.
End Keyed.

Section OwnColumns.
Context `{Externals}.


Lemma process_layer2_keyed (J : DataFrame → Prop) (input_df : DataFrame)
    (gemini : nat → gemini_model) (claude : nat → claude_client) (bs : nat)
    (resume_from : option Z) (as_completed : list nat → list nat) :
  (∀ df j k v, k ∈ L2_written_columns → J df → J (Pd.at_set df j k v)) →
  J (init_columns L2_agreement_columns
       (init_columns (L2_columns "L2_pro" ++ L2_columns "L2_sonnet") input_df)) →
  Forall J (saved (snd (process_layer2 input_df gemini claude bs resume_from as_completed))).
Proof.
  intros HJ Hstart. unfold process_layer2.
  destruct (Pd.has_column input_df "L1_decision"); [|apply Forall_nil_2].
  match goal with
  | |- Forall J (saved (snd (?m ?st))) =>
      assert (keeps (always J) m (fun _ => True)) as Hk;
      [|assert (always J st) as Hst by (split; [done|apply Forall_nil_2]);
        by destruct (Hk st Hst) as [[_ ?] _]]
  end.
  destruct (bs =? 0)%nat.
  - eapply keeps_weaken; [apply keeps_lift|done].
  - eapply keeps_bind; [|intros _ _; apply always_to_csv].
    apply keeps_for. intros b _. by apply (keyed_process_batch2 J L2_written_columns).
Qed.

Lemma L2_columns_written (c : string) :
  c ∈ L2_columns "L2_pro" ++ L2_columns "L2_sonnet" ++ L2_agreement_columns →
  c ∈ L2_written_columns.
Proof.
  revert c. apply Forall_forall. by_compute.
Qed.

End OwnColumns.


(** X16.  Layer 2 writes under its own columns only, the flattened columns of
    the two judges and the three agreement columns: every frame it saves
    has the rows and columns of its input, with at most those columns
    added, and every cell under any other column as the input had it. *)
Theorem process_layer2_writes_own_columns_only `{Externals} (input_df : DataFrame)
    (gemini : nat → gemini_model) (claude : nat → claude_client) (batch_parallel_size : nat)
    (resume_from : option Z) (as_completed : list nat → list nat) :
  let out := process_layer2 input_df gemini claude batch_parallel_size resume_from
                            as_completed in
  Forall (cells_kept L2_written_columns input_df) (saved (snd out)).
Proof.
  intros out. apply process_layer2_keyed.
  - intros df j k v Hk. by apply cells_kept_at_set.
  - apply cells_kept_init_columns.
    { intros c Hc. apply L2_columns_written. apply elem_of_app. right.
      apply elem_of_app. by right. }
    apply cells_kept_init_columns; [|apply cells_kept_refl].
    intros c Hc. apply L2_columns_written. rewrite app_assoc. apply elem_of_app. by left.
Qed.

(** ** Merge stage: the merged frame *)

Lemma assign_column_row (df : DataFrame) (col : string) (values : list pyval) (j : nat) :
  rows (assign_column df col values) !! j =
    match rows df !! j, values !! j with
    | Some r, Some v => Some (<[col := v]> r)
    | _, _ => None
    end.
Proof.
  unfold assign_column. simpl. rewrite lookup_zip_with.
  destruct (rows df !! j); [|done]. simpl. by destruct (values !! j).
Qed.

Lemma assign_column_length (df : DataFrame) (col : string) (values : list pyval) :
  List.length values = List.length (rows df) →
  List.length (rows (assign_column df col values)) = List.length (rows df).
Proof. intros Hlen. unfold assign_column. simpl. rewrite length_zip_with. lia. Qed.

Lemma frame_cell_assign_same (df : DataFrame) (col : string) (values : list pyval) (j : nat) :
  List.length values = List.length (rows df) →
  frame_cell (assign_column df col values) j col = values !! j.
Proof.
  intros Hlen. unfold frame_cell. rewrite assign_column_row.
  destruct (rows df !! j) as [r|] eqn:Hr.
  - destruct (values !! j); [by rewrite lookup_insert_eq|done].
  - apply lookup_ge_None in Hr. symmetry. apply lookup_ge_None. lia.
Qed.

Lemma frame_cell_assign_other (df : DataFrame) (col c : string) (values : list pyval) (j : nat) :
  List.length values = List.length (rows df) → c ≠ col →
  frame_cell (assign_column df col values) j c = frame_cell df j c.
Proof.
  intros Hlen Hc. unfold frame_cell. rewrite assign_column_row.
  destruct (rows df !! j) as [r|] eqn:Hr; [|done].
  destruct (lookup_lt_is_Some_2 values j) as [v ->].
  { apply lookup_lt_Some in Hr. lia. }
  by rewrite lookup_insert_ne.
Qed.

Lemma frame_cell_set_column_same (df : DataFrame) (col : string) (v : pyval) (j : nat) :
  frame_cell (Pd.set_column df col v) j col = (fun _ => v) <$> rows df !! j.
Proof.
  unfold frame_cell. rewrite set_column_row. destruct (rows df !! j); [|done]. simpl.
  by rewrite lookup_insert_eq.
Qed.

Lemma frame_cell_set_column_other (df : DataFrame) (col c : string) (v : pyval) (j : nat) :
  c ≠ col → frame_cell (Pd.set_column df col v) j c = frame_cell df j c.
Proof.
  intros Hc. unfold frame_cell. rewrite set_column_row. destruct (rows df !! j); [|done]. simpl.
  by rewrite lookup_insert_ne.
Qed.

Lemma cells_kept_assign_column (names : list string) (df0 df : DataFrame) (col : string)
    (values : list pyval) :
  col ∈ names → List.length values = List.length (rows df) →
  cells_kept names df0 df → cells_kept names df0 (assign_column df col values).
Proof.
  intros Hk Hvals (Hlen & Hsub & Hcols & Hcells). split_and!.
  - by rewrite assign_column_length.
  - intros c Hc. unfold assign_column. simpl. case_match; [by apply Hsub|].
    apply elem_of_app. left. by apply Hsub.
  - intros c Hc. unfold assign_column in Hc. simpl in Hc.
    destruct (Pd.has_column df col); [by apply Hcols|].
    apply elem_of_app in Hc as [?|Hc]; [by apply Hcols|].
    apply list_elem_of_singleton in Hc as ->. by right.
  - intros j c Hc. rewrite <- Hcells by done.
    apply frame_cell_assign_other; [done|]. by intros ->.
Qed.

Lemma assign_column_columns (df : DataFrame) (col : string) (values : list pyval) :
  col ∈ columns (assign_column df col values).
Proof.
  unfold assign_column. simpl. destruct (Pd.has_column df col) eqn:Hcol.
  - by apply has_column_true.
  - apply elem_of_app. right. by left.
Qed.

Lemma assign_column_grows (df : DataFrame) (col c : string) (values : list pyval) :
  c ∈ columns df → c ∈ columns (assign_column df col values).
Proof.
  intros Hc. unfold assign_column. simpl. case_match; [done|]. apply elem_of_app. by left.
Qed.

Lemma set_column_grows (df : DataFrame) (col c : string) (v : pyval) :
  c ∈ columns df → c ∈ columns (Pd.set_column df col v).
Proof.
  intros Hc. unfold Pd.set_column. simpl. case_match; [done|]. apply elem_of_app. by left.
Qed.

Lemma set_column_columns (df : DataFrame) (col : string) (v : pyval) :
  col ∈ columns (Pd.set_column df col v).
Proof.
  unfold Pd.set_column. simpl. destruct (Pd.has_column df col) eqn:Hcol.
  - by apply has_column_true.
  - apply elem_of_app. right. by left.
Qed.

Ltac column_there :=
  repeat first [ apply assign_column_columns | apply set_column_columns
               | apply assign_column_grows | apply set_column_grows ].

Lemma dicts_columns_same (keys : list string) (dicts : list pydict) :
  NoDup keys → dicts ≠ [] → Forall (fun d => Py.dict_keys d = keys) dicts →
  dicts_columns dicts = keys.
Proof.
  intros Hnd Hne Hall. unfold dicts_columns.
  assert (∀ ks cols : list string, (∀ k, k ∈ ks → k ∈ cols) →
            fold_left (fun cols k => if bool_decide (k ∈ cols) then cols else cols ++ [k])
                      ks cols = cols) as Hold.
  { induction ks as [|k ks IH]; intros cols Hin; [done|]. simpl.
    rewrite bool_decide_eq_true_2 by (apply Hin; by left).
    apply IH. intros k' Hk'. apply Hin. by right. }
  assert (∀ ks pre : list string, NoDup (pre ++ ks) →
            fold_left (fun cols k => if bool_decide (k ∈ cols) then cols else cols ++ [k])
                      ks pre = pre ++ ks) as Hnew.
  { induction ks as [|k ks IH]; intros pre Hnd'; simpl; [by rewrite app_nil_r|].
    rewrite bool_decide_eq_false_2.
    - rewrite IH; rewrite <- app_assoc; done.
    - apply NoDup_app in Hnd' as (_ & Hdis & _). intros Hk. apply (Hdis k Hk). by left. }
  destruct dicts as [|d dicts]; [done|]. simpl.
  apply Forall_cons in Hall as [Hd Hall]. rewrite Hd, (Hnew keys []) by done. simpl.
  induction Hall as [|d' dicts' Hd' _ IH]; [done|]. simpl. rewrite Hd'.
  rewrite Hold by done. by apply IH.
Qed.

Section MergeFrame.
Context `{Externals}.

Lemma determine_final_decision_keys (row : gmap string pyval) :
  Py.dict_keys (determine_final_decision row)
  = ["auto_decision"; "review_priority"; "review_reason"].
Proof. unfold determine_final_decision. by repeat case_match. Qed.

(** The frame [main] saves, for an input with at least one row. *)
Lemma merge_main_frame (sample : list (gmap string pyval) → nat → list (gmap string pyval))
    (input_df : DataFrame) :
  rows input_df ≠ [] →
  ∃ out,
    (merge_main sample input_df =
       match generate_summary out with
       | Raise e => ([FullResults out], Raise e)
       | Ok s => let '(files, r) := export_for_review sample out in
                 (FullResults out :: SummaryFile s :: files, r)
       end)
    ∧ cells_kept merge_columns input_df out
    ∧ (∀ c, c ∈ merge_columns → c ∈ columns out)
    ∧ ∀ j row, rows input_df !! j = Some row →
        frame_cell out j "auto_decision"
          = Some (default VNaN (Py.dict_get (determine_final_decision row) "auto_decision"))
        ∧ frame_cell out j "review_priority"
          = Some (default VNaN (Py.dict_get (determine_final_decision row) "review_priority"))
        ∧ frame_cell out j "review_reason"
          = Some (default VNaN (Py.dict_get (determine_final_decision row) "review_reason"))
        ∧ frame_cell out j "final_decision"
          = Some (default VNaN (Py.dict_get (determine_final_decision row) "auto_decision"))
        ∧ frame_cell out j "human_decision" = Some VNone
        ∧ frame_cell out j "resolution_note" = Some VNone.
Proof.
  intros Hne. unfold merge_main.
  set (decisions := determine_final_decision <$> rows input_df).
  assert (dicts_columns decisions = ["auto_decision"; "review_priority"; "review_reason"])
    as ->.
  { apply dicts_columns_same.
    - by_compute.
    - subst decisions. by destruct (rows input_df).
    - subst decisions. apply Forall_fmap, Forall_forall. intros row _.
      apply determine_final_decision_keys. }
  cbn [fold_left].
  pose (vals := fun col => (fun d => default VNaN (Py.dict_get d col)) <$> decisions).
  change ((fun d => default VNaN (Py.dict_get d "auto_decision")) <$> decisions)
    with (vals "auto_decision").
  change ((fun d => default VNaN (Py.dict_get d "review_priority")) <$> decisions)
    with (vals "review_priority").
  change ((fun d => default VNaN (Py.dict_get d "review_reason")) <$> decisions)
    with (vals "review_reason").
  assert (∀ col, List.length (vals col) = List.length (rows input_df)) as Hvals.
  { intros col. unfold vals, decisions. by rewrite !length_fmap. }
  set (df1 := assign_column input_df "auto_decision" (vals "auto_decision")).
  set (df2 := assign_column df1 "review_priority" (vals "review_priority")).
  set (df3 := assign_column df2 "review_reason" (vals "review_reason")).
  set (df4 := Pd.set_column df3 "human_decision" VNone).
  set (df5 := Pd.set_column df4 "resolution_note" VNone).
  assert (List.length (rows df1) = List.length (rows input_df)) as Hl1
    by (by apply assign_column_length).
  assert (List.length (rows df2) = List.length (rows input_df)) as Hl2
    by (unfold df2; rewrite assign_column_length; [done|by rewrite Hl1]).
  assert (List.length (rows df3) = List.length (rows input_df)) as Hl3
    by (unfold df3; rewrite assign_column_length; [done|by rewrite Hl2]).
  assert (List.length (rows df5) = List.length (rows input_df)) as Hl5
    by (unfold df5, df4, Pd.set_column; simpl; by rewrite !length_fmap).
  assert (cells_kept merge_columns input_df df5) as Hkept.
  { do 2 (apply cells_kept_set_column; [by_compute|]).
    apply cells_kept_assign_column; [by_compute|by rewrite Hl2|].
    apply cells_kept_assign_column; [by_compute|by rewrite Hl1|].
    apply cells_kept_assign_column; [by_compute|done|]. apply cells_kept_refl. }
  assert ("auto_decision" ∈ columns df5) as Hauto
    by (unfold df5, df4, df3, df2, df1; column_there).
  unfold column at 1. rewrite (proj2 (has_column_true _ _) Hauto).
  set (auto := (fun r => Pd.cell r "auto_decision") <$> rows df5).
  set (out := assign_column df5 "final_decision" auto).
  assert (List.length auto = List.length (rows df5)) as Hlauto
    by (unfold auto; by rewrite length_fmap).
  exists out. split; [reflexivity|]. split; [|split].
  - apply cells_kept_assign_column; [by_compute|done|done].
  - intros c Hc. unfold merge_columns in Hc.
    repeat (apply elem_of_cons in Hc as [->|Hc]);
      [..|by apply elem_of_nil in Hc]; unfold out, df5, df4, df3, df2, df1; column_there.
  - intros j row Hrow.
    assert (∀ col, vals col !! j
                   = Some (default VNaN (Py.dict_get (determine_final_decision row) col)))
      as Hval.
    { intros col. unfold vals, decisions. by rewrite !list_lookup_fmap, Hrow. }
    assert (∀ c, c ≠ "final_decision" → frame_cell out j c = frame_cell df5 j c) as H6.
    { intros c Hc. unfold out. by rewrite frame_cell_assign_other. }
    assert (∀ c, c ≠ "resolution_note" → frame_cell df5 j c = frame_cell df4 j c) as H5.
    { intros c Hc. unfold df5. by rewrite frame_cell_set_column_other. }
    assert (∀ c, c ≠ "human_decision" → frame_cell df4 j c = frame_cell df3 j c) as H4.
    { intros c Hc. unfold df4. by rewrite frame_cell_set_column_other. }
    assert (∀ c, c ≠ "review_reason" → frame_cell df3 j c = frame_cell df2 j c) as H3.
    { intros c Hc. unfold df3. rewrite frame_cell_assign_other; [done| |done].
      by rewrite Hvals, Hl2. }
    assert (∀ c, c ≠ "review_priority" → frame_cell df2 j c = frame_cell df1 j c) as H2.
    { intros c Hc. unfold df2. rewrite frame_cell_assign_other; [done| |done].
      by rewrite Hvals, Hl1. }
    assert (frame_cell df5 j "auto_decision"
            = Some (default VNaN (Py.dict_get (determine_final_decision row) "auto_decision")))
      as Hcell_auto.
    { rewrite H5, H4, H3, H2 by done. unfold df1. by rewrite frame_cell_assign_same. }
    split_and!.
    + by rewrite H6.
    + rewrite H6, H5, H4, H3 by done. unfold df2.
      rewrite frame_cell_assign_same by (by rewrite Hvals, Hl1). done.
    + rewrite H6, H5, H4 by done. unfold df3.
      rewrite frame_cell_assign_same by (by rewrite Hvals, Hl2). done.
    + unfold out. rewrite frame_cell_assign_same by done.
      unfold auto. rewrite list_lookup_fmap.
      unfold frame_cell in Hcell_auto.
      destruct (rows df5 !! j) as [r|]; [|done]. simpl. unfold Pd.cell.
      by rewrite Hcell_auto.
    + rewrite H6, H5 by done. unfold df4. rewrite frame_cell_set_column_same.
      destruct (lookup_lt_is_Some_2 (rows df3) j) as [r ->]; [|done].
      rewrite Hl3. by eapply lookup_lt_Some.
    + rewrite H6 by done. unfold df5. rewrite frame_cell_set_column_same.
      destruct (lookup_lt_is_Some_2 (rows df4) j) as [r ->]; [|done].
      replace (List.length (rows df4)) with (List.length (rows df3))
        by (unfold df4, Pd.set_column; simpl; by rewrite length_fmap).
      rewrite Hl3. by eapply lookup_lt_Some.
Qed.

End MergeFrame.

(** ** Merge stage: the decision table and the counts *)

Section MergeTheorems.
Context `{Externals}.

Lemma determine_final_decision_cases (row : gmap string pyval) :
  let d := determine_final_decision row in
  (Py.dict_get d "auto_decision" = Some (VStr "exclude")
   ∧ Py.dict_get d "review_priority" = Some (VStr "none")
   ∧ Py.dict_get d "review_reason" = Some VNone)
  ∨ (Py.dict_get d "auto_decision" = Some (VStr "include")
     ∧ Py.dict_get d "review_priority" = Some (VStr "high")
     ∧ Py.dict_get d "review_reason" = Some (VStr "Both models include - verify"))
  ∨ (Py.dict_get d "auto_decision" = Some (VStr "exclude")
     ∧ Py.dict_get d "review_priority" = Some (VStr "low")
     ∧ Py.dict_get d "review_reason" = Some (VStr "Both models exclude"))
  ∨ (Py.dict_get d "auto_decision" = Some (VStr "uncertain")
     ∧ Py.dict_get d "review_priority" = Some (VStr "high")
     ∧ ∃ msg, Py.dict_get d "review_reason" = Some (VStr msg)).
Proof.
  unfold determine_final_decision. repeat case_match.
  - by left.
  - right; by left.
  - right; right; by left.
  - right; right; right. split_and!; [done..|by eexists].
Qed.

Lemma bsum_nonneg (mask : list bool) : (0 ≤ bsum mask)%Z.
Proof. unfold bsum. lia. Qed.

Lemma bsum_le_length (mask : list bool) : (bsum mask ≤ Z.of_nat (List.length mask))%Z.
Proof.
  unfold bsum. induction mask as [|b mask IH]; simpl; [lia|]. destruct b; simpl; lia.
Qed.

Lemma bsum_pos (mask : list bool) (j : nat) : mask !! j = Some true → (0 < bsum mask)%Z.
Proof.
  unfold bsum. revert j. induction mask as [|b mask IH]; intros j Hj; [done|].
  destruct j as [|j]; simpl in *.
  - injection Hj as ->. simpl. lia.
  - specialize (IH j Hj). destruct b; simpl; lia.
Qed.

(** Two masks that never hold together count at most the rows of a
    mask that covers both. *)
Lemma bsum_disjoint (a b m : list bool) :
  List.length a = List.length m → List.length b = List.length m →
  (∀ j, a !! j = Some true → b !! j = Some true → False) →
  (bsum (band a m) + bsum (band b m) ≤ bsum m)%Z.
Proof.
  unfold bsum, band. revert a b. induction m as [|z m IH]; intros [|x a] [|y b] Ha Hb Hdis;
    simpl in *; try lia.
  assert (∀ j, a !! j = Some true → b !! j = Some true → False) as Hdis'
    by (intros j; apply (Hdis (S j))).
  specialize (IH a b ltac:(lia) ltac:(lia) Hdis').
  destruct x, y, z; simpl; try lia. by destruct (Hdis 0%nat).
Qed.

Lemma band_lookup (a b : list bool) (j : nat) :
  band a b !! j = Some true → a !! j = Some true ∧ b !! j = Some true.
Proof.
  unfold band. rewrite lookup_zip_with. destruct (a !! j) as [[]|], (b !! j) as [[]|]; done.
Qed.

Lemma band_length (a b : list bool) :
  List.length a = List.length b → List.length (band a b) = List.length b.
Proof. intros Hl. unfold band. rewrite length_zip_with. lia. Qed.

Lemma eq_str_length (cells : list pyval) (s : string) :
  List.length (eq_str cells s) = List.length cells.
Proof. unfold eq_str. by rewrite length_fmap. Qed.

Lemma eq_str_lookup (cells : list pyval) (s : string) (j : nat) :
  eq_str cells s !! j = Some true ↔ cells !! j = Some (VStr s).
Proof.
  unfold eq_str. rewrite list_lookup_fmap. destruct (cells !! j) as [v|]; simpl; [|done].
  split.
  - intros Hv. injection Hv as Hv. by apply py_eq_str_r in Hv as ->.
  - intros Hv. injection Hv as ->. f_equal. by apply py_eq_str_r.
Qed.

Lemma column_lookup (df : DataFrame) (col : string) (cells : list pyval) (j : nat) (v : pyval) :
  column df col = Ok cells → frame_cell df j col = Some v → cells !! j = Some v.
Proof.
  unfold column, frame_cell. case_match; [|done]. intros Hc. injection Hc as <-.
  rewrite list_lookup_fmap. destruct (rows df !! j); [|done]. simpl. unfold Pd.cell.
  by intros ->.
Qed.

Lemma column_length (df : DataFrame) (col : string) (cells : list pyval) :
  column df col = Ok cells → List.length cells = List.length (rows df).
Proof.
  unfold column. case_match; [|done]. intros Hc. injection Hc as <-. by rewrite length_fmap.
Qed.

(** Three masks that split a list. *)
Lemma bsum_partition (a b c : list bool) (n : nat) :
  List.length a = n → List.length b = n → List.length c = n →
  (∀ j, (j < n)%nat →
        (a !! j = Some true ∧ b !! j = Some false ∧ c !! j = Some false)
        ∨ (a !! j = Some false ∧ b !! j = Some true ∧ c !! j = Some false)
        ∨ (a !! j = Some false ∧ b !! j = Some false ∧ c !! j = Some true)) →
  (bsum a + bsum b + bsum c = Z.of_nat n)%Z.
Proof.
  unfold bsum. revert a b c. induction n as [|n IH]; intros a b c Ha Hb Hc Hsplit.
  - by destruct a, b, c.
  - destruct a as [|x a], b as [|y b], c as [|z c]; simpl in *; try lia.
    assert (∀ j, (j < n)%nat →
              (a !! j = Some true ∧ b !! j = Some false ∧ c !! j = Some false)
              ∨ (a !! j = Some false ∧ b !! j = Some true ∧ c !! j = Some false)
              ∨ (a !! j = Some false ∧ b !! j = Some false ∧ c !! j = Some true)) as Hrest.
    { intros j Hj. apply (Hsplit (S j)). lia. }
    specialize (IH a b c ltac:(lia) ltac:(lia) ltac:(lia) Hrest).
    destruct (Hsplit 0%nat ltac:(lia)) as [(?&?&?)|[(?&?&?)|(?&?&?)]]; simpl in *;
      simplify_eq; simpl; lia.
Qed.

Lemma generate_summary_no_opus (df : DataFrame) (j : nat) :
  Pd.has_column df "L1_decision" = true →
  Pd.has_column df "L2_pro_decision" = true →
  Pd.has_column df "L2_opus_decision" = false →
  frame_cell df j "L1_decision" = Some (VStr "pass") →
  generate_summary df = Raise (KeyError "L2_opus_decision").
Proof.
  intros Hl1 Hpro Hopus Hpass. unfold generate_summary.
  destruct (column df "L1_decision") as [l1|] eqn:Hcol; [|unfold column in Hcol; by rewrite Hl1 in Hcol].
  cbn [pybind].
  assert (0 < bsum (eq_str l1 "pass"))%Z as Hpos.
  { apply (bsum_pos _ j), eq_str_lookup. by eapply column_lookup. }
  apply Z.ltb_lt in Hpos. rewrite Hpos.
  unfold column at 1. rewrite Hpro. cbn [pybind].
  unfold column at 1. by rewrite Hopus.
Qed.

End MergeTheorems.

(** ** Merge stage as a whole *)

Lemma bsum_mono (a b : list bool) :
  List.length a = List.length b →
  (∀ j, a !! j = Some true → b !! j = Some true) → (bsum a ≤ bsum b)%Z.
Proof.
  unfold bsum. revert b. induction a as [|x a IH]; intros [|y b] Hlen Himp; simpl in *; try lia.
  assert (∀ j, a !! j = Some true → b !! j = Some true) as Himp'
    by (intros j; apply (Himp (S j))).
  specialize (IH b ltac:(lia) Himp').
  destruct x, y; simpl; try lia. by specialize (Himp 0%nat eq_refl).
Qed.

Lemma column_cell (df : DataFrame) (col : string) (cells : list pyval) (j : nat) (s : string) :
  column df col = Ok cells → cells !! j = Some (VStr s) →
  frame_cell df j col = Some (VStr s).
Proof.
  unfold column, frame_cell. case_match; [|done]. intros Hc. injection Hc as <-.
  rewrite list_lookup_fmap. destruct (rows df !! j) as [r|]; [|done]. simpl. unfold Pd.cell.
  destruct (r !! col); simpl; [done|]. intros Hn. by injection Hn.
Qed.

Section MergeResults.
Context `{Externals}.

Lemma merge_main_no_opus (sample : list (gmap string pyval) → nat → list (gmap string pyval))
    (df : DataFrame) (j : nat) :
  Pd.has_column df "L1_decision" = true →
  Pd.has_column df "L2_pro_decision" = true →
  Pd.has_column df "L2_opus_decision" = false →
  frame_cell df j "L1_decision" = Some (VStr "pass") →
  ∃ out, merge_main sample df = ([FullResults out], Raise (KeyError "L2_opus_decision"))
         ∧ cells_kept merge_columns df out.
Proof.
  intros Hl1 Hpro Hopus Hpass.
  assert (rows df ≠ []) as Hne.
  { unfold frame_cell in Hpass. by destruct (rows df). }
  destruct (merge_main_frame sample df Hne) as (out & Hrun & Hkept & _).
  exists out. split; [|done]. rewrite Hrun.
  destruct Hkept as (_ & Hsub & Hcols & Hcells).
  rewrite (generate_summary_no_opus out j); [done| | | |].
  - by apply has_column_true, Hsub, has_column_true.
  - by apply has_column_true, Hsub, has_column_true.
  - apply has_column_false. intros Hc. destruct (Hcols _ Hc) as [Hc'|Hc'].
    + by apply has_column_false in Hopus.
    + revert Hc'. by_compute.
  - rewrite Hcells; [done|by_compute].
Qed.

End MergeResults.

(** X18.  In the file the merge stage saves, every row holds the decision the
    table gives for that row: auto_decision and review_priority are the
    table's, final_decision repeats auto_decision, human_decision and
    resolution_note are empty, and no cell under any other column has
    changed. *)
Theorem merge_main_decides_every_row `{Externals}
    (sample : list (gmap string pyval) → nat → list (gmap string pyval))
    (input_df : DataFrame) :
  rows input_df ≠ [] →
  ∃ out rest r,
    merge_main sample input_df = (FullResults out :: rest, r)
    ∧ cells_kept merge_columns input_df out
    ∧ ∀ j row, rows input_df !! j = Some row →
        frame_cell out j "auto_decision"
          = Py.dict_get (determine_final_decision row) "auto_decision"
        ∧ frame_cell out j "review_priority"
          = Py.dict_get (determine_final_decision row) "review_priority"
        ∧ frame_cell out j "final_decision"
          = Py.dict_get (determine_final_decision row) "auto_decision"
        ∧ frame_cell out j "human_decision" = Some VNone
        ∧ frame_cell out j "resolution_note" = Some VNone.
Proof.
  intros Hne. destruct (merge_main_frame sample input_df Hne) as (out & Hrun & Hkept & _ & Hcells).
  exists out.
  assert (∃ rest r, merge_main sample input_df = (FullResults out :: rest, r)) as (rest & r & Hout).
  { rewrite Hrun. destruct (generate_summary out); [|by eexists _, _].
    destruct (export_for_review sample out). by eexists _, _. }
  exists rest, r. split; [done|]. split; [done|].
  intros j row Hrow. destruct (Hcells j row Hrow) as (Ha & Hp & _ & Hf & Hh & Hn).
  rewrite Ha, Hp, Hf.
  destruct (determine_final_decision_cases row) as [(-> & -> & _)|[(-> & -> & _)|[(-> & -> & _)|(-> & -> & _)]]];
    by split_and!.
Qed.

(** X17.  The decision table has four outcomes and no other: "exclude" with
    priority "none" or "low", "include" with priority "high", "uncertain"
    with priority "high".  The automatic decision is never empty, and the
    priority is "high" exactly when the decision is not "exclude". *)
Theorem determine_final_decision_outcomes `{Externals} (row : gmap string pyval) :
  ∃ auto priority,
    Py.dict_get (determine_final_decision row) "auto_decision" = Some (VStr auto)
    ∧ Py.dict_get (determine_final_decision row) "review_priority" = Some (VStr priority)
    ∧ (auto, priority) ∈ [ ("exclude", "none"); ("include", "high");
                           ("exclude", "low"); ("uncertain", "high") ]
    ∧ (priority = "high" ↔ auto ≠ "exclude")
    ∧ (priority = "none" ↔ Py.eq (Pd.row_get row "L1_decision" VNone) (VStr "exclude") = true).
Proof.
  unfold determine_final_decision.
  destruct (Py.eq (Pd.row_get row "L1_decision" VNone) (VStr "exclude")) eqn:Hl1;
    repeat case_match; eexists _, _; (split; [reflexivity|]); (split; [reflexivity|]);
    (split; [by repeat constructor|]); split; split; done.
Qed.

(** X19.  Run on what Layer 2 leaves behind (with judges whose vendor
    calls raise nothing but [Exception]s), the merge stage saves the full
    results and then stops: as soon as one record has passed Layer 1,
    [generate_summary] asks for the column L2_opus_decision, which Layer 2
    never writes, and raises [KeyError]; the summary and the review files
    are not written. *)
Theorem merge_after_layer2_stops_at_summary `{Externals}
    (sample : list (gmap string pyval) → nat → list (gmap string pyval))
    (input_df : DataFrame) (gemini : nat → gemini_model) (claude : nat → claude_client)
    (batch_parallel_size : nat) (resume_from : option Z) (as_completed : list nat → list nat)
    (j : nat) :
  let out := process_layer2 input_df gemini claude batch_parallel_size resume_from
                            as_completed in
  (∀ i, well_behaved (gemini i)) → (∀ i, well_behaved (claude i)) →
  Pd.has_column input_df "L1_decision" = true →
  Pd.has_column input_df "L2_opus_decision" = false →
  batch_parallel_size ≠ 0%nat →
  (∀ l, as_completed l ≡ₚ l) →
  frame_cell input_df j "L1_decision" = Some (VStr "pass") →
  ∃ layer2_results merged,
    fst out = Ok tt
    ∧ last (saved (snd out)) = Some layer2_results
    ∧ merge_main sample layer2_results
      = ([FullResults merged], Raise (KeyError "L2_opus_decision")).
Proof.
  intros out Hgemini Hclaude Hl1 Hopus Hbs Hperm Hpass.
  destruct (process_layer2_run input_df gemini claude batch_parallel_size resume_from
              as_completed Hgemini Hclaude Hl1 Hbs Hperm) as (st & Hrun & Hlast & _).
  pose proof (process_layer2_keyed (cells_kept L2_written_columns input_df) input_df gemini
                claude batch_parallel_size resume_from as_completed) as Hkept.
  pose proof (process_layer2_keyed (fun df => "L2_pro_decision" ∈ columns df) input_df gemini
                claude batch_parallel_size resume_from as_completed) as Hpro.
  unfold out. rewrite Hrun in *. cbn [fst snd] in *.
  assert (frame st ∈ saved st) as Hin.
  { destruct (saved st) as [|d l] using rev_ind; [done|].
    rewrite last_snoc in Hlast. injection Hlast as ->. apply elem_of_app. right. by left. }
  assert (Forall (cells_kept L2_written_columns input_df) (saved st)) as HK.
  { apply Hkept.
    - intros df i k v Hk. by apply cells_kept_at_set.
    - apply cells_kept_init_columns.
      { intros c Hc. apply L2_columns_written. apply elem_of_app. right.
        apply elem_of_app. by right. }
      apply cells_kept_init_columns; [|apply cells_kept_refl].
      intros c Hc. apply L2_columns_written. rewrite app_assoc. apply elem_of_app. by left. }
  assert (Forall (fun df => "L2_pro_decision" ∈ columns df) (saved st)) as HP.
  { apply Hpro.
    - intros df i k v _. apply at_set_columns.
    - apply init_columns_grows, init_columns_has. by_compute. }
  rewrite Forall_forall in HK, HP.
  destruct (HK _ Hin) as (_ & Hsub & Hcols & Hcells). pose proof (HP _ Hin) as Hprocol.
  destruct (merge_main_no_opus sample (frame st) j) as (merged & Hmerge & _).
  - by apply has_column_true, Hsub, has_column_true.
  - by apply has_column_true.
  - apply has_column_false. intros Hc. destruct (Hcols _ Hc) as [Hc'|Hc'].
    + by apply has_column_false in Hopus.
    + revert Hc'. by_compute.
  - rewrite Hcells; [done|by_compute].
  - by exists (frame st), merged.
Qed.

Lemma select_rows_length (df : DataFrame) (mask : list bool) :
  List.length mask = List.length (rows df) →
  Z.of_nat (List.length (rows (select_rows df mask))) = bsum mask.
Proof.
  unfold select_rows, bsum. simpl. rewrite length_fmap. generalize (rows df) as rs.
  induction mask as [|b mask IH]; intros [|r rs] Hlen; simpl in *; try done.
  specialize (IH rs ltac:(lia)). destruct b; simpl; lia.
Qed.

Lemma bsum_two_le (a b : list bool) :
  List.length a = List.length b →
  (∀ j, a !! j = Some true → b !! j = Some true → False) →
  (bsum a + bsum b ≤ Z.of_nat (List.length a))%Z.
Proof.
  unfold bsum. revert b. induction a as [|x a IH]; intros [|y b] Hlen Hdis; simpl in *; try lia.
  assert (∀ j, a !! j = Some true → b !! j = Some true → False) as Hdis'
    by (intros j; apply (Hdis (S j))).
  specialize (IH b ltac:(lia) Hdis').
  destruct x, y; simpl; try lia. by destruct (Hdis 0%nat).
Qed.

Section MergeCounts.
Context `{Externals}.

(** What [main] hands to [generate_summary], when it gets that far. *)
Lemma merge_main_summary (sample : list (gmap string pyval) → nat → list (gmap string pyval))
    (input_df out : DataFrame) (s : summary) (files : list written) (r : pyres unit) :
  rows input_df ≠ [] →
  merge_main sample input_df = (FullResults out :: SummaryFile s :: files, r) →
  generate_summary out = Ok s
  ∧ export_for_review sample out = (files, r)
  ∧ cells_kept merge_columns input_df out
  ∧ (∀ c, c ∈ merge_columns → c ∈ columns out)
  ∧ ∀ j row, rows input_df !! j = Some row →
      frame_cell out j "auto_decision"
        = Py.dict_get (determine_final_decision row) "auto_decision"
      ∧ frame_cell out j "review_priority"
        = Py.dict_get (determine_final_decision row) "review_priority".
Proof.
  intros Hne Hrun.
  destruct (merge_main_frame sample input_df Hne) as (out' & Hrun' & Hkept & Hcols & Hcells).
  rewrite Hrun' in Hrun.
  destruct (generate_summary out') as [s'|e] eqn:Hsum; [|done].
  destruct (export_for_review sample out') as [files' r'] eqn:Hexp.
  injection Hrun as -> -> -> ->. split_and!; [done..|].
  intros j row Hrow. destruct (Hcells j row Hrow) as (Ha & Hp & _).
  rewrite Ha, Hp.
  destruct (determine_final_decision_cases row)
    as [(-> & -> & _)|[(-> & -> & _)|[(-> & -> & _)|(-> & -> & _)]]]; by split.
Qed.

End MergeCounts.

(** X20.  The numbers of the summary add up: every record is counted under
    exactly one of the three final decisions, every record Layer 1
    excluded is among the final excludes, and the records Layer 2
    evaluated split into both-include, both-exclude and disagreement. *)
Theorem merge_summary_counts_add_up `{Externals}
    (sample : list (gmap string pyval) → nat → list (gmap string pyval))
    (input_df out : DataFrame) (s : summary) (files : list written) (r : pyres unit) :
  rows input_df ≠ [] →
  merge_main sample input_df = (FullResults out :: SummaryFile s :: files, r) →
  total s = Z.of_nat (List.length (rows input_df))
  ∧ (final_include s + final_exclude s + final_uncertain s = total s)%Z
  ∧ (l1_exclude s ≤ final_exclude s)%Z
  ∧ (l1_exclude s + l1_pass s ≤ total s)%Z
  ∧ l2_records s = l1_pass s
  ∧ (l2_both_include s + l2_both_exclude s + l2_disagree s = l2_records s)%Z
  ∧ (0 ≤ l2_disagree s)%Z.
Proof.
  intros Hne Hrun.
  destruct (merge_main_summary sample input_df out s files r Hne Hrun)
    as (Hsum & _ & (Hlen & _ & _ & Hkept) & _ & Hcells).
  unfold generate_summary in Hsum.
  destruct (column out "L1_decision") as [l1|] eqn:Hl1; [|done]. cbn [pybind] in Hsum.
  pose proof (column_length _ _ _ Hl1) as Hl1len.
  set (m := eq_str l1 "pass") in *.
  destruct (0 <? bsum m)%Z eqn:Hpos.
  - destruct (column out "L2_pro_decision") as [pro|] eqn:Hpro; [|done]. cbn [pybind] in Hsum.
    destruct (column out "L2_opus_decision") as [opus|] eqn:Hopus; [|done].
    cbn [pybind] in Hsum.
    destruct (column out "auto_decision") as [auto|] eqn:Hauto; [|done].
    cbn [pybind] in Hsum. injection Hsum as <-. cbn.
    pose proof (column_length _ _ _ Hpro) as Hprolen.
    pose proof (column_length _ _ _ Hopus) as Hopuslen.
    pose proof (column_length _ _ _ Hauto) as Hautolen.
    split_and!.
    + by rewrite Hlen.
    + apply bsum_partition; rewrite ?eq_str_length; try done.
      intros j Hj.
      destruct (lookup_lt_is_Some_2 (rows input_df) j) as [row Hrow]; [lia|].
      destruct (Hcells j row Hrow) as [Ha _].
      assert (∃ v, Py.dict_get (determine_final_decision row) "auto_decision" = Some (VStr v)
                   ∧ (v = "include" ∨ v = "exclude" ∨ v = "uncertain")) as (v & Hv & Hcase).
      { destruct (determine_final_decision_cases row)
          as [(-> & _)|[(-> & _)|[(-> & _)|(-> & _)]]]; eexists; split; eauto. }
      rewrite Hv in Ha. pose proof (column_lookup _ _ _ _ _ Hauto Ha) as Hj'.
      unfold eq_str. rewrite !list_lookup_fmap, Hj'. simpl.
      destruct Hcase as [->|[->| ->]]; [left|right; left|right; right]; done.
    + apply bsum_mono; [by rewrite !eq_str_length, Hl1len, Hautolen|].
      intros j Hj. apply eq_str_lookup in Hj. apply eq_str_lookup.
      pose proof (column_cell _ _ _ _ _ Hl1 Hj) as Hcell.
      rewrite Hkept in Hcell by by_compute.
      unfold frame_cell in Hcell. destruct (rows input_df !! j) as [row|] eqn:Hrow; [|done].
      destruct (Hcells j row Hrow) as [Ha _].
      eapply column_lookup; [exact Hauto|]. rewrite Ha.
      unfold determine_final_decision, Pd.row_get. rewrite Hcell. done.
    + pose proof (bsum_two_le (eq_str l1 "exclude") (eq_str l1 "pass")) as Hd.
      rewrite !eq_str_length, Hl1len, Hlen in Hd. rewrite Hlen. apply Hd; [done|].
      intros j Ha Hb. apply eq_str_lookup in Ha, Hb. congruence.
    + done.
    + lia.
    + pose proof (bsum_disjoint (band (eq_str pro "include") (eq_str opus "include"))
                    (band (eq_str pro "exclude") (eq_str opus "exclude")) m) as Hd.
      unfold m in *. rewrite !band_length, !eq_str_length in Hd
        by (rewrite !eq_str_length; lia).
      specialize (Hd ltac:(lia) ltac:(lia)).
      assert (∀ j, band (eq_str pro "include") (eq_str opus "include") !! j = Some true →
                   band (eq_str pro "exclude") (eq_str opus "exclude") !! j = Some true →
                   False) as Hdis.
      { intros j Ha Hb. apply band_lookup in Ha as [Ha _], Hb as [Hb _].
        apply eq_str_lookup in Ha, Hb. congruence. }
      specialize (Hd Hdis). lia.
  - destruct (column out "auto_decision") as [auto|] eqn:Hauto; [|done].
    cbn [pybind] in Hsum. injection Hsum as <-. cbn.
    pose proof (column_length _ _ _ Hauto) as Hautolen.
    apply Z.ltb_ge in Hpos. pose proof (bsum_nonneg m).
    assert (bsum m = 0)%Z as Hm0 by lia.
    split_and!.
    + by rewrite Hlen.
    + apply bsum_partition; rewrite ?eq_str_length; try done.
      intros j Hj.
      destruct (lookup_lt_is_Some_2 (rows input_df) j) as [row Hrow]; [lia|].
      destruct (Hcells j row Hrow) as [Ha _].
      assert (∃ v, Py.dict_get (determine_final_decision row) "auto_decision" = Some (VStr v)
                   ∧ (v = "include" ∨ v = "exclude" ∨ v = "uncertain")) as (v & Hv & Hcase).
      { destruct (determine_final_decision_cases row)
          as [(-> & _)|[(-> & _)|[(-> & _)|(-> & _)]]]; eexists; split; eauto. }
      rewrite Hv in Ha. pose proof (column_lookup _ _ _ _ _ Hauto Ha) as Hj'.
      unfold eq_str. rewrite !list_lookup_fmap, Hj'. simpl.
      destruct Hcase as [->|[->| ->]]; [left|right; left|right; right]; done.
    + apply bsum_mono; [by rewrite !eq_str_length, Hl1len, Hautolen|].
      intros j Hj. apply eq_str_lookup in Hj. apply eq_str_lookup.
      pose proof (column_cell _ _ _ _ _ Hl1 Hj) as Hcell.
      rewrite Hkept in Hcell by by_compute.
      unfold frame_cell in Hcell. destruct (rows input_df !! j) as [row|] eqn:Hrow; [|done].
      destruct (Hcells j row Hrow) as [Ha _].
      eapply column_lookup; [exact Hauto|]. rewrite Ha.
      unfold determine_final_decision, Pd.row_get. rewrite Hcell. done.
    + rewrite Hm0. pose proof (bsum_le_length (eq_str l1 "exclude")) as Hle.
      rewrite eq_str_length, Hl1len, Hlen in Hle. rewrite Hlen. lia.
    + done.
    + lia.
    + lia.
Qed.

Lemma bsum_or (a b c : list bool) :
  List.length a = List.length c → List.length b = List.length c →
  (∀ j, c !! j = Some true ↔ a !! j = Some true ∨ b !! j = Some true) →
  (∀ j, a !! j = Some true → b !! j = Some true → False) →
  (bsum c = bsum a + bsum b)%Z.
Proof.
  unfold bsum. revert a b. induction c as [|z c IH]; intros [|x a] [|y b] Ha Hb Hor Hdis;
    simpl in *; try lia.
  assert ((Z.of_nat (List.length (List.filter id c))
           = Z.of_nat (List.length (List.filter id a))
             + Z.of_nat (List.length (List.filter id b)))%Z) as IH'.
  { apply IH; [lia|lia| |].
    - intros j. apply (Hor (S j)).
    - intros j. apply (Hdis (S j)). }
  pose proof (Hor 0%nat) as H0. pose proof (Hdis 0%nat) as D0. simpl in H0, D0.
  destruct x, y, z; simpl; try lia; exfalso;
    first [ by apply D0
          | by pose proof (proj2 H0 (or_introl eq_refl))
          | by pose proof (proj2 H0 (or_intror eq_refl))
          | by destruct (proj1 H0 eq_refl) ].
Qed.

Lemma generate_summary_final (df : DataFrame) (s : summary) :
  generate_summary df = Ok s →
  ∃ auto, column df "auto_decision" = Ok auto
          ∧ final_include s = bsum (eq_str auto "include")
          ∧ final_exclude s = bsum (eq_str auto "exclude")
          ∧ final_uncertain s = bsum (eq_str auto "uncertain").
Proof.
  unfold generate_summary, pybind. intros Hsum.
  repeat case_match; simplify_eq; by eexists.
Qed.

Lemma export_for_review_high
    (sample : list (gmap string pyval) → nat → list (gmap string pyval))
    (df : DataFrame) (priority : list pyval) :
  column df "review_priority" = Ok priority →
  ∃ high_file low_file,
    export_for_review sample df = (high_file ++ low_file, Ok tt)
    ∧ (∀ high, HighPriority high ∉ low_file)
    ∧ ((0 < List.length (rows (select_rows df (eq_str priority "high"))))%nat →
       ∃ high, high_file = [HighPriority high]
               ∧ List.length (rows high)
                 = List.length (rows (select_rows df (eq_str priority "high"))))
    ∧ (List.length (rows (select_rows df (eq_str priority "high"))) = 0%nat →
       high_file = []).
Proof.
  intros Hc. unfold export_for_review. rewrite Hc.
  eexists _, _. split; [reflexivity|]. split_and!.
  - intros high Hin. case_match; [|by apply elem_of_nil in Hin].
    by apply list_elem_of_singleton in Hin.
  - intros Hpos. apply Nat.ltb_lt in Hpos. rewrite Hpos.
    eexists. split; [reflexivity|]. unfold project. cbn [rows]. apply length_fmap.
  - intros Hzero. by rewrite Hzero.
Qed.

(** X21.  The high-priority review file holds as many records as the summary
    announces, the final includes and the uncertain ones, and it is not
    written when there are none. *)
Theorem merge_exports_high_priority_records `{Externals}
    (sample : list (gmap string pyval) → nat → list (gmap string pyval))
    (input_df out : DataFrame) (s : summary) (files : list written) (r : pyres unit) :
  rows input_df ≠ [] →
  merge_main sample input_df = (FullResults out :: SummaryFile s :: files, r) →
  r = Ok tt
  ∧ ((0 < final_include s + final_uncertain s)%Z →
     ∃ high rest, files = HighPriority high :: rest
                  ∧ Z.of_nat (List.length (rows high))
                    = (final_include s + final_uncertain s)%Z)
  ∧ ((final_include s + final_uncertain s = 0)%Z → ∀ high, HighPriority high ∉ files).
Proof.
  intros Hne Hrun.
  destruct (merge_main_summary sample input_df out s files r Hne Hrun)
    as (Hsum & Hexp & (Hlen & _) & Hcols & Hcells).
  destruct (generate_summary_final out s Hsum) as (auto & Hauto & -> & _ & ->).
  assert ("review_priority" ∈ columns out) as Hprio by (apply Hcols; by_compute).
  destruct (column out "review_priority") as [priority|] eqn:Hpriority;
    [|unfold column in Hpriority;
      by rewrite (proj2 (has_column_true _ _) Hprio) in Hpriority].
  clear Hprio.
  pose proof (column_length _ _ _ Hpriority) as Hplen.
  pose proof (column_length _ _ _ Hauto) as Halen.
  assert (bsum (eq_str priority "high")
          = bsum (eq_str auto "include") + bsum (eq_str auto "uncertain"))%Z as Hcount.
  { apply bsum_or; rewrite ?eq_str_length; try lia.
    - intros j. rewrite !eq_str_lookup.
      destruct (rows input_df !! j) as [row|] eqn:Hrow.
      + destruct (Hcells j row Hrow) as [Ha Hp].
        destruct (determine_final_decision_cases row)
          as [(Hda & Hdp & _)|[(Hda & Hdp & _)|[(Hda & Hdp & _)|(Hda & Hdp & _)]]];
          rewrite Hda in Ha; rewrite Hdp in Hp;
          rewrite (column_lookup _ _ _ _ _ Hauto Ha), (column_lookup _ _ _ _ _ Hpriority Hp);
          split; intros Hx; repeat destruct Hx as [Hx|Hx]; simplify_eq; auto.
      + apply lookup_ge_None in Hrow.
        rewrite !(proj2 (lookup_ge_None _ _)) by lia. split; [done|by intros [|]].
    - intros j Ha Hb. apply eq_str_lookup in Ha, Hb. congruence. }
  pose proof (select_rows_length out (eq_str priority "high")) as Hhigh.
  rewrite eq_str_length in Hhigh. specialize (Hhigh Hplen).
  clear Hrun Hsum Hcells.
  destruct (export_for_review_high sample out priority Hpriority)
    as (high_file & low_file & Hexp' & Hlow & Hsome & Hnone).
  rewrite Hexp' in Hexp. clear Hexp'.
  assert (files = high_file ++ low_file) as -> by congruence.
  assert (r = Ok tt) as -> by congruence.
  split; [done|]. rewrite <- Hcount, <- Hhigh. split.
  - intros Hpos. destruct Hsome as (high & -> & Hlenh); [lia|].
    exists high, low_file. split; [done|]. by rewrite Hlenh.
  - intros Hzero high Hin. rewrite Hnone in Hin by lia. by apply (Hlow high).
Qed.

(** ** The retry of the Claude errors *)

Lemma frame_cell_at_set_row (df : DataFrame) (j idx : nat) (c k : string) (v : pyval) :
  j ≠ idx → c ∈ columns df → frame_cell (Pd.at_set df idx k v) j c = frame_cell df j c.
Proof.
  intros Hne Hc. rewrite frame_cell_at_set. unfold frame_cell.
  destruct (rows df !! j) as [r|]; [|done].
  destruct (decide (c = k)) as [->|]; [|done].
  destruct (decide (j = idx)); [done|].
  by rewrite (proj2 (has_column_true df k) Hc).
Qed.

Lemma frame_cell_set_items_row (idx j : nat) (items : pydict) (df : DataFrame) (c : string) :
  j ≠ idx → c ∈ columns df → frame_cell (set_items idx items df) j c = frame_cell df j c.
Proof.
  unfold set_items. revert df.
  induction items as [|[k v] items IH]; intros df Hne Hc; [done|].
  simpl. rewrite IH; [|done|by apply at_set_columns]. by apply frame_cell_at_set_row.
Qed.

Lemma cells_kept_set_items (names : list string) (df0 df : DataFrame) (idx : nat)
    (items : pydict) :
  (∀ k, k ∈ Py.dict_keys items → k ∈ names) →
  cells_kept names df0 df → cells_kept names df0 (set_items idx items df).
Proof.
  unfold set_items, Py.dict_keys. revert df.
  induction items as [|[k v] items IH]; intros df Hk Hdf; [done|].
  simpl. apply IH.
  - intros k' Hk'. apply Hk. by right.
  - apply cells_kept_at_set; [apply Hk; by left|done].
Qed.

Lemma retry_columns_apart :
  Forall (fun c => c ∉ retry_columns) ["title"; "abstract"; "record_id"; "L2_pro_decision"].
Proof. by_compute. Qed.

Lemma sonnet_columns_retried :
  Forall (fun k => (k ∈ retry_columns)
                   ∧ (k ∉ ["L2_sonnet_thinking"; "L2_models_agree"; "L2_pro_decision"]))
         (fixed_columns "L2_sonnet").
Proof. by_compute. Qed.

Section RetryAnswer.
Context `{Externals}.

Lemma extract_result_no_error (parsed : pyval) (r : pydict) :
  Layer2.extract_inclusion_result parsed = Ok r → Py.dict_get r "error" = Some VNone.
Proof.
  unfold Layer2.extract_inclusion_result, pybind. intros Hrun.
  repeat case_match; by simplify_eq.
Qed.

Lemma claude_body_retry_shaped (o : outcome claude_message) (d : pydict) :
  Layer2.claude_try_body o = Ok (Return d) → retry_shaped d.
Proof.
  intros Hrun. split; [by eapply claude_body_judged|]. right.
  unfold Layer2.claude_try_body, pybind, call in Hrun.
  repeat case_match; simplify_eq;
    match goal with
    | Hx : Layer2.extract_inclusion_result _ = Ok _ |- _ =>
        apply extract_result_no_error in Hx as Herr
    end;
    (split;
     [unfold still_failing; rewrite !dict_get_set_ne by done; by rewrite Herr
     |rewrite !dict_get_set_ne by done; rewrite dict_get_set_eq; by eexists]).
Qed.

Lemma claude_retry_shaped (c : claude_client) (title abstract : string)
    (record_id : option string) (max_retries : Z) :
  well_behaved c →
  ∃ d n, Layer2.screen_with_claude c title abstract record_id max_retries = (Ok d, n)
         ∧ retry_shaped d.
Proof.
  intros Hc. unfold Layer2.screen_with_claude.
  destruct (layer2_loop retry_shaped Layer2.claude_try_body
              (c (format_layer2_prompt title abstract)) max_retries
              (seq 0 (Z.to_nat max_retries)) 0) as (d & n & Hrun & _ & Hd).
  - intros e. split; [apply error_result_judged|]. left. by eexists.
  - split; [apply max_retries_result_judged|]. left. by eexists.
  - intros attempt e _. apply claude_body_is_exception, Hc.
  - intros attempt d _. apply claude_body_retry_shaped.
  - eauto.
Qed.

End RetryAnswer.

Section RetryRun.
Context `{Externals}.
Context (df0 : DataFrame) (client : nat → claude_client).
Context (Hpro : "L2_pro_decision" ∈ columns df0).
Context (Hclient : ∀ i, well_behaved (client i)).

Lemma retry_state_weaken (D D' : nat → Prop) (st : run) :
  (∀ i, D' i ↔ D i) → retry_state df0 client D st → retry_state df0 client D' st.
Proof.
  intros HD (Hkept & Hfail & Hdone). split_and!; [done| |].
  - intros j c Hn. apply Hfail. intros [? ?]. apply Hn. split; [by apply HD|done].
  - intros j Hj. by apply Hdone, HD.
Qed.

(** One row of a batch. *)
Lemma retry_record_step (D : nat → Prop) (idx : nat) (st : run) :
  (idx < List.length (rows df0))%nat → retry_state df0 client D st →
  ∃ st', retry_record client idx st = (Ok tt, st')
         ∧ retry_state df0 client (fun i => D i ∨ i = idx) st'
         ∧ saved st' = saved st ∧ submitted st' = submitted st ++ [idx].
Proof.
  intros Hidx (Hkept & Hfail & Hdone).
  pose proof Hkept as (Hlen & Hsub & Hcols & Hcells).
  destruct (lookup_lt_is_Some_2 (rows df0) idx Hidx) as [r0 Hr0].
  destruct (lookup_lt_is_Some_2 (rows (frame st)) idx) as [r Hr]; [lia|].
  pose proof retry_columns_apart as Hapart.
  rewrite !Forall_cons in Hapart. destruct Hapart as (Ht & Ha & Hi & Hp & _).
  assert (∀ c, c ∉ retry_columns → r !! c = r0 !! c) as Hsame.
  { intros c Hc. specialize (Hcells idx c Hc). unfold frame_cell in Hcells.
    by rewrite Hr, Hr0 in Hcells. }
  assert (∃ result, retry_answer df0 client idx = Ok result ∧ retry_shaped result
            ∧ fst (Layer2.screen_with_claude (client idx)
                     (py_str (Pd.row_get r "title" (VStr "")))
                     (py_str (Pd.row_get r "abstract" (VStr "")))
                     (Some (py_str (Pd.row_get r "record_id" (VInt (Z.of_nat idx))))) 3)
              = Ok result) as (result & Hanswer & [Hjudged Hcase] & Hcall).
  { unfold retry_answer, Pd.iloc, Pd.row_get. rewrite Hr0, !Hsame by done. cbn [pybind].
    edestruct claude_retry_shaped as (d & n & Hrun & Hd); [apply (Hclient idx)|].
    exists d. rewrite Hrun. by split_and!. }
  unfold retry_record.
  unfold st_bind at 1, get_frame. unfold st_bind at 1, st_lift, Pd.iloc. rewrite Hr.
  unfold st_bind at 1, submit. unfold st_bind at 1. rewrite Hcall.
  destruct (still_failing result) eqn:Hsf.
  - destruct Hcase as [[msg Hmsg]|[Hok _]]; [|congruence].
    unfold st_bind, Py.dict_index. rewrite Hmsg. cbn [py_slice_to st_ret].
    eexists. split; [reflexivity|]. cbn [frame saved submitted]. split; [|done].
    split_and!; [done| |].
    + intros j c Hn. apply Hfail. intros [? ?]. apply Hn. split; [by left|done].
    + intros j [Hj | ->]; [by apply Hdone|].
      intros result' Hanswer' Hsf'. congruence.
  - destruct Hcase as [[msg Hmsg]|[_ [t Hthink]]].
    { unfold still_failing in Hsf. by rewrite Hmsg in Hsf. }
    destruct Hjudged as [Hshaped _].
    destruct (flatten_shaped result "L2_sonnet" Hshaped) as (sf & Hflat & Hkeys & _).
    destruct Hshaped as ([dec Hdec] & [conf Hconf] & _).
    assert (∃ cut, (if Py.truthy (VStr t) then py_slice_to 500 (VStr t) else Ok (VStr ""))
                   = Ok (VStr cut)) as [cut Hcut].
    { destruct (Py.truthy (VStr t)); by eexists. }
    assert (NoDup (Py.dict_keys sf)) as Hnd by (rewrite Hkeys; apply fixed_columns_NoDup).
    assert (∀ k, k ∈ Py.dict_keys sf →
                 (k ∈ retry_columns)
                 ∧ (k ∉ ["L2_sonnet_thinking"; "L2_models_agree"; "L2_pro_decision"]))
      as Hsonnet.
    { intros k Hk. rewrite Hkeys in Hk.
      exact (proj1 (Forall_forall _ _) sonnet_columns_retried k Hk). }
    set (df1 := set_items idx sf (frame st)).
    set (df2 := Pd.at_set df1 idx "L2_sonnet_thinking" (VStr cut)).
    assert (rows df2 !! idx = Some (<["L2_sonnet_thinking" := VStr cut]> (insert_items sf r)))
      as Hr2.
    { subst df2 df1. apply at_set_row_eq. by apply set_items_row. }
    assert ("L2_pro_decision" ∈ columns df2) as Hpro2.
    { subst df2 df1. apply at_set_columns, set_items_columns. by apply Hsub. }
    assert (at_get df2 idx "L2_pro_decision"
            = Ok (default VNaN (frame_cell df0 idx "L2_pro_decision"))) as Hget.
    { unfold at_get. rewrite (proj2 (has_column_true _ _) Hpro2), Hr2.
      unfold Pd.cell, frame_cell. rewrite Hr0, lookup_insert_ne by done.
      rewrite insert_items_notin, Hsame; [done..|].
      intros Hin. apply Hsonnet in Hin as [_ Hin]. apply Hin. by repeat constructor. }
    set (agree := VBool (Py.eq (default VNaN (frame_cell df0 idx "L2_pro_decision")) dec)).
    set (df3 := Pd.at_set df2 idx "L2_models_agree" agree).
    exists {| frame := df3; saved := saved st; submitted := submitted st ++ [idx] |}.
    split.
    { unfold st_bind at 1, st_lift. rewrite Hflat.
      unfold st_bind at 1. rewrite st_for_at_set. cbn [frame saved submitted]. fold df1.
      rewrite (proj2 (dict_has_true result "thinking")) by by eexists.
      unfold st_bind at 1. unfold st_bind at 1, Py.dict_index. rewrite Hthink.
      unfold st_bind at 1. rewrite Hcut. unfold at_set at 1. cbn [frame saved submitted].
      fold df2.
      unfold st_bind at 1, get_frame. cbn [frame]. unfold st_bind at 1. rewrite Hget.
      unfold st_bind at 1. rewrite Hdec. unfold st_bind at 1, at_set. cbn [frame saved submitted].
      unfold st_bind at 1. unfold st_bind at 1. by rewrite Hconf. }
    cbn [saved submitted]. split; [|done].
    assert (cells_kept retry_columns df0 df3) as Hkept3.
    { subst df3 df2 df1. apply cells_kept_at_set; [by_compute|].
      apply cells_kept_at_set; [by_compute|].
      apply cells_kept_set_items; [|done]. intros k Hk. by apply Hsonnet. }
    assert (∀ j c, j ≠ idx → c ∈ columns (frame st) →
                   frame_cell df3 j c = frame_cell (frame st) j c) as Hother.
    { intros j c Hne Hc. subst df3 df2 df1.
      rewrite !frame_cell_at_set_row;
        [by apply frame_cell_set_items_row|done
        |by apply set_items_columns|done
        |by apply at_set_columns, set_items_columns]. }
    assert (∀ c, c ∈ columns (frame st) → c ∈ columns df3) as Hcols3.
    { intros c Hc. subst df3 df2 df1. by do 2 apply at_set_columns; apply set_items_columns. }
    split_and!; cbn [frame]; [done| |].
    + intros j c Hn Hc. destruct (decide (j = idx)) as [->|Hne].
      { destruct Hn. split; [by right|]. unfold retry_succeeds. by rewrite Hanswer, Hsf. }
      rewrite Hother by auto. apply Hfail; [|done].
      intros [? ?]. apply Hn. split; [by left|done].
    + intros j Hj. destruct (decide (j = idx)) as [->|Hne].
      * intros result' Hanswer' _. assert (result' = result) as -> by congruence.
        exists (sf ++ [("L2_sonnet_thinking", VStr cut); ("L2_models_agree", agree)]).
        split.
        { unfold retry_cells, Py.dict_index. rewrite Hflat, Hthink, Hdec.
          cbn [pybind]. by rewrite Hcut. }
        assert (rows df3 !! idx
                = Some (<["L2_models_agree" := agree]>
                          (<["L2_sonnet_thinking" := VStr cut]> (insert_items sf r)))) as Hr3.
        { subst df3. by apply at_set_row_eq. }
        unfold frame_cell. rewrite Hr3. apply Forall_app. split.
        -- apply Forall_forall. intros [k v] Hkv. cbn [fst snd].
           assert (k ∈ Py.dict_keys sf) as Hk by (apply list_elem_of_fmap; by exists (k, v)).
           split.
           { subst df3 df2 df1. do 2 apply at_set_columns. by apply set_items_columns_new. }
           pose proof (proj2 (Hsonnet k Hk)) as Hno.
           rewrite !lookup_insert_ne by (intros <-; apply Hno; by repeat constructor).
           apply insert_items_in; [done|]. by apply dict_get_elem.
        -- repeat apply Forall_cons_2; [| |apply Forall_nil_2]; cbn [fst snd]; split.
           ++ subst df3 df2. apply at_set_columns, at_set_column_new.
           ++ rewrite lookup_insert_ne by done. by rewrite lookup_insert_eq.
           ++ subst df3. apply at_set_column_new.
           ++ by rewrite lookup_insert_eq.
      * destruct Hj as [Hj|?]; [|done].
        intros result' Hanswer' Hsf'.
        destruct (Hdone j Hj result' Hanswer' Hsf') as (cells & Hcells' & Hall).
        exists cells. split; [done|].
        eapply Forall_impl; [exact Hall|]. intros [k v] [Hk Hv]. cbn [fst snd] in *.
        split; [by apply Hcols3|]. by rewrite Hother.
Qed.

Lemma retry_rows_run (D : nat → Prop) (batch : list nat) (st : run) :
  (∀ i, i ∈ batch → (i < List.length (rows df0))%nat) → retry_state df0 client D st →
  ∃ st', st_for batch (retry_record client) st = (Ok tt, st')
         ∧ retry_state df0 client (fun i => D i ∨ i ∈ batch) st'
         ∧ saved st' = saved st ∧ submitted st' = submitted st ++ batch.
Proof.
  revert D st. induction batch as [|i batch IH]; intros D st Hin Hst; simpl.
  - eexists. split; [reflexivity|]. rewrite app_nil_r. split; [|done].
    eapply retry_state_weaken; [|exact Hst]. intros j. split; [|by left].
    intros [?|Hj]; [done|by apply elem_of_nil in Hj].
  - destruct (retry_record_step D i st) as (st1 & Hrun1 & Hst1 & Hs1 & Hsub1);
      [apply Hin; by left|done|].
    destruct (IH _ st1 (fun j Hj => Hin j (list_elem_of_further _ _ _ Hj)) Hst1)
      as (st2 & Hrun2 & Hst2 & Hs2 & Hsub2).
    exists st2. split; [unfold st_bind; by rewrite Hrun1|].
    split; [|split; [congruence|by rewrite Hsub2, Hsub1, <- app_assoc]].
    eapply retry_state_weaken; [|exact Hst2]. intros j. rewrite elem_of_cons. tauto.
Qed.

Lemma retry_batch_run (D : nat → Prop) (bs : nat) (errs : list nat) (b : nat) (st : run) :
  (∀ i, i ∈ errs → (i < List.length (rows df0))%nat) → retry_state df0 client D st →
  ∃ st', retry_batch client bs errs b st = (Ok tt, st')
         ∧ retry_state df0 client (fun i => D i ∨ i ∈ batch_of bs errs b) st'
         ∧ saved st' = saved st ++ [frame st']
         ∧ submitted st' = submitted st ++ batch_of bs errs b.
Proof.
  intros Hin Hst. unfold retry_batch. fold (batch_of bs errs b).
  destruct (retry_rows_run D (batch_of bs errs b) st) as (st1 & Hrun1 & Hst1 & Hs1 & Hsub1);
    [intros i Hi; apply Hin; by eapply batch_of_subset|done|].
  unfold st_bind. rewrite Hrun1. eexists. split; [reflexivity|].
  cbn [to_csv frame saved submitted]. by rewrite Hs1.
Qed.

Lemma retry_batches_run (bs : nat) (errs : list nat) (batch_nums : list nat)
    (D : nat → Prop) (st : run) :
  (∀ i, i ∈ errs → (i < List.length (rows df0))%nat) → retry_state df0 client D st →
  ∃ st', st_for batch_nums (retry_batch client bs errs) st = (Ok tt, st')
         ∧ retry_state df0 client
             (fun i => D i ∨ i ∈ List.concat (batch_of bs errs <$> batch_nums)) st'
         ∧ List.length (saved st') = (List.length (saved st) + List.length batch_nums)%nat
         ∧ (batch_nums ≠ [] → last (saved st') = Some (frame st'))
         ∧ submitted st' = submitted st ++ List.concat (batch_of bs errs <$> batch_nums).
Proof.
  intros Hin. revert D st.
  induction batch_nums as [|b batch_nums IH]; intros D st Hst; simpl.
  - eexists. split; [reflexivity|]. rewrite app_nil_r. split_and!; [|lia|done..].
    eapply retry_state_weaken; [|exact Hst]. intros j. split; [|by left].
    intros [?|Hj]; [done|by apply elem_of_nil in Hj].
  - destruct (retry_batch_run D bs errs b st Hin Hst) as (st1 & Hrun1 & Hst1 & Hs1 & Hsub1).
    destruct (IH _ st1 Hst1) as (st2 & Hrun2 & Hst2 & Hs2 & Hlast2 & Hsub2).
    exists st2. split; [unfold st_bind; by rewrite Hrun1|]. split_and!.
    + eapply retry_state_weaken; [|exact Hst2]. intros j. rewrite elem_of_app. tauto.
    + rewrite Hs2, Hs1, length_app. simpl. lia.
    + intros _. destruct batch_nums as [|b' batch_nums]; [|by apply Hlast2].
      simpl in Hrun2. injection Hrun2 as <-. by rewrite Hs1, last_snoc.
    + by rewrite Hsub2, Hsub1, <- app_assoc.
Qed.

End RetryRun.

Lemma elem_of_where_notna (df : DataFrame) (col : string) (i : nat) :
  i ∈ where_notna df col →
  ∃ r, rows df !! i = Some r ∧ Pd.notna (Pd.cell r col) = true.
Proof.
  unfold where_notna. intros Hi. apply list_elem_of_In, filter_In in Hi as [_ Hi].
  destruct (rows df !! i) as [r|]; [by exists r|done].
Qed.

Lemma dict_get_app_l (d d' : pydict) (k : string) (v : pyval) :
  Py.dict_get d k = Some v → Py.dict_get (d ++ d') k = Some v.
Proof.
  induction d as [|[k0 v0] d IH]; [done|]. simpl.
  destruct (String.eqb k0 k); [done|apply IH].
Qed.

Section RetryTheorems.
Context `{Externals}.

Lemma retry_claude_errors_run (df : DataFrame) (client : nat → claude_client) (bs : nat) :
  let errs := where_notna df "L2_sonnet_error" in
  (∀ i, well_behaved (client i)) →
  Pd.has_column df "L2_sonnet_error" = true → Pd.has_column df "L2_pro_decision" = true →
  bs ≠ 0%nat →
  ∃ st, retry_claude_errors df client bs = (Ok tt, st)
        ∧ retry_state df client (fun i => i ∈ errs) st
        ∧ submitted st = errs
        ∧ List.length (saved st) = ((List.length errs + bs - 1) / bs)%nat
        ∧ (errs ≠ [] → last (saved st) = Some (frame st)).
Proof.
  intros errs Hclient Herr Hpro Hbs. unfold retry_claude_errors. rewrite Herr. fold errs.
  assert (retry_state df client (fun _ => False)
            {| frame := df; saved := []; submitted := [] |}) as Hstart.
  { split_and!; [apply cells_kept_refl|done..]. }
  destruct (Nat.eqb_spec (List.length errs) 0) as [Hnil|Hsome].
  - apply length_zero_iff_nil in Hnil. eexists. split; [reflexivity|].
    rewrite Hnil. cbn [submitted saved]. split_and!; [|done| |done].
    + eapply retry_state_weaken; [|exact Hstart]. intros i. split; [|done].
      intros Hi. by apply elem_of_nil in Hi.
    + simpl. rewrite Nat.div_small; [done|lia].
  - destruct (Nat.eqb_spec bs 0) as [|_]; [done|].
    destruct (retry_batches_run df client (proj1 (has_column_true _ _) Hpro) Hclient bs errs
                (seq 0 ((List.length errs + bs - 1) / bs)) (fun _ => False)
                {| frame := df; saved := []; submitted := [] |})
      as (st & Hrun & Hst & Hsaved & Hlast & Hsub); [|done|].
    { intros i Hi. apply elem_of_where_notna in Hi as (r & Hr & _).
      by eapply lookup_lt_Some. }
    rewrite batches_cover in Hst, Hsub by done.
    exists st. split; [done|]. split_and!.
    + eapply retry_state_weaken; [|exact Hst]. intros i. tauto.
    + done.
    + by rewrite Hsaved, length_seq.
    + intros _. apply Hlast. intros Hseq. apply (f_equal List.length) in Hseq.
      rewrite length_seq in Hseq. simpl in Hseq.
      assert (bs ≤ List.length errs + bs - 1)%nat as Hle by lia.
      pose proof (Nat.Div0.div_le_mono _ _ bs Hle) as Hdiv.
      rewrite Nat.div_same in Hdiv by done. lia.
Qed.

Lemma retry_record_kept (client : nat → claude_client) (errs : list nat) (df0 : DataFrame)
    (idx : nat) :
  idx ∈ errs →
  keeps (always (retry_kept errs df0)) (retry_record client idx) (fun _ => True).
Proof.
  intros Hidx.
  assert (∀ k v, k ∈ retry_columns →
            keeps (always (retry_kept errs df0)) (at_set idx k v) (fun _ => True)) as Hset.
  { intros k v Hk. apply always_at_set. intros df [Hkept Hrows]. split.
    - by apply cells_kept_at_set.
    - intros j c Hj Hc. rewrite <- Hrows by done. apply frame_cell_at_set_row.
      + by intros ->.
      + destruct Hkept as (_ & Hsub & _). by apply Hsub. }
  unfold retry_record.
  eapply keeps_bind; [apply always_get_frame|intros df _].
  eapply keeps_bind; [apply keeps_lift|intros row _].
  eapply keeps_bind; [apply always_submit|intros _ _].
  eapply keeps_bind; [apply keeps_lift|intros result _].
  destruct (still_failing result).
  - do 2 (eapply keeps_bind; [apply keeps_lift|intros ? _]).
    eapply keeps_weaken; [apply keeps_ret|done].
  - eapply keeps_bind; [apply keeps_lift|intros sf Hsf].
    apply flatten_ok_keys in Hsf.
    eapply keeps_bind; [|intros _ _].
    { apply keeps_for. intros [k v] Hkv. apply Hset.
      assert (k ∈ fixed_columns "L2_sonnet") as Hk.
      { rewrite <- Hsf. apply list_elem_of_fmap. by exists (k, v). }
      exact (proj1 (proj1 (Forall_forall _ _) sonnet_columns_retried k Hk)). }
    eapply keeps_bind; [|intros _ _].
    { destruct (Py.dict_has result "thinking").
      - do 2 (eapply keeps_bind; [apply keeps_lift|intros ? _]).
        apply Hset. by_compute.
      - eapply keeps_weaken; [apply keeps_ret|done]. }
    eapply keeps_bind; [apply always_get_frame|intros df' _].
    do 2 (eapply keeps_bind; [apply keeps_lift|intros ? _]).
    eapply keeps_bind; [apply Hset; by_compute|intros _ _].
    do 2 (eapply keeps_bind; [apply keeps_lift|intros ? _]).
    eapply keeps_weaken; [apply keeps_ret|done].
Qed.

End RetryTheorems.


(** X23.  With a client whose calls raise nothing but [Exception]s: in
    the file the retry leaves behind, a row whose retry failed again
    holds every cell it held before, the old error among them; a row
    whose retry succeeded holds the flattened columns of the new answer,
    with no error, the first 500 characters of the thinking text, and
    the agreement computed from the new decision and the decision Gemini
    Pro had reached. *)
Theorem retry_claude_errors_row_outcome `{Externals} (df : DataFrame)
    (client : nat → claude_client) (batch_size : nat) (idx : nat) :
  let out := retry_claude_errors df client batch_size in
  (∀ i, well_behaved (client i)) →
  Pd.has_column df "L2_sonnet_error" = true → Pd.has_column df "L2_pro_decision" = true →
  batch_size ≠ 0%nat →
  idx ∈ where_notna df "L2_sonnet_error" →
  ∃ final result,
    last (saved (snd out)) = Some final
    ∧ retry_answer df client idx = Ok result
    ∧ if still_failing result then
        ∀ c, c ∈ columns df → frame_cell final idx c = frame_cell df idx c
      else
        ∃ cells,
          retry_cells (default VNaN (frame_cell df idx "L2_pro_decision")) result = Ok cells
          ∧ Py.dict_get cells "L2_sonnet_error" = Some VNone
          ∧ Forall (fun kv => frame_cell final idx (fst kv) = Some (snd kv)) cells.
Proof.
  intros out Hclient Herr Hpro Hbs Hidx.
  destruct (retry_claude_errors_run df client batch_size Hclient Herr Hpro Hbs)
    as (st & Hrun & (Hkept & Hfail & Hdone) & _ & _ & Hlast).
  unfold out. rewrite Hrun. cbn [snd].
  exists (frame st).
  pose proof Hidx as Hrow. apply elem_of_where_notna in Hrow as (r & Hr & _).
  assert (∃ result, retry_answer df client idx = Ok result ∧ retry_shaped result)
    as (result & Hanswer & Hshaped).
  { unfold retry_answer, Pd.iloc. rewrite Hr. cbn [pybind].
    edestruct claude_retry_shaped as (d & n & Hcall & Hd); [apply (Hclient idx)|].
    exists d. by rewrite Hcall. }
  exists result. split; [|split; [done|]].
  { apply Hlast. intros Hnil. rewrite Hnil in Hidx. by apply elem_of_nil in Hidx. }
  destruct (still_failing result) eqn:Hsf.
  - intros c Hc. apply Hfail; [|done]. intros [_ Hs].
    unfold retry_succeeds in Hs. by rewrite Hanswer, Hsf in Hs.
  - destruct (Hdone idx Hidx result Hanswer Hsf) as (cells & Hcells & Hall).
    exists cells. split; [done|]. split.
    + destruct (flatten_shaped result "L2_sonnet" (proj1 (proj1 Hshaped)))
        as (sf & Hf & _ & _ & He).
      unfold retry_cells in Hcells. rewrite Hf in Hcells. unfold pybind in Hcells.
      unfold still_failing in Hsf.
      repeat case_match; simplify_eq;
        (apply dict_get_app_l; change ("L2_sonnet_error") with ("L2_sonnet" +:+ "_error");
         by rewrite He).
    + eapply Forall_impl; [exact Hall|]. by intros kv [_ ?].
Qed.

(** X24.  The retry writes under the flattened Claude columns, the thinking
    column and the agreement column only, and only in rows that held an
    error: every frame it saves has the rows and columns of the frame it
    read, with at most those columns added, every cell under another
    column as it was (so the review flag and the timestamp of Layer 2
    stay as they were), and every row without an error as it was. *)
Theorem retry_claude_errors_writes_error_rows_only `{Externals} (df : DataFrame)
    (client : nat → claude_client) (batch_size : nat) :
  let out := retry_claude_errors df client batch_size in
  Forall (retry_kept (where_notna df "L2_sonnet_error") df) (saved (snd out)).
Proof.
  intros out. unfold out, retry_claude_errors.
  destruct (Pd.has_column df "L2_sonnet_error"); [|apply Forall_nil_2].
  destruct (List.length _ =? 0)%nat; [apply Forall_nil_2|].
  destruct (batch_size =? 0)%nat; [apply Forall_nil_2|].
  match goal with
  | |- Forall ?J (saved (snd (?m ?st))) =>
      assert (keeps (always J) m (fun _ => True)) as Hk;
      [|assert (always J st) as Hst
          by (split; [split; [apply cells_kept_refl|done]|apply Forall_nil_2]);
        by destruct (Hk st Hst) as [[_ ?] _]]
  end.
  apply keeps_for. intros b _. unfold retry_batch.
  eapply keeps_bind; [|intros _ _; apply always_to_csv].
  apply keeps_for. intros idx Hidx. apply retry_record_kept.
  eapply (batch_of_subset batch_size _ b). exact Hidx.
Qed.

(** ** The token logger *)

Section LoggerFacts.
Import Logger.

Lemma sum_insert_fresh (f : ModelTotals → Z) (m : gmap string ModelTotals) (k : string)
    (t : ModelTotals) :
  m !! k = None →
  map_fold (fun _ t acc => f t + acc)%Z 0%Z (<[k:=t]> m)
  = (f t + map_fold (fun _ t acc => f t + acc)%Z 0%Z m)%Z.
Proof. intros Hk. apply (map_fold_insert_L (fun _ t acc => f t + acc)%Z); [intros; lia|done]. Qed.

Lemma sum_insert (f : ModelTotals → Z) (m : gmap string ModelTotals) (k : string)
    (t : ModelTotals) :
  map_fold (fun _ t acc => f t + acc)%Z 0%Z (<[k:=t]> m)
  = (f t - from_option f 0 (m !! k) + map_fold (fun _ t acc => f t + acc)%Z 0%Z m)%Z.
Proof.
  destruct (m !! k) as [t0|] eqn:Hk; simpl.
  - rewrite <- insert_delete_eq, sum_insert_fresh by apply lookup_delete_eq.
    rewrite <- (insert_delete_id m k t0 Hk) at 2.
    rewrite sum_insert_fresh by apply lookup_delete_eq. lia.
  - rewrite sum_insert_fresh by done. lia.
Qed.

Lemma log_usage_totals (model : string) (input output : Z) (layer : string)
    (rid : option string) (self : TokenLogger) :
  totals (snd (log_usage model input output layer rid self)) =
    let t := default {| input_tokens := 0; output_tokens := 0; api_calls := 0 |}
                     (totals self !! model) in
    <[model := {| input_tokens := input_tokens t + input;
                  output_tokens := output_tokens t + output;
                  api_calls := api_calls t + 1 |}]> (totals self).
Proof.
  unfold log_usage. cbn [snd totals]. case_bool_decide as Hs.
  - destruct Hs as [t Ht]. rewrite Ht. cbn [default].
    rewrite <- (insert_id (totals self) model t Ht) at 1. by rewrite alter_insert_eq.
  - apply eq_None_not_Some in Hs. rewrite Hs. cbn [default]. by rewrite alter_insert_eq.
Qed.

Lemma sum_field_snoc (f : UsageRecord → Z) (rs : list UsageRecord) (r : UsageRecord) :
  sum_field f (rs ++ [r]) = (sum_field f rs + f r)%Z.
Proof. unfold sum_field. induction rs as [|r0 rs IH]; simpl; lia. Qed.

Lemma consistent_new : consistent new_logger.
Proof. split_and!; [intros model; apply lookup_empty|done..]. Qed.

Lemma consistent_log_usage (model : string) (input output : Z) (layer : string)
    (rid : option string) (self : TokenLogger) :
  consistent self → consistent (snd (log_usage model input output layer rid self)).
Proof.
  intros (Hmodel & Htokens & Hcalls).
  unfold get_total_tokens, sum_totals in *. injection Htokens as Hin Hout.
  pose proof (Hmodel model) as Hthis.
  split_and!.
  - intros m. rewrite log_usage_totals. cbn zeta. cbn [log_usage snd records].
    unfold records_of. rewrite List.filter_app. cbn [List.filter record_model].
    destruct (String.eqb_spec model m) as [<-|Hne].
    + rewrite lookup_insert_eq, Hthis. unfold records_of.
      destruct (List.filter _ (records self)) as [|r rs]; cbn [app default].
      * simpl. do 2 f_equal; lia.
      * f_equal.
        change (r :: rs ++ [?x]) with ((r :: rs) ++ [x]).
        rewrite !sum_field_snoc, length_app. cbn [record_input_tokens record_output_tokens].
        f_equal. simpl. lia.
    + rewrite lookup_insert_ne, app_nil_r by done. apply Hmodel.
  - unfold get_total_tokens, sum_totals.
    rewrite log_usage_totals. cbn zeta. cbn [log_usage snd records].
    rewrite !sum_field_snoc, !sum_insert, Hin, Hout. cbn [record_input_tokens record_output_tokens].
    destruct (totals self !! model); simpl; f_equal; lia.
  - unfold sum_totals.
    rewrite log_usage_totals. cbn zeta. cbn [log_usage snd records].
    rewrite sum_insert, Hcalls, length_app. destruct (totals self !! model); simpl; lia.
Qed.

End LoggerFacts.

(** X25.  The logger's totals always agree with its records: after any calls
    of [log_usage] on a fresh logger, a model has totals exactly when a
    call named it, its token totals are the sums over its records and
    its call count their number, and the totals [get_total_tokens]
    returns are the sums over all the records. *)
Theorem logger_totals_match_records
    (calls : list (string * Z * Z * string * option string)) :
  Logger.consistent (Logger.logged calls)
  ∧ List.length (Logger.records (Logger.logged calls)) = List.length calls.
Proof.
  unfold Logger.logged.
  set (step := fun self '(model, input, output, layer, rid) =>
                 snd (Logger.log_usage model input output layer rid self)).
  assert (∀ self, Logger.consistent self →
            Logger.consistent (fold_left step calls self)
            ∧ List.length (Logger.records (fold_left step calls self))
              = (List.length (Logger.records self) + List.length calls)%nat) as Hgen.
  { induction calls as [|[[[[model input] output] layer] rid] calls IH]; intros self Hself.
    - cbn [fold_left List.length]. split; [done|lia].
    - cbn [fold_left List.length].
      destruct (IH _ (consistent_log_usage model input output layer rid self Hself))
        as [Hc Hl].
      split; [exact Hc|]. unfold step at 2. rewrite Hl.
      cbn [Logger.log_usage snd Logger.records]. rewrite length_app. simpl. lia. }
  apply (Hgen Logger.new_logger consistent_new).
Qed.

(** ** The properties at sample inputs *)

Lemma partial_answer_well_typed : checks_well_typed partial_answer.
Proof.
  split.
  - intros v Hv. vm_compute in Hv. injection Hv as <-. by eexists.
  - intros tag v Htag Hv. unfold inc_tags in Htag.
    repeat (apply elem_of_cons in Htag as [->|Htag];
            [vm_compute in Hv; first [discriminate Hv | injection Hv as <-; by eexists]|]).
    by apply elem_of_nil in Htag.
Qed.

Lemma layer1_first_answer_wins_witness :
  gemini_fails (H := sample_externals)
    (recovering_gemini "answer: exclude"
       (format_layer1_prompt (H := sample_externals) "Porcine liver perfusion model" "") 0) ∧
  ∃ d, Layer1.screen_record_layer1 (H := sample_externals)
         (recovering_gemini "answer: exclude") "Porcine liver perfusion model" "" None 3
       = (Ok d, 2%nat)
       ∧ Py.dict_get d "decision" = Some (VStr "exclude")
       ∧ Py.dict_get d "error" = Some VNone.
Proof.
  split; [reflexivity|].
  destruct (layer1_first_answer_wins (H := sample_externals)
              (recovering_gemini "answer: exclude") "Porcine liver perfusion model" "" None 3 1
              {| gemini_text := "answer: exclude"; gemini_usage := None |}
              [("decision", VStr "exclude"); ("confidence", VStr "high");
               ("reasoning", VStr "animal study")])
    as (d & Hrun & Hdec & _ & _ & _ & Herr & _);
    [lia|intros n Hn; assert (n = 0)%nat as -> by lia; reflexivity|reflexivity..|].
  exists d. split; [exact Hrun|]. split; [exact Hdec|exact Herr].
Defined.

Lemma judges_first_answer_wins_witness :
  checks_well_typed partial_answer ∧
  (∃ d, Layer2.screen_with_gemini_pro (H := checked_externals)
          (recovering_gemini "answer: checked") "HOPE versus cold storage" "" None 3
        = (Ok d, 2%nat)
        ∧ Py.dict_get d "decision" = Some (VStr "exclude")
        ∧ Py.dict_get d "confidence" = Some (VStr "low")) ∧
  (∃ d, Layer2.screen_with_claude (H := checked_externals)
          (recovering_claude "answer: checked") "HOPE versus cold storage" "" None 3
        = (Ok d, 2%nat)
        ∧ Py.dict_get d "decision" = Some (VStr "exclude")
        ∧ Py.dict_get d "thinking" = Some (VStr "weighing the criteria")).
Proof.
  split; [exact partial_answer_well_typed|].
  destruct (judges_first_answer_wins (H := checked_externals)
              (recovering_gemini "answer: checked") (recovering_claude "answer: checked")
              "HOPE versus cold storage" "" None 3 1 partial_answer)
    as [Hpro Hclaude]; [lia|reflexivity|exact partial_answer_well_typed|].
  split.
  - destruct (Hpro {| gemini_text := "answer: checked"; gemini_usage := None |})
      as (d & Hrun & Hdec & Hconf & _);
      [intros n Hn; assert (n = 0)%nat as -> by lia; reflexivity|reflexivity..|].
    exists d. split; [exact Hrun|]. split; [exact Hdec|exact Hconf].
  - destruct (Hclaude {| usage_input_tokens := 900; usage_output_tokens := 300;
                         content := [ThinkingBlock "weighing the criteria";
                                     TextBlock "answer: checked"] |})
      as (d & Hrun & Hdec & _ & _ & _ & Hthink & _);
      [intros n Hn; assert (n = 0)%nat as -> by lia; reflexivity|reflexivity..|].
    exists d. split; [exact Hrun|]. split; [exact Hdec|exact Hthink].
Defined.

Lemma layer1_reports_last_failure_witness :
  (∀ n, (n < 3)%nat →
        gemini_fails (H := sample_externals)
          (flaky_gemini (format_layer1_prompt (H := sample_externals)
                           "HOPE versus cold storage" "") n)) ∧
  ∃ d, Layer1.screen_record_layer1 (H := sample_externals) flaky_gemini
         "HOPE versus cold storage" "" None 3 = (Ok d, 3%nat)
       ∧ Py.dict_get d "decision" = Some (VStr "pass")
       ∧ Py.dict_get d "error" = Some (VStr "Invalid JSON: I cannot answer that.").
Proof.
  assert (∀ p n, gemini_fails (H := sample_externals) (flaky_gemini p n)) as Hg.
  { intros p n. unfold flaky_gemini. destruct (n =? 0)%nat; reflexivity. }
  split; [intros n _; apply Hg|].
  destruct (layer1_reports_last_failure (H := sample_externals) flaky_gemini
              "HOPE versus cold storage" "" None 3)
    as (d & Hrun & Hdec & _ & Herr & _); [lia|intros n _; apply Hg|].
  exists d. split; [exact Hrun|]. split; [exact Hdec|exact Herr].
Defined.

Lemma judges_report_last_failure_witness :
  (∀ n, (n < 3)%nat →
        gemini_fails (H := sample_externals)
          (flaky_gemini (format_layer2_prompt (H := sample_externals)
                           "HOPE versus cold storage" "") n)) ∧
  (∀ n, (n < 3)%nat →
        claude_fails (H := sample_externals)
          (flaky_claude (format_layer2_prompt (H := sample_externals)
                           "HOPE versus cold storage" "") n)) ∧
  (∃ d, Layer2.screen_with_gemini_pro (H := sample_externals) flaky_gemini
          "HOPE versus cold storage" "" None 3 = (Ok d, 3%nat)
        ∧ Py.dict_get d "error" = Some (VStr "Max retries")) ∧
  (∃ d, Layer2.screen_with_claude (H := sample_externals) flaky_claude
          "HOPE versus cold storage" "" None 3 = (Ok d, 3%nat)
        ∧ Py.dict_get d "error" = Some (VStr "529 Overloaded")).
Proof.
  assert (∀ p n, gemini_fails (H := sample_externals) (flaky_gemini p n)) as Hg.
  { intros p n. unfold flaky_gemini. destruct (n =? 0)%nat; reflexivity. }
  assert (∀ p n, claude_fails (H := sample_externals) (flaky_claude p n)) as Hc.
  { intros p n. unfold flaky_claude. destruct (n =? 0)%nat; reflexivity. }
  split; [intros n _; apply Hg|]. split; [intros n _; apply Hc|].
  destruct (judges_report_last_failure (H := sample_externals) flaky_gemini flaky_claude
              "HOPE versus cold storage" "" None 3) as [Hpro Hclaude]; [lia|].
  split.
  - destruct Hpro as (d & Hrun & _ & _ & Herr & _); [intros n _; apply Hg|].
    exists d. split; [exact Hrun|exact Herr].
  - destruct Hclaude as (d & Hrun & _ & _ & Herr & _); [intros n _; apply Hc|].
    exists d. split; [exact Hrun|exact Herr].
Defined.

Lemma judge_discards_answers_with_ill_typed_checks_witness :
  parse_json_response (Externals := checked_externals) "answer: null checks"
  = null_checks_answer ∧
  ∃ d, Layer2.screen_with_gemini_pro (H := checked_externals)
         (gemini_answers "answer: null checks") "HOPE versus cold storage" "" None 3
       = (Ok d, 3%nat)
       ∧ Py.dict_get d "decision" = Some (VStr "include")
       ∧ Py.dict_get d "error" = Some (VStr "'NoneType' object has no attribute 'get'").
Proof.
  split; [reflexivity|].
  destruct (judge_discards_answers_with_ill_typed_checks (H := checked_externals)
              (gemini_answers "answer: null checks") "HOPE versus cold storage" "" None 3
              (fun _ => {| gemini_text := "answer: null checks"; gemini_usage := None |})
              (fun _ => [("decision", VStr "include"); ("inclusion_check", VNone)])
              (fun _ => VNone))
    as (d & Hrun & Hdec & _ & Herr); [lia| |].
  { intros n _. split_and!; [reflexivity..|]. intros ic Hic. discriminate Hic. }
  exists d. split; [exact Hrun|]. split; [exact Hdec|exact Herr].
Defined.

Lemma flatten_extract_cells_witness :
  checks_well_typed partial_answer ∧
  ∃ result flat,
    Layer2.extract_inclusion_result (VDict partial_answer) = Ok result
    ∧ Layer2.flatten_result result "L2_pro" = Ok flat
    ∧ Py.dict_get flat "L2_pro_decision" = Some (VStr "exclude")
    ∧ Py.dict_get flat "L2_pro_inc1_status" = Some (VStr "no")
    ∧ Py.dict_get flat "L2_pro_inc3_status" = Some (VStr "unclear")
    ∧ Py.dict_get flat "L2_pro_inc3_evidence" = Some (VStr "no comparator").
Proof.
  split; [exact partial_answer_well_typed|].
  destruct (flatten_extract_cells partial_answer "L2_pro" partial_answer_well_typed)
    as (result & flat & Hext & Hflat & Hdec & _ & _ & _ & _ & _ & _ & Htags).
  exists result, flat. split; [exact Hext|]. split; [exact Hflat|]. split; [exact Hdec|].
  split; [exact (proj1 (Htags "INC-1" ltac:(by repeat constructor)))|].
  split; [exact (proj1 (Htags "INC-3" ltac:(by repeat constructor)))|].
  exact (proj2 (Htags "INC-3" ltac:(by repeat constructor))).
Defined.




Lemma process_screening_leaves_earlier_rows_witness :
  well_formed (init_columns L1_new_columns sample_records) = true ∧
  rows (init_columns L1_new_columns sample_records) !! 0%nat = Some sample_first_row ∧
  Forall (fun j => (1 ≤ j)%nat)
         (submitted (snd (process_screening (H := sample_externals) sample_records None ""
                            sample_flash 1 (Some 1%nat)))) ∧
  Forall (fun df => frame_cell df 0 "L1_decision" = Some VNone
                    ∧ frame_cell df 0 "title" = Some (VStr "Porcine liver perfusion model"))
         (saved (snd (process_screening (H := sample_externals) sample_records None ""
                        sample_flash 1 (Some 1%nat)))).
Proof.
  split; [reflexivity|]. split; [reflexivity|].
  destruct (process_screening_leaves_earlier_rows (H := sample_externals) sample_records None ""
              sample_flash 1 (Some 1%nat) 0 sample_first_row) as [Hsub Hsaved];
    [reflexivity|reflexivity|simpl; lia|].
  split; [exact Hsub|].
  eapply Forall_impl; [exact Hsaved|].
  intros df (_ & r & Hr & Hcells & _). unfold frame_cell. rewrite Hr.
  rewrite !Hcells by (by_compute). split; reflexivity.
Defined.

Lemma process_layer2_records_own_results_witness :
  Pd.has_column sample_layer1_frame "L1_decision" = true ∧
  (∀ l : list nat, id l ≡ₚ l) ∧
  ∃ df, last (saved (snd (process_layer2 (H := sample_externals) sample_layer1_frame
                            (fun _ => gemini_answers "answer: include")
                            (fun _ => claude_answers "answer: exclude") 2 None id)))
        = Some df
        ∧ layer2_row (H := sample_externals) sample_layer1_frame
            (fun _ => gemini_answers "answer: include")
            (fun _ => claude_answers "answer: exclude") 2 df.
Proof.
  split; [reflexivity|]. split; [reflexivity|].
  apply (process_layer2_records_own_results (H := sample_externals) sample_layer1_frame
           (fun _ => gemini_answers "answer: include")
           (fun _ => claude_answers "answer: exclude") 2 None id 2);
    [intros _; apply gemini_answers_well_behaved|intros _; apply claude_answers_well_behaved
    |reflexivity|lia|reflexivity|by_compute].
Defined.


Lemma merge_main_decides_every_row_witness :
  rows sample_merge_frame ≠ [] ∧
  ∃ out rest r,
    merge_main (H := sample_externals) first_rows sample_merge_frame
    = (FullResults out :: rest, r)
    ∧ frame_cell out 0 "auto_decision" = Some (VStr "exclude")
    ∧ frame_cell out 1 "auto_decision" = Some (VStr "include")
    ∧ frame_cell out 2 "auto_decision" = Some (VStr "uncertain")
    ∧ frame_cell out 2 "review_priority" = Some (VStr "high")
    ∧ frame_cell out 3 "final_decision" = Some (VStr "exclude").
Proof.
  split; [discriminate|].
  destruct (merge_main_decides_every_row (H := sample_externals) first_rows sample_merge_frame)
    as (out & rest & r & Hrun & _ & Hcells); [discriminate|].
  exists out, rest, r. split; [exact Hrun|].
  destruct (Hcells 0%nat _ eq_refl) as (H0 & _).
  destruct (Hcells 1%nat _ eq_refl) as (H1 & _).
  destruct (Hcells 2%nat _ eq_refl) as (H2 & H2' & _).
  destruct (Hcells 3%nat _ eq_refl) as (_ & _ & H3 & _).
  split; [exact H0|]. split; [exact H1|]. split; [exact H2|]. split; [exact H2'|exact H3].
Defined.

Lemma merge_after_layer2_stops_at_summary_witness :
  Pd.has_column sample_layer1_frame "L1_decision" = true ∧
  Pd.has_column sample_layer1_frame "L2_opus_decision" = false ∧
  frame_cell sample_layer1_frame 0 "L1_decision" = Some (VStr "pass") ∧
  ∃ layer2_results merged,
    last (saved (snd (process_layer2 (H := sample_externals) sample_layer1_frame
                        (fun _ => gemini_answers "answer: include")
                        (fun _ => claude_answers "answer: include") 2 None id)))
    = Some layer2_results
    ∧ merge_main (H := sample_externals) first_rows layer2_results
      = ([FullResults merged], Raise (KeyError "L2_opus_decision")).
Proof.
  split; [reflexivity|]. split; [reflexivity|]. split; [reflexivity|].
  destruct (merge_after_layer2_stops_at_summary (H := sample_externals) first_rows
              sample_layer1_frame (fun _ => gemini_answers "answer: include")
              (fun _ => claude_answers "answer: include") 2 None id 0)
    as (layer2_results & merged & _ & Hlast & Hmerge);
    [intros _; apply gemini_answers_well_behaved|intros _; apply claude_answers_well_behaved
    |reflexivity|reflexivity|lia|reflexivity|reflexivity|].
  exists layer2_results, merged. split; [exact Hlast|exact Hmerge].
Defined.

Lemma merge_summary_counts_add_up_witness :
  merge_main (H := sample_externals) first_rows sample_merge_frame
  = ([FullResults sample_merged; SummaryFile sample_summary;
      HighPriority sample_high_priority; LowPrioritySample sample_low_priority], Ok tt)
  ∧ total sample_summary = 4%Z
  ∧ (final_include sample_summary + final_exclude sample_summary
     + final_uncertain sample_summary = total sample_summary)%Z
  ∧ (l2_both_include sample_summary + l2_both_exclude sample_summary
     + l2_disagree sample_summary = l2_records sample_summary)%Z
  ∧ l2_records sample_summary = l1_pass sample_summary.
Proof.
  assert (merge_main (H := sample_externals) first_rows sample_merge_frame
          = ([FullResults sample_merged; SummaryFile sample_summary;
              HighPriority sample_high_priority; LowPrioritySample sample_low_priority],
             Ok tt)) as Hrun by (vm_compute; reflexivity).
  split; [exact Hrun|].
  destruct (merge_summary_counts_add_up (H := sample_externals) first_rows sample_merge_frame
              _ _ _ _ ltac:(discriminate) Hrun) as (Htotal & Hfinal & _ & _ & Hl2 & Hsplit & _).
  split; [exact Htotal|]. split; [exact Hfinal|]. split; [exact Hsplit|exact Hl2].
Defined.

Lemma merge_exports_high_priority_records_witness :
  merge_main (H := sample_externals) first_rows sample_merge_frame
  = ([FullResults sample_merged; SummaryFile sample_summary;
      HighPriority sample_high_priority; LowPrioritySample sample_low_priority], Ok tt)
  ∧ (0 < final_include sample_summary + final_uncertain sample_summary)%Z
  ∧ ∃ high rest,
      [HighPriority sample_high_priority; LowPrioritySample sample_low_priority]
      = HighPriority high :: rest
      ∧ Z.of_nat (List.length (rows high))
        = (final_include sample_summary + final_uncertain sample_summary)%Z.
Proof.
  assert (merge_main (H := sample_externals) first_rows sample_merge_frame
          = ([FullResults sample_merged; SummaryFile sample_summary;
              HighPriority sample_high_priority; LowPrioritySample sample_low_priority],
             Ok tt)) as Hrun by (vm_compute; reflexivity).
  split; [exact Hrun|].
  destruct (merge_exports_high_priority_records (H := sample_externals) first_rows
              sample_merge_frame _ _ _ _ ltac:(discriminate) Hrun) as (_ & Hhigh & _).
  split; [reflexivity|]. exact (Hhigh eq_refl).
Defined.


Lemma retry_claude_errors_row_outcome_witness :
  (1%nat ∈ where_notna sample_layer2_results "L2_sonnet_error") ∧
  (2%nat ∈ where_notna sample_layer2_results "L2_sonnet_error") ∧
  (∃ final result cells,
     last (saved (snd (retry_claude_errors (H := sample_externals) sample_layer2_results
                         retry_client 1))) = Some final
     ∧ retry_answer (H := sample_externals) sample_layer2_results retry_client 1 = Ok result
     ∧ still_failing result = false
     ∧ retry_cells (VStr "exclude") result = Ok cells
     ∧ Py.dict_get cells "L2_sonnet_error" = Some VNone
     ∧ Forall (fun kv => frame_cell final 1 (fst kv) = Some (snd kv)) cells) ∧
  (∃ final,
     last (saved (snd (retry_claude_errors (H := sample_externals) sample_layer2_results
                         retry_client 1))) = Some final
     ∧ frame_cell final 2 "L2_sonnet_error" = Some (VStr "Max retries")
     ∧ frame_cell final 2 "L2_sonnet_decision" = Some (VStr "include")).
Proof.
  assert (1%nat ∈ where_notna sample_layer2_results "L2_sonnet_error") as H1
    by (vm_compute; by repeat constructor).
  assert (2%nat ∈ where_notna sample_layer2_results "L2_sonnet_error") as H2
    by (vm_compute; by repeat constructor).
  split; [exact H1|]. split; [exact H2|]. split.
  - destruct (retry_claude_errors_row_outcome (H := sample_externals) sample_layer2_results
                retry_client 1 1) as (final & result & Hlast & Hanswer & Hrow);
      [apply retry_client_well_behaved|reflexivity|reflexivity|lia|exact H1|].
    assert (still_failing result = false) as Hsf.
    { pose proof Hanswer as Hv. vm_compute in Hv. injection Hv as <-. reflexivity. }
    rewrite Hsf in Hrow. destruct Hrow as (cells & Hcells & Herr & Hall).
    exists final, result, cells. by split_and!.
  - destruct (retry_claude_errors_row_outcome (H := sample_externals) sample_layer2_results
                retry_client 1 2) as (final & result & Hlast & Hanswer & Hrow);
      [apply retry_client_well_behaved|reflexivity|reflexivity|lia|exact H2|].
    assert (still_failing result = true) as Hsf.
    { pose proof Hanswer as Hv. vm_compute in Hv. injection Hv as <-. reflexivity. }
    rewrite Hsf in Hrow.
    exists final. split; [exact Hlast|].
    rewrite !Hrow by (by repeat constructor). split; reflexivity.
Defined.
